(** * yukinator: a typed client for the Ergast F1 API

    Shallow embedding of [yukinator/utils.py], [yukinator/objects.py] and
    [yukinator/yukinator.py], and the properties of the flattener, the record
    layer and the client facade.

    Conventions of the embedding.
    - A Python [str] is a [string] of ASCII code points: [lower], [upper],
      the decimal digits and the white space of the interpreter are modelled
      on that range.
    - A Python [dict] is an association list in insertion order with the
      update rule of [dict.__setitem__] ([dict_set]); a [dict] that exists at
      run time has pairwise distinct keys ([NoDup] of its keys).
    - A Python [float] is an IEEE 754 binary64 value ([spec_float] with
      precision 53 and maximal exponent 1024).
    - A call that may raise returns a [result]; the methods of the client run
      in a state-and-exception monad over the outside world. *)

From Stdlib Require Import ZArith List String Ascii Bool Lia DecimalString.
From Stdlib Require Import Permutation.
From Stdlib Require Import Floats.SpecFloat.
Import ListNotations.

Local Open Scope string_scope.
Local Open Scope Z_scope.

(* ================================================================= *)
(** * The Python run time *)

Module Py.

(** ** Exceptions and results *)

Inductive exn : Type :=
| TypeError
| ValueError
| KeyError
| IndexError
| AttributeError
| OverflowError
| HTTPError (status : Z)
| JSONDecodeError
| NotAnAttrsClassError   (* attrs.exceptions *)
| WrongQueryParameters   (* yukinator/exceptions.py *)
| WrongDirectory.        (* yukinator/exceptions.py *)

Inductive result (A : Type) : Type :=
| Ok (a : A)
| Raise (e : exn).

Arguments Ok {A} a.
Arguments Raise {A} e.

Definition bind {A B : Type} (r : result A) (k : A -> result B) : result B :=
  match r with
  | Ok a => k a
  | Raise e => Raise e
  end.

Definition is_ok {A : Type} (r : result A) : bool :=
  match r with Ok _ => true | Raise _ => false end.

(** A list comprehension [[f(x) for x in xs]]: left to right, the first
    exception aborts the whole list. *)
Fixpoint mapM {A B : Type} (f : A -> result B) (xs : list A) : result (list B) :=
  match xs with
  | [] => Ok []
  | x :: xs' =>
      bind (f x) (fun y => bind (mapM f xs') (fun ys => Ok (y :: ys)))
  end.

(** ** Values *)

(** [datetime.date] and [datetime.time]; [tz_utc] is [tzinfo == timezone.utc]. *)
Record date : Type := mkdate { year : Z; month : Z; day : Z }.
Record time : Type := mktime { hour : Z; minute : Z; second : Z; tz_utc : bool }.

(** What [json.load] returns ([VNone] .. [VStr], [VList], [VDict]), the
    dates and times of the converters, and the instances of the attrs
    classes ([VObj]: class name and attributes in declaration order). *)
Unset Elimination Schemes.
Inductive value : Type :=
| VNone
| VBool (b : bool)
| VInt (n : Z)
| VFloat (f : spec_float)
| VStr (s : string)
| VDate (d : date)
| VTime (t : time)
| VList (l : list value)
| VDict (d : list (string * value))
| VObj (cls : string) (attrs : list (string * value)).
Set Elimination Schemes.

Definition dict : Type := list (string * value).

(** [isinstance(v, MutableMapping)] *)
Definition is_mapping (v : value) : bool :=
  match v with VDict _ => true | _ => false end.

(** ** [str] methods on ASCII *)

Definition is_upper (c : ascii) : bool :=
  let n := nat_of_ascii c in (Nat.leb 65 n && Nat.leb n 90)%bool.

Definition is_lower (c : ascii) : bool :=
  let n := nat_of_ascii c in (Nat.leb 97 n && Nat.leb n 122)%bool.

Definition ascii_lower (c : ascii) : ascii :=
  if is_upper c then ascii_of_nat (nat_of_ascii c + 32) else c.

Definition ascii_upper (c : ascii) : ascii :=
  if is_lower c then ascii_of_nat (nat_of_ascii c - 32) else c.

(** [s.lower()] *)
Fixpoint lower (s : string) : string :=
  match s with
  | EmptyString => EmptyString
  | String c r => String (ascii_lower c) (lower r)
  end.

(** [s.capitalize()]: the first character upper-cased, all the others
    lower-cased. *)
Definition capitalize (s : string) : string :=
  match s with
  | EmptyString => EmptyString
  | String c r => String (ascii_upper c) (lower r)
  end.

(** [bool(s)] for a [str] *)
Definition str_truthy (s : string) : bool :=
  match s with EmptyString => false | String _ _ => true end.

(** [sep.join(parts)] *)
Fixpoint join (sep : string) (parts : list string) : string :=
  match parts with
  | [] => ""
  | [p] => p
  | p :: ps => p ++ sep ++ join sep ps
  end.

(** [s[:-1]] *)
Fixpoint drop_last (s : string) : string :=
  match s with
  | EmptyString => EmptyString
  | String c EmptyString => EmptyString
  | String c r => String c (drop_last r)
  end.

(** ** [dict] *)

(** [d.get(k)] *)
Fixpoint lookup (k : string) (d : dict) : option value :=
  match d with
  | [] => None
  | (k', v) :: d' => if String.eqb k k' then Some v else lookup k d'
  end.

Definition keys_of (d : dict) : list string := map fst d.

(** [d[k] = v]: a present key keeps its position and takes the new value, a
    new key goes last. *)
Fixpoint dict_set (k : string) (v : value) (d : dict) : dict :=
  match d with
  | [] => [(k, v)]
  | (k', v') :: d' =>
      if String.eqb k k' then (k, v) :: d' else (k', v') :: dict_set k v d'
  end.

(** [dict(pairs)] for an iterable of pairs. *)
Definition dict_of_items (items : list (string * value)) : dict :=
  fold_left (fun d kv => dict_set (fst kv) (snd kv) d) items [].

(** [v[k]] for a [str] key. *)
Definition getitem (v : value) (k : string) : result value :=
  match v with
  | VDict d => match lookup k d with Some x => Ok x | None => Raise KeyError end
  | _ => Raise TypeError
  end.

(** [v[0]]; the keys of a JSON object are strings, so [0] is never one. *)
Definition getitem0 (v : value) : result value :=
  match v with
  | VList (x :: _) => Ok x
  | VList [] => Raise IndexError
  | VStr (String c _) => Ok (VStr (String c EmptyString))
  | VStr EmptyString => Raise IndexError
  | VDict _ => Raise KeyError
  | _ => Raise TypeError
  end.

(** [iter(v)]: what a [for] loop over [v] visits. *)
Definition iterate (v : value) : result (list value) :=
  match v with
  | VList l => Ok l
  | VDict d => Ok (map VStr (keys_of d))
  | VStr s => Ok (map (fun c => VStr (String c EmptyString)) (list_ascii_of_string s))
  | _ => Raise TypeError
  end.

End Py.

Import Py.

(* ================================================================= *)
(** * utils.py *)

Module Utils.

(** [new_key = parent_key.lower() + k.capitalize() if parent_key else k] *)
Definition new_key (parent_key k : string) : string :=
  if str_truthy parent_key then lower parent_key ++ capitalize k else k.

(** [bool(keys)] for [keys: list = None] *)
Definition keys_truthy (keys : option (list string)) : bool :=
  match keys with
  | Some (_ :: _) => true
  | _ => false
  end.

(** [k in keys] *)
Definition key_in (k : string) (keys : option (list string)) : bool :=
  match keys with
  | Some l => existsb (String.eqb k) l
  | None => false
  end.

(** [flatten_dict(v, parent_key)] for a mapping [v], with the generator
    [_flatten_dict_gen] inlined as the local [gen]; the two are mutually
    recursive in the source. *)
Fixpoint flatten_value (keys : option (list string)) (v : value)
    (parent_key : string) {struct v} : dict :=
  match v with
  | VDict d =>
      dict_of_items
        ((fix gen (d : list (string * value)) : list (string * value) :=
            match d with
            | [] => []
            | (k, v) :: rest =>
                let new_key := new_key parent_key k in
                ((if keys_truthy keys then
                    if (is_mapping v && key_in k keys)%bool
                    then flatten_value keys v new_key
                    else [(new_key, v)]
                  else
                    if is_mapping v
                    then flatten_value keys v new_key
                    else [(new_key, v)])
                 ++ gen rest)%list
            end) d)
  | _ => []
  end.

(** What one entry [(k, v)] of the traversed mapping yields. *)
Definition yield_entry (keys : option (list string)) (parent_key : string)
    (kv : string * value) : list (string * value) :=
  let '(k, v) := kv in
  let new_key := new_key parent_key k in
  if keys_truthy keys then
    if (is_mapping v && key_in k keys)%bool
    then flatten_value keys v new_key
    else [(new_key, v)]
  else
    if is_mapping v
    then flatten_value keys v new_key
    else [(new_key, v)].

(** The pairs yielded by [_flatten_dict_gen(d, parent_key)], in order. *)
Definition _flatten_dict_gen (keys : option (list string)) (d : dict)
    (parent_key : string) : list (string * value) :=
  flat_map (yield_entry keys parent_key) d.

(** [flatten_dict(d, parent_key) = dict(_flatten_dict_gen(d, parent_key))] *)
Definition flatten_dict (keys : option (list string)) (d : dict)
    (parent_key : string) : dict :=
  dict_of_items (_flatten_dict_gen keys d parent_key).

(** [flat_dict(d, keys)]; [d.items()] raises on a value that is no mapping. *)
Definition flat_dict (d : value) (keys : option (list string)) : result dict :=
  match d with
  | VDict items => Ok (flatten_dict keys items "")
  | _ => Raise AttributeError
  end.

End Utils.

Import Utils.

(* ================================================================= *)
(** * Built-in conversions: [int], [float], [datetime.strptime] *)

Module Builtins.

Definition is_digit (c : ascii) : bool :=
  let n := nat_of_ascii c in (Nat.leb 48 n && Nat.leb n 57)%bool.

(** The white space that [int] and [float] skip around the number in an
    ASCII [str]: tab, line feed, vertical tab, form feed, carriage return
    and the space.  The separators U+001C to U+001F are not skipped. *)
Definition is_space (c : ascii) : bool :=
  let n := nat_of_ascii c in
  ((Nat.leb 9 n && Nat.leb n 13) || Nat.eqb n 32)%bool.

Definition digit_val (c : ascii) : Z := Z.of_nat (nat_of_ascii c) - 48.

(** [c] is a digit between [lo] and [hi]: the character class [[lo-hi]]. *)
Definition digit_in (lo hi : Z) (c : ascii) : bool :=
  (is_digit c && (lo <=? digit_val c) && (digit_val c <=? hi))%bool.

Fixpoint lstrip (s : string) : string :=
  match s with
  | EmptyString => EmptyString
  | String c r => if is_space c then lstrip r else s
  end.

Fixpoint rstrip (s : string) : string :=
  match s with
  | EmptyString => EmptyString
  | String c r =>
      match rstrip r with
      | EmptyString => if is_space c then EmptyString else String c EmptyString
      | r' => String c r'
      end
  end.

Definition strip (s : string) : string := rstrip (lstrip s).

(** The rest of a [digitpart ::= digit (["_"] digit)*] after its first
    digit: the value so far, the number of digits so far, what is left. *)
Fixpoint digits_acc (s : string) (acc n : Z) {struct s} : Z * Z * string :=
  match s with
  | EmptyString => (acc, n, s)
  | String c r =>
      if is_digit c then digits_acc r (10 * acc + digit_val c) (n + 1)
      else if Ascii.eqb c "_" then
        match r with
        | String c' r' =>
            if is_digit c' then digits_acc r' (10 * acc + digit_val c') (n + 1)
            else (acc, n, s)
        | EmptyString => (acc, n, s)
        end
      else (acc, n, s)
  end.

Definition digitpart (s : string) : option (Z * Z * string) :=
  match s with
  | String c r => if is_digit c then Some (digits_acc r (digit_val c) 1) else None
  | EmptyString => None
  end.

(** An optional sign: [true] for ["-"]. *)
Definition sign (s : string) : bool * string :=
  match s with
  | String "-" r => (true, r)
  | String "+" r => (false, r)
  | _ => (false, s)
  end.

(** [int(s)] in base 10: white space around, an optional sign, digits with
    single underscores between them.  (The interpreter's limit on the
    number of digits is not part of the model.) *)
Definition int_of_str (s : string) : result Z :=
  let '(neg, body) := sign (strip s) in
  match digitpart body with
  | Some (v, _, EmptyString) => Ok (if neg then - v else v)
  | _ => Raise ValueError
  end.

(** [int(f)] for a float: truncation towards zero. *)
Definition int_of_float (f : spec_float) : result Z :=
  match f with
  | S754_zero _ => Ok 0
  | S754_infinity _ => Raise OverflowError
  | S754_nan => Raise ValueError
  | S754_finite s m e =>
      let a := if 0 <=? e then Zpos m * 2 ^ e else Zpos m / 2 ^ (- e) in
      Ok (if s then - a else a)
  end.

(** [float(n)] for an int: the nearest binary64, ties to even. *)
Definition float_of_Z (n : Z) : spec_float := binary_normalize 53 1024 n 0 false.

Definition float_of_int (n : Z) : result spec_float :=
  match float_of_Z n with
  | S754_infinity _ => Raise OverflowError
  | f => Ok f
  end.

(** The binary64 nearest to [m * 10^e] for [0 <= m]. *)
Definition float_of_decimal (neg : bool) (m e : Z) : spec_float :=
  match m with
  | Zpos p =>
      if 0 <=? e then binary_round 53 1024 neg (Z.to_pos (m * 10 ^ e)) 0
      else
        let '(q, e', l) := SFdiv_core_binary 53 1024 m 0 (10 ^ (- e)) 0 in
        binary_round_aux 53 1024 neg q e' l
  | _ => S754_zero neg
  end.

(** [floatnumber ::= ([digitpart] "." digitpart | digitpart ["."]) [exponent]]:
    mantissa and decimal exponent, and what is left. *)
Definition floatnumber (s : string) : option (Z * Z * string) :=
  let ip := digitpart s in
  let r1 := match ip with Some (_, _, r) => r | None => s end in
  let '(dot, fp, r2) :=
    match r1 with
    | String "." r =>
        match digitpart r with
        | Some (v, n, r') => (true, Some (v, n), r')
        | None => (true, None, r)
        end
    | _ => (false, None, r1)
    end in
  let mantissa :=
    match ip, fp with
    | Some (iv, _, _), Some (fv, fn) => Some (iv * 10 ^ fn + fv, fn)
    | Some (iv, _, _), None => Some (iv, 0)
    | None, Some (fv, fn) => Some (fv, fn)
    | None, None => None
    end in
  match mantissa with
  | None => None
  | Some (m, fn) =>
      match r2 with
      | String c r =>
          if (Ascii.eqb c "e" || Ascii.eqb c "E")%bool then
            let '(eneg, r') := sign r in
            match digitpart r' with
            | Some (ev, _, r3) => Some (m, (if eneg then - ev else ev) - fn, r3)
            | None => Some (m, - fn, r2)
            end
          else Some (m, - fn, r2)
      | EmptyString => Some (m, - fn, r2)
      end
  end.

(** [float(s)] *)
Definition float_of_str (s : string) : result spec_float :=
  let '(neg, body) := sign (strip s) in
  let word := lower body in
  if (String.eqb word "inf" || String.eqb word "infinity")%bool
  then Ok (S754_infinity neg)
  else if String.eqb word "nan" then Ok S754_nan
  else
    match floatnumber body with
    | Some (m, e, EmptyString) => Ok (float_of_decimal neg m e)
    | _ => Raise ValueError
    end.

(** The integer that [int(v)] denotes. *)
Definition int_Z (v : value) : result Z :=
  match v with
  | VInt n => Ok n
  | VBool b => Ok (if b then 1 else 0)
  | VFloat f => int_of_float f
  | VStr s => int_of_str s
  | _ => Raise TypeError
  end.

(** [int(v)] *)
Definition int (v : value) : result value :=
  bind (int_Z v) (fun n => Ok (VInt n)).

(** [float(v)] *)
Definition float (v : value) : result value :=
  match v with
  | VFloat f => Ok (VFloat f)
  | VInt n => bind (float_of_int n) (fun f => Ok (VFloat f))
  | VBool b => Ok (VFloat (float_of_Z (if b then 1 else 0)))
  | VStr s => bind (float_of_str s) (fun f => Ok (VFloat f))
  | _ => Raise TypeError
  end.

(** ** [datetime.datetime.strptime]

    The format is compiled to a regular expression, one group per
    directive, each group an ordered alternation; [re.match] returns the
    first match in backtracking order and anchors the start only, so the
    text left after that match is an error ("unconverted data remains").
    A group is modelled by its candidates in order of preference: the value
    read and the text left. *)

Definition cands : Type := list (Z * string).

(** Two characters [c1 c2] with [p1 c1] and [p2 c2], read as a number. *)
Definition two (p1 p2 : ascii -> bool) (s : string) : cands :=
  match s with
  | String a (String b r) =>
      if (p1 a && p2 b)%bool then [(10 * digit_val a + digit_val b, r)] else []
  | _ => []
  end.

(** One character [c] with [p c], read as a number. *)
Definition one (p : ascii -> bool) (s : string) : cands :=
  match s with
  | String a r => if p a then [(digit_val a, r)] else []
  | _ => []
  end.

(** The literal character [c]. *)
Definition lit (c : ascii) (s : string) : list string :=
  match s with
  | String a r => if Ascii.eqb a c then [r] else []
  | _ => []
  end.

(** [%H]: [2[0-3]|[0-1]\d|\d] *)
Definition re_H (s : string) : cands :=
  (two (digit_in 2 2) (digit_in 0 3) s ++ two (digit_in 0 1) is_digit s
   ++ one is_digit s)%list.

(** [%M]: [[0-5]\d|\d] *)
Definition re_M (s : string) : cands :=
  (two (digit_in 0 5) is_digit s ++ one is_digit s)%list.

(** [%S]: [6[0-1]|[0-5]\d|\d] *)
Definition re_S (s : string) : cands :=
  (two (digit_in 6 6) (digit_in 0 1) s ++ two (digit_in 0 5) is_digit s
   ++ one is_digit s)%list.

(** [%Y]: [\d\d\d\d] *)
Definition re_Y (s : string) : cands :=
  match s with
  | String a (String b (String c (String d r))) =>
      if (is_digit a && is_digit b && is_digit c && is_digit d)%bool
      then [(1000 * digit_val a + 100 * digit_val b + 10 * digit_val c
             + digit_val d, r)]
      else []
  | _ => []
  end.

(** [%m]: [1[0-2]|0[1-9]|[1-9]] *)
Definition re_m (s : string) : cands :=
  (two (digit_in 1 1) (digit_in 0 2) s ++ two (digit_in 0 0) (digit_in 1 9) s
   ++ one (digit_in 1 9) s)%list.

(** [%d]: [3[0-1]|[1-2]\d|0[1-9]|[1-9]| [1-9]] *)
Definition re_d (s : string) : cands :=
  (two (digit_in 3 3) (digit_in 0 1) s ++ two (digit_in 1 2) is_digit s
   ++ two (digit_in 0 0) (digit_in 1 9) s ++ one (digit_in 1 9) s
   ++ match s with
      | String " " (String b r) =>
          if digit_in 1 9 b then [(digit_val b, r)] else []
      | _ => []
      end)%list.

(** All the matches of ["%H:%M:%S"] at the start of [s], in backtracking
    order. *)
Definition matches_HMS (s : string) : list (Z * Z * Z * string) :=
  flat_map (fun hr =>
    flat_map (fun r1 =>
      flat_map (fun mr =>
        flat_map (fun r2 =>
          map (fun sr => (fst hr, fst mr, fst sr, snd sr)) (re_S r2))
          (lit ":" (snd mr)))
        (re_M r1))
      (lit ":" (snd hr)))
    (re_H s).

(** All the matches of ["%Y-%m-%d"] at the start of [s]. *)
Definition matches_Ymd (s : string) : list (Z * Z * Z * string) :=
  flat_map (fun yr =>
    flat_map (fun r1 =>
      flat_map (fun mr =>
        flat_map (fun r2 =>
          map (fun dr => (fst yr, fst mr, fst dr, snd dr)) (re_d r2))
          (lit "-" (snd mr)))
        (re_m r1))
      (lit "-" (snd yr)))
    (re_Y s).

Definition is_leap (y : Z) : bool :=
  ((y mod 4 =? 0) && (negb (y mod 100 =? 0) || (y mod 400 =? 0)))%bool.

Definition days_in_month (y m : Z) : Z :=
  if m =? 2 then (if is_leap y then 29 else 28)
  else if ((m =? 4) || (m =? 6) || (m =? 9) || (m =? 11))%bool then 30
  else 31.

(** The checks of the [datetime.date] constructor. *)
Definition valid_date (y m d : Z) : bool :=
  ((1 <=? y) && (y <=? 9999) && (1 <=? m) && (m <=? 12)
   && (1 <=? d) && (d <=? days_in_month y m))%bool.

(** The checks of the [datetime.datetime] constructor on the time of day. *)
Definition valid_time (h m s : Z) : bool :=
  ((0 <=? h) && (h <=? 23) && (0 <=? m) && (m <=? 59)
   && (0 <=? s) && (s <=? 59))%bool.

(** [datetime.datetime.strptime(s, "%Y-%m-%d").date()] *)
Definition strptime_Ymd (s : string) : result date :=
  match matches_Ymd s with
  | (y, m, d, EmptyString) :: _ =>
      if valid_date y m d then Ok (mkdate y m d) else Raise ValueError
  | _ => Raise ValueError
  end.

(** [datetime.datetime.strptime(s, "%H:%M:%S").time()]: a naive time. *)
Definition strptime_HMS (s : string) : result time :=
  match matches_HMS s with
  | (h, m, sec, EmptyString) :: _ =>
      if valid_time h m sec then Ok (mktime h m sec false) else Raise ValueError
  | _ => Raise ValueError
  end.

End Builtins.

Import Builtins.

(* ================================================================= *)
(** * objects.py *)

Module Objects.

(** ** Helpers for types converting *)

Definition to_date (f : value) : result value :=
  match f with
  | VStr s => bind (strptime_Ymd s) (fun d => Ok (VDate d))
  | _ => Raise TypeError
  end.

(** [strptime(f[:-1], "%H:%M:%S").time().replace(tzinfo=timezone.utc)];
    a slice of a list is a list, which [strptime] refuses, and the other
    values have no slices (a mapping raises [TypeError] for the unhashable
    slice up to Python 3.11 and [KeyError] from Python 3.12 on; the model
    has the first). *)
Definition to_time (f : value) : result value :=
  match f with
  | VStr s =>
      bind (strptime_HMS (drop_last s))
           (fun t => Ok (VTime (mktime (hour t) (minute t) (second t) true)))
  | _ => Raise TypeError
  end.

(** ** The attrs classes

    [@define] generates an [__init__] with one keyword parameter per
    attribute, in declaration order; an attribute with a default is
    optional.  Its body assigns the attributes in that order, each through
    its converter (attrs converts a default as well). *)

Record attribute : Type := Attribute {
  attr_name : string;
  attr_default : option value;
  attr_converter : option (value -> result value)
}.

Record class : Type := Class {
  class_name : string;
  class_attrs : list attribute
}.

(** [name: T] *)
Definition plain (name : string) : attribute := Attribute name None None.

(** [name: T = field(converter=c)] *)
Definition field (name : string) (c : value -> result value) : attribute :=
  Attribute name None (Some c).

(** [name: Optional[T] = None] *)
Definition plain_default_None (name : string) : attribute :=
  Attribute name (Some VNone) None.

(** [name: Optional[T] = field(default=None, converter=c)] *)
Definition field_default_None (name : string) (c : value -> result value)
  : attribute := Attribute name (Some VNone) (Some c).

(** [converters.optional(c)] *)
Definition optional (c : value -> result value) (v : value) : result value :=
  match v with
  | VNone => Ok VNone
  | _ => c v
  end.

(** The argument of one parameter: the keyword argument of that name, or
    the default; a parameter without either is a [TypeError]. *)
Definition argument (kwargs : dict) (a : attribute) : result value :=
  match lookup (attr_name a) kwargs with
  | Some v => Ok v
  | None =>
      match attr_default a with
      | Some d => Ok d
      | None => Raise TypeError
      end
  end.

Definition convert (a : attribute) (raw : value) : result value :=
  match attr_converter a with
  | Some c => c raw
  | None => Ok raw
  end.

(** One assignment of the generated [__init__]. *)
Definition assign (ar : attribute * value) : result (string * value) :=
  bind (convert (fst ar) (snd ar)) (fun v => Ok (attr_name (fst ar), v)).

(** [cls( **kwargs)]: the call binds the arguments (an unexpected keyword or
    a missing argument raises before the body runs), then the body runs. *)
Definition init (cls : class) (kwargs : dict) : result value :=
  if forallb (fun k => existsb (String.eqb k) (map attr_name (class_attrs cls)))
             (keys_of kwargs)
  then
    bind (mapM (argument kwargs) (class_attrs cls)) (fun raws =>
    bind (mapM assign (combine (class_attrs cls) raws)) (fun attrs =>
    Ok (VObj (class_name cls) attrs)))
  else Raise TypeError.

(** [cls( **d)]: what follows [**] must be a mapping. *)
Definition new (cls : class) (d : value) : result value :=
  match d with
  | VDict kwargs => init cls kwargs
  | _ => Raise TypeError
  end.

(** ** Data transfer objects *)

Definition DriverDTO : class := Class "DriverDTO"
  [ plain "driverId";
    plain "url";
    plain "givenName";
    plain "familyName";
    field "dateOfBirth" to_date;
    plain "nationality";
    field_default_None "permanentNumber" (optional int);
    plain_default_None "code" ].

Definition ConstructorDTO : class := Class "ConstructorDTO"
  [ plain "constructorId";
    plain "url";
    plain "name";
    plain "nationality" ].

Definition LocationDTO : class := Class "LocationDTO"
  [ field "lat" float;
    field "long" float;
    plain "locality";
    plain "country" ].

Definition to_driver_dto (d : value) : result value := new DriverDTO d.
Definition to_constructor_dto (d : value) : result value := new ConstructorDTO d.
Definition to_location_dto (d : value) : result value := new LocationDTO d.

Definition CircuitDTO : class := Class "CircuitDTO"
  [ plain "circuitId";
    plain "url";
    plain "circuitName";
    field "Location" to_location_dto ].

Definition to_circuit_dto (d : value) : result value := new CircuitDTO d.

Definition RaceDTO : class := Class "RaceDTO"
  [ field "season" int;
    field "round" int;
    plain "url";
    plain "raceName";
    field "Circuit" to_circuit_dto;
    field "date" to_date;
    field_default_None "time" (optional to_time);
    field_default_None "firstpracticeDate" (optional to_date);
    field_default_None "firstpracticeTime" (optional to_time);
    field_default_None "secondpracticeDate" (optional to_date);
    field_default_None "secondpracticeTime" (optional to_time);
    field_default_None "thirdpracticeDate" (optional to_date);
    field_default_None "thirdpracticeTime" (optional to_time);
    field_default_None "qualifyingDate" (optional to_date);
    field_default_None "qualifyingTime" (optional to_time);
    field_default_None "sprintDate" (optional to_date);
    field_default_None "sprintTime" (optional to_time) ].

Definition to_race_dto (d : value) : result value := new RaceDTO d.

Definition TimeDTO : class := Class "TimeDTO"
  [ field_default_None "millis" (optional int);
    plain_default_None "time" ].

Definition AverageSpeedDTO : class := Class "AverageSpeedDTO"
  [ plain_default_None "units";
    field_default_None "speed" (optional float) ].

Definition to_time_dto (d : value) : result value := new TimeDTO d.
Definition to_averagespeed_dto (d : value) : result value := new AverageSpeedDTO d.

Definition FastestLapDTO : class := Class "FastestLapDTO"
  [ field_default_None "rank" (optional int);
    field_default_None "lap" (optional int);
    field_default_None "Time" (optional to_time_dto);
    field_default_None "AverageSpeed" (optional to_averagespeed_dto) ].

Definition to_fastestlap_dto (d : value) : result value := new FastestLapDTO d.

Definition TimingDTO : class := Class "TimingDTO"
  [ plain "driverId";
    field "position" int;
    plain "time" ].

(** [[TimingDTO( **x) for x in ll]] *)
Definition to_timings_dto_list (ll : value) : result value :=
  bind (iterate ll) (fun xs =>
  bind (mapM (new TimingDTO) xs) (fun os => Ok (VList os))).

(** [[ConstructorDTO( **x) for x in ll]] *)
Definition to_constructors_dto_list (ll : value) : result value :=
  bind (iterate ll) (fun xs =>
  bind (mapM (new ConstructorDTO) xs) (fun os => Ok (VList os))).

Definition RaceResultDTO : class := Class "RaceResultDTO"
  [ field "Driver" to_driver_dto;
    field "number" int;
    field "Constructor" to_constructor_dto;
    field "position" int;
    plain "positionText";
    field "points" float;
    field "grid" int;
    field "laps" int;
    plain "status";
    field_default_None "Time" (optional to_time_dto);
    field_default_None "FastestLap" (optional to_fastestlap_dto) ].

Definition QualifyingResultDTO : class := Class "QualifyingResultDTO"
  [ field "Driver" to_driver_dto;
    field "number" int;
    field "position" int;
    field "Constructor" to_constructor_dto;
    plain_default_None "Q1";
    plain_default_None "Q2";
    plain_default_None "Q3" ].

Definition SprintResultDTO : class := Class "SprintResultDTO"
  [ field "number" int;
    field "Driver" to_driver_dto;
    field "Constructor" to_constructor_dto;
    field "position" int;
    plain "positionText";
    field "points" float;
    field "grid" int;
    field "laps" int;
    plain "status";
    field_default_None "Time" (optional to_time_dto);
    field_default_None "FastestLap" (optional to_fastestlap_dto) ].

Definition DriverStandingDTO : class := Class "DriverStandingDTO"
  [ field "Driver" to_driver_dto;
    field "position" int;
    plain "positionText";
    field "points" float;
    field "wins" float;
    field "Constructors" to_constructors_dto_list ].

Definition ConstructorStandingDTO : class := Class "ConstructorStandingDTO"
  [ field "Constructor" to_constructor_dto;
    field "position" int;
    plain "positionText";
    field "points" float;
    field "wins" int ].

Definition StatusDTO : class := Class "StatusDTO"
  [ field "statusId" int;
    plain "status";
    field "count" int ].

Definition LapDTO : class := Class "LapDTO"
  [ field "number" int;
    field "Timings" to_timings_dto_list ].

Definition PitStopDTO : class := Class "PitStopDTO"
  [ plain "driverId";
    field "lap" int;
    field "stop" int;
    plain "time";
    field "duration" float ].

Definition SeasonDTO : class := Class "SeasonDTO"
  [ field "season" int;
    plain "url" ].

(** The record types of the module. *)
Definition classes : list class :=
  [ DriverDTO; ConstructorDTO; LocationDTO; CircuitDTO; RaceDTO; TimeDTO;
    AverageSpeedDTO; FastestLapDTO; TimingDTO; RaceResultDTO;
    QualifyingResultDTO; SprintResultDTO; DriverStandingDTO;
    ConstructorStandingDTO; StatusDTO; LapDTO; PitStopDTO; SeasonDTO ].

(** ** The methods of [DTO] *)

(** What [attrs.asdict] does with a value that it meets inside an
    instance ([_asdict_anything], and the same cases inlined in [asdict]
    for the attributes): an instance becomes the mapping of its attributes,
    a list or a mapping is converted item by item, anything else is kept. *)
Fixpoint _asdict_anything (val : value) : value :=
  match val with
  | VObj _ attrs =>
      VDict ((fix go (l : list (string * value)) : list (string * value) :=
                match l with
                | [] => []
                | (k, x) :: l' => (k, _asdict_anything x) :: go l'
                end) attrs)
  | VList l => VList (map _asdict_anything l)
  | VDict d =>
      VDict ((fix go (l : list (string * value)) : list (string * value) :=
                match l with
                | [] => []
                | (k, x) :: l' => (k, _asdict_anything x) :: go l'
                end) d)
  | _ => val
  end.

(** [attrs.asdict(inst)]: it starts with [fields(inst.__class__)], which
    raises [NotAnAttrsClassError] unless [inst] is an instance of an attrs
    class; the attributes are then converted in the order of the
    declaration. *)
Definition asdict (inst : value) : result value :=
  match inst with
  | VObj _ attrs =>
      Ok (VDict (map (fun kv => (fst kv, _asdict_anything (snd kv))) attrs))
  | _ => Raise NotAnAttrsClassError
  end.

(** [self.to_dict()] *)
Definition to_dict (self : value) : result value := asdict self.

(** [self.to_flat_dict()] *)
Definition to_flat_dict (self : value) : result dict :=
  bind (asdict self) (fun d => flat_dict d None).

(** [getattr(self, name)] *)
Definition getattr (self : value) (name : string) : result value :=
  match self with
  | VObj _ attrs =>
      match lookup name attrs with
      | Some v => Ok v
      | None => Raise AttributeError
      end
  | _ => Raise AttributeError
  end.

(** [type(self).__name__] for an instance of an attrs class. *)
Definition class_of (self : value) : option string :=
  match self with
  | VObj c _ => Some c
  | _ => None
  end.

End Objects.

Import Objects.

(* ================================================================= *)
(** * yukinator.py *)

Module Yukinator.

(** A [requests] response: the status and what [response.json()] gives. *)
Record response : Type := Response {
  status_code : Z;
  json : result value
}.

(** [response.raise_for_status()] *)
Definition raise_for_status (r : response) : result unit :=
  if ((400 <=? status_code r) && (status_code r <? 600))%bool
  then Raise (HTTPError (status_code r))
  else Ok tt.

(** [response.ok]: [raise_for_status] does not raise. *)
Definition ok (r : response) : bool := is_ok (raise_for_status r).

(** The positional arguments of [_build_url]: the getters pass literals and
    their parameters [year], [race] and [lap], of type
    [Union[int, str, None]]. *)
Inductive endpoint : Type :=
| ENone
| EInt (n : Z)
| EStr (s : string).

(** [bool(suffix)] *)
Definition truthy (suffix : endpoint) : bool :=
  match suffix with
  | ENone => false
  | EInt n => negb (n =? 0)
  | EStr s => str_truthy s
  end.

(** [str(suffix)] *)
Definition str (suffix : endpoint) : string :=
  match suffix with
  | ENone => "None"
  | EInt n => NilZero.string_of_int (Z.to_int n)
  | EStr s => s
  end.

Definition _base_url : string := "https://api.jolpi.ca/ergast/f1/".

(** [Yuki._build_url( *endpoints)] *)
Definition _build_url (endpoints : list endpoint) : string :=
  _base_url
  ++ join "/" (map str (filter truthy endpoints))
  ++ ".json?limit=1000".

(** The attributes of a [Yuki] that its methods read. *)
Record Yuki : Type := {
  headers : dict;
  cache_enabled : bool
}.

Section Client.

(** The outside world: the network and the cache file behind the
    [requests_cache] session.  [session_get] is [Cache._session.get] and
    [requests_get] is [requests.get]. *)
Variable World : Type.
Variable session_get : string -> World -> response * World.
Variable requests_get : string -> dict -> World -> response * World.

(** The state of a run: the world, and the URLs requested so far. *)
Record state : Type := State {
  world : World;
  requested : list string
}.

Definition M (A : Type) : Type := state -> result A * state.

Definition ret {A : Type} (a : A) : M A := fun st => (Ok a, st).

Definition raise {A : Type} (e : exn) : M A := fun st => (Raise e, st).

Definition lift {A : Type} (r : result A) : M A := fun st => (r, st).

Definition mbind {A B : Type} (m : M A) (k : A -> M B) : M B :=
  fun st =>
    match m st with
    | (Ok a, st') => k a st'
    | (Raise e, st') => (Raise e, st')
    end.

Notation "x <- m ;; k" := (mbind m (fun x => k))
  (at level 61, m at next level, right associativity).

(** [Cache.cache_get(url)] *)
Definition cache_get (url : string) : M response :=
  fun st =>
    let '(r, w) := session_get url (world st) in
    (Ok r, State w (requested st ++ [url])).

(** [requests.get(url, headers=headers)] *)
Definition get (url : string) (headers : dict) : M response :=
  fun st =>
    let '(r, w) := requests_get url headers (world st) in
    (Ok r, State w (requested st ++ [url])).

Definition _make_request (self : Yuki) (url : string) : M value :=
  result <-
    (if cache_enabled self then
       response <- cache_get url ;;
       _ <- (if negb (ok response) then lift (raise_for_status response)
             else ret tt) ;;
       lift (json response)
     else
       response <- get url (headers self) ;;
       _ <- (if negb (ok response) then lift (raise_for_status response)
             else ret tt) ;;
       lift (json response)) ;;
  total <- lift (bind (bind (getitem result "MRData")
                            (fun m => getitem m "total")) int_Z) ;;
  if total <=? 0 then raise WrongQueryParameters
  else ret result.

(** [[cls( **x) for x in response]] *)
Definition build (cls : class) (response : value) : result (list value) :=
  bind (iterate response) (mapM (new cls)).

(** [v[k1][k2][k3]] *)
Definition getitem3 (v : value) (k1 k2 k3 : string) : result value :=
  bind (bind (getitem v k1) (fun x => getitem x k2)) (fun x => getitem x k3).

(** [v["MRData"][table][lists][0][k]] *)
Definition getitem_first (v : value) (table lists k : string) : result value :=
  bind (bind (getitem3 v "MRData" table lists) getitem0) (fun x => getitem x k).

Definition get_drivers (self : Yuki) (year race : endpoint) : M (list value) :=
  let url := _build_url [year; race; EStr "drivers"] in
  response <- _make_request self url ;;
  response <- lift (getitem3 response "MRData" "DriverTable" "Drivers") ;;
  lift (build DriverDTO response).

Definition get_constructors (self : Yuki) (year race : endpoint)
  : M (list value) :=
  let url := _build_url [year; race; EStr "constructors"] in
  response <- _make_request self url ;;
  response <- lift (getitem3 response "MRData" "ConstructorTable" "Constructors") ;;
  lift (build ConstructorDTO response).

Definition get_circuits (self : Yuki) (year race : endpoint) : M (list value) :=
  let url := _build_url [year; race; EStr "circuits"] in
  response <- _make_request self url ;;
  response <- lift (getitem3 response "MRData" "CircuitTable" "Circuits") ;;
  lift (build CircuitDTO response).

Definition get_seasons (self : Yuki) : M (list value) :=
  let url := _build_url [EStr "seasons"] in
  response <- _make_request self url ;;
  response <- lift (getitem3 response "MRData" "SeasonTable" "Seasons") ;;
  lift (build SeasonDTO response).

(** The keys whose sub-objects [get_races] flattens. *)
Definition race_keys : list string :=
  ["FirstPractice"; "SecondPractice"; "ThirdPractice"; "Qualifying"; "Sprint"].

(** [RaceDTO( **flat_dict(x, [...]))] *)
Definition race_of_item (x : value) : result value :=
  bind (flat_dict x (Some race_keys)) (fun d => new RaceDTO (VDict d)).

Definition get_races (self : Yuki) (year race : endpoint) : M (list value) :=
  let url := _build_url [year; race] in
  response <- _make_request self url ;;
  response <- lift (getitem3 response "MRData" "RaceTable" "Races") ;;
  lift (bind (iterate response) (mapM race_of_item)).

Definition get_race_results (self : Yuki) (year race : endpoint)
  : M (list value) :=
  let url := _build_url [year; race; EStr "results"] in
  response <- _make_request self url ;;
  response <- lift (getitem_first response "RaceTable" "Races" "Results") ;;
  lift (build RaceResultDTO response).

Definition get_qualifying_results (self : Yuki) (year race : endpoint)
  : M (list value) :=
  let url := _build_url [year; race; EStr "qualifying"] in
  response <- _make_request self url ;;
  response <- lift (getitem_first response "RaceTable" "Races" "QualifyingResults") ;;
  lift (build QualifyingResultDTO response).

Definition get_sprint_results (self : Yuki) (year race : endpoint)
  : M (list value) :=
  let url := _build_url [year; race; EStr "sprint"] in
  response <- _make_request self url ;;
  response <- lift (getitem_first response "RaceTable" "Races" "SprintResults") ;;
  lift (build SprintResultDTO response).

(** The first assignment to [url] is under [if winners:]; the second one is
    not under an [else] and replaces it. *)
Definition get_drivers_standings (self : Yuki) (year race : endpoint)
    (winners : bool) : M (list value) :=
  let url :=
    if winners then Some (_build_url [EStr "driverStandings"; EStr "1"])
    else None in
  let url := _build_url [year; race; EStr "driverStandings"] in
  response <- _make_request self url ;;
  response <- lift (getitem_first response "StandingsTable" "StandingsLists"
                                  "DriverStandings") ;;
  lift (build DriverStandingDTO response).

Definition get_constructors_standings (self : Yuki) (year race : endpoint)
    (winners : bool) : M (list value) :=
  let url :=
    if winners then Some (_build_url [EStr "constructorStandings"; EStr "1"])
    else None in
  let url := _build_url [year; race; EStr "constructorStandings"] in
  response <- _make_request self url ;;
  response <- lift (getitem_first response "StandingsTable" "StandingsLists"
                                  "ConstructorStandings") ;;
  lift (build ConstructorStandingDTO response).

Definition get_finishing_statuses (self : Yuki) (year race : endpoint)
  : M (list value) :=
  let url := _build_url [year; race; EStr "status"] in
  response <- _make_request self url ;;
  response <- lift (getitem3 response "MRData" "StatusTable" "Status") ;;
  lift (build StatusDTO response).

Definition get_lap_times (self : Yuki) (year race lap : endpoint)
  : M (list value) :=
  let url := _build_url [year; race; EStr "laps"; lap] in
  response <- _make_request self url ;;
  response <- lift (getitem_first response "RaceTable" "Races" "Laps") ;;
  lift (build LapDTO response).

Definition get_pit_stops (self : Yuki) (year race : endpoint) : M (list value) :=
  let url := _build_url [year; race; EStr "pitstops"] in
  response <- _make_request self url ;;
  response <- lift (getitem_first response "RaceTable" "Races" "PitStops") ;;
  lift (build PitStopDTO response).

End Client.

Arguments ret {World A} a st.
Arguments raise {World A} e st.
Arguments lift {World A} r st.
Arguments mbind {World A B} m k st.
Arguments cache_get {World} session_get url st.
Arguments get {World} requests_get url headers st.
Arguments State {World} world requested.
Arguments world {World} s.
Arguments requested {World} s.
Arguments _make_request {World} session_get requests_get self url.
Arguments get_drivers {World} session_get requests_get self year race.
Arguments get_constructors {World} session_get requests_get self year race.
Arguments get_circuits {World} session_get requests_get self year race.
Arguments get_seasons {World} session_get requests_get self.
Arguments get_races {World} session_get requests_get self year race.
Arguments get_race_results {World} session_get requests_get self year race.
Arguments get_qualifying_results {World} session_get requests_get self year race.
Arguments get_sprint_results {World} session_get requests_get self year race.
Arguments get_drivers_standings {World} session_get requests_get
  self year race winners.
Arguments get_constructors_standings {World} session_get requests_get
  self year race winners.
Arguments get_finishing_statuses {World} session_get requests_get self year race.
Arguments get_lap_times {World} session_get requests_get self year race lap.
Arguments get_pit_stops {World} session_get requests_get self year race.

(** The default arguments of the getters. *)
Definition current : endpoint := EStr "current".
Definition last : endpoint := EStr "last".

End Yukinator.

Import Yukinator.

(* ================================================================= *)
(** * The wording of the specification *)

Module Claimed.

(** "the parent key with its first character lower-cased" *)
Definition lower_first (s : string) : string :=
  match s with
  | EmptyString => EmptyString
  | String c r => String (ascii_lower c) r
  end.

(** "the child key with its first character upper-cased" *)
Definition upper_first (s : string) : string :=
  match s with
  | EmptyString => EmptyString
  | String c r => String (ascii_upper c) r
  end.

(** "synthesized keys parentKeyLower + childKeyCapitalized" *)
Definition synthesized_key (p c : string) : string :=
  lower_first p ++ upper_first c.

(** "joins non-empty/non-null segments": a segment is kept unless it is
    null or empty. *)
Definition kept (suffix : endpoint) : bool :=
  match suffix with
  | ENone => false
  | EStr EmptyString => false
  | _ => true
  end.

(** "joins non-empty/non-null segments with / under the fixed API base
    path, appends a fixed result-size query limit" *)
Definition buildUrl (segments : list endpoint) : string :=
  _base_url ++ join "/" (map str (filter kept segments)) ++ ".json?limit=1000".

End Claimed.

(* ================================================================= *)
(** * Notions for the statements *)

(** Does the flattener recurse into the entry [(k, v)]? *)
Definition descends (keys : option (list string)) (k : string) (v : value)
  : bool :=
  (is_mapping v && (negb (keys_truthy keys) || key_in k keys))%bool.

(** No value of the mapping is itself a mapping. *)
Definition flat (d : dict) : Prop :=
  Forall (fun kv => is_mapping (snd kv) = false) d.

(** [leaf d parent_key k v]: somewhere inside the mapping [d], at any depth
    and below mappings only, there is the value [v], which is no mapping,
    and [k] is the key synthesized on the way down to it, starting from
    [parent_key]. *)
Inductive leaf : dict -> string -> string -> value -> Prop :=
| leaf_here : forall d parent_key k v,
    In (k, v) d ->
    is_mapping v = false ->
    leaf d parent_key (new_key parent_key k) v
| leaf_below : forall d parent_key k sub k' v,
    In (k, VDict sub) d ->
    leaf sub (new_key parent_key k) k' v ->
    leaf d parent_key k' v.

(** [dict(pairs)] from an accumulator, as [fold_left] unfolds. *)
Definition dict_add (acc : dict) (items : list (string * value)) : dict :=
  fold_left (fun d kv => dict_set (fst kv) (snd kv) d) items acc.

(** The strings of the list are pairwise distinct. *)
Fixpoint distinct (l : list string) : bool :=
  match l with
  | [] => true
  | x :: l' => (negb (existsb (String.eqb x) l') && distinct l')%bool
  end.

(** The entries of a mapping after the first one with the key [k]. *)
Fixpoint after (k : string) (d : dict) : dict :=
  match d with
  | [] => []
  | (k', _) :: d' => if String.eqb k k' then d' else after k d'
  end.

(** [k] starts with [p]. *)
Definition has_prefix (p k : string) : Prop := exists r, k = p ++ r.

(** The segments that [_build_url] leaves out. *)
Definition omitted (suffix : endpoint) : bool :=
  match suffix with
  | ENone => true
  | EStr EmptyString => true
  | EInt 0 => true
  | _ => false
  end.

(** A directive of one or two decimal digits and the number it reads as. *)
Definition digits12 (w : string) (n : Z) : Prop :=
  match w with
  | String a EmptyString => is_digit a = true /\ n = digit_val a
  | String a (String b EmptyString) =>
      is_digit a = true /\ is_digit b = true
      /\ n = 10 * digit_val a + digit_val b
  | _ => False
  end.

(** [body] reads as hours, minutes and seconds, separated by colons. *)
Definition is_HMS (body : string) (h m s : Z) : Prop :=
  exists hh mm ss,
    body = hh ++ ":" ++ mm ++ ":" ++ ss
    /\ digits12 hh h /\ digits12 mm m /\ digits12 ss s
    /\ h <= 23 /\ m <= 59 /\ s <= 59.

(** The response that [_make_request] receives for [url]. *)
Definition transport {World : Type}
    (session_get : string -> World -> response * World)
    (requests_get : string -> dict -> World -> response * World)
    (self : Yuki) (url : string) (w : World) : response * World :=
  if cache_enabled self then session_get url w
  else requests_get url (headers self) w.

(** ** Sample data *)

Module Sample.

(** A server that answers every request with the status 200 and [body]. *)
Definition serve (body : value) : string -> unit -> response * unit :=
  fun _ w => (Response 200 (Ok body), w).

Definition serve_direct (body : value)
  : string -> dict -> unit -> response * unit :=
  fun _ _ w => (Response 200 (Ok body), w).

Definition yuki : Yuki :=
  {| headers := [("User-Agent", VStr "Yukinator")]; cache_enabled := true |}.

Definition start : state unit := State tt [].

Definition driver (id birth : string) : value :=
  VDict [("driverId", VStr id); ("url", VStr "http://example.org");
         ("givenName", VStr "Max"); ("familyName", VStr "Verstappen");
         ("dateOfBirth", VStr birth); ("nationality", VStr "Dutch")].

Definition constructor : value :=
  VDict [("constructorId", VStr "red_bull"); ("url", VStr "http://example.org");
         ("name", VStr "Red Bull"); ("nationality", VStr "Austrian")].

Definition drivers_envelope (total : string) (items : list value) : value :=
  VDict [("MRData",
          VDict [("total", VStr total);
                 ("DriverTable", VDict [("Drivers", VList items)])])].

Definition circuit : value :=
  VDict [("circuitId", VStr "albert_park"); ("url", VStr "http://example.org");
         ("circuitName", VStr "Albert Park");
         ("Location",
          VDict [("lat", VStr "-37.8497"); ("long", VStr "144.968");
                 ("locality", VStr "Melbourne"); ("country", VStr "Australia")])].

(** A race item, with what follows its [FirstPractice] entry. *)
Definition race (more : dict) : value :=
  VDict ([("season", VStr "2022"); ("round", VStr "3");
          ("url", VStr "http://example.org");
          ("raceName", VStr "Australian Grand Prix");
          ("Circuit", circuit);
          ("date", VStr "2022-04-10"); ("time", VStr "05:00:00Z");
          ("FirstPractice",
           VDict [("date", VStr "2022-04-08"); ("time", VStr "03:00:00Z")])]
         ++ more)%list.

Definition driver_standing (wins : string) : value :=
  VDict [("position", VStr "1"); ("positionText", VStr "1");
         ("points", VStr "454"); ("wins", VStr wins);
         ("Driver", driver "max_verstappen" "1997-09-30");
         ("Constructors", VList [constructor])].

Definition constructor_standing (wins : string) : value :=
  VDict [("position", VStr "1"); ("positionText", VStr "1");
         ("points", VStr "759"); ("wins", VStr wins);
         ("Constructor", constructor)].

End Sample.

(* ================================================================= *)
(** * utils.py: the cache *)

Module Cache.

Section Cache.

(** The file system and the [requests_cache] library: [path_exists] is
    [os.path.exists], [join] and [normpath] are those of [os.path],
    [CachedSession] makes the sqlite session for a cache name, an expiry
    and the headers, [clear] is [session.cache.clear()] and [session_get]
    is [session.get]. *)
Variable Session : Type.
Variable path_exists : string -> bool.
Variable join : string -> string -> string.
Variable normpath : string -> string.
Variable CachedSession : string -> value -> dict -> Session.
Variable clear : Session -> Session.
Variable session_get : Session -> string -> response * Session.

(** The class attributes [Cache._session] and [Cache._path]. *)
Record state : Type := State {
  _session : option Session;
  _path : string
}.

(** [Cache.path_create(path)] *)
Definition path_create (path : string) : result string :=
  if negb (path_exists path) then Raise WrongDirectory
  else Ok (normpath (join path "yuki_cache")).

(** [Cache.cache_enable(path, headers, expires_after, clear)]: [_path] is
    assigned first; the arguments of [CachedSession], [path_create(path)]
    among them, are evaluated before [_session] is assigned. *)
Definition cache_enable (path : string) (headers : dict)
    (expires_after : value) (clear_flag : bool) (st : state)
  : result unit * state :=
  let st := State (_session st) path in
  match path_create path with
  | Raise e => (Raise e, st)
  | Ok cache_name =>
      let s := CachedSession cache_name expires_after headers in
      let st := State (Some s) (_path st) in
      if clear_flag then (Ok tt, State (Some (clear s)) (_path st))
      else (Ok tt, st)
  end.

(** [Cache.cache_get(url)]; before any [cache_enable] the session is
    [None], which has no [get]. *)
Definition cache_get (url : string) (st : state) : result response * state :=
  match _session st with
  | Some s =>
      let '(r, s') := session_get s url in
      (Ok r, State (Some s') (_path st))
  | None => (Raise AttributeError, st)
  end.

End Cache.

End Cache.

(* ================================================================= *)
(** * objects.py: the JSON encoder *)

Module Encoder.

(** The decimal digit [n] as a character. *)
Definition digit_char (n : Z) : ascii := ascii_of_nat (48 + Z.to_nat n).

(** ["%02d" % n] and ["%04d" % n] for a number of that many digits. *)
Definition pad2 (n : Z) : string :=
  String (digit_char (n / 10)) (String (digit_char (n mod 10)) "").

Definition pad4 (n : Z) : string :=
  String (digit_char (n / 1000))
    (String (digit_char (n / 100 mod 10))
       (String (digit_char (n / 10 mod 10))
          (String (digit_char (n mod 10)) ""))).

(** [datetime.date.isoformat] *)
Definition date_isoformat (d : date) : string :=
  pad4 (year d) ++ "-" ++ pad2 (month d) ++ "-" ++ pad2 (day d).

(** [datetime.time.isoformat] for a time without microseconds: the offset
    of [timezone.utc] follows an aware time. *)
Definition time_isoformat (t : time) : string :=
  pad2 (hour t) ++ ":" ++ pad2 (minute t) ++ ":" ++ pad2 (second t)
  ++ (if tz_utc t then "+00:00" else "").

(** [JSONEncoder.default(obj)] *)
Definition default (obj : value) : result value :=
  match obj with
  | VDate d => Ok (VStr (date_isoformat d))
  | VTime t => Ok (VStr (time_isoformat t))
  | VObj _ _ => to_dict obj
  | _ => Raise TypeError
  end.

End Encoder.

(* ================================================================= *)
(** * The getters of [Yuki], side by side *)

Module Table.

(** What a getter does: the URL it builds, where the array of items is in
    the envelope, the record type and how one item becomes a record. *)
Record getter (World : Type) : Type := Getter {
  g_run : M World (list value);
  g_url : string;
  g_extract : value -> result value;
  g_class : class;
  g_make : value -> result value
}.

Arguments Getter {World} g_run g_url g_extract g_class g_make.
Arguments g_run {World} g.
Arguments g_url {World} g.
Arguments g_extract {World} g.
Arguments g_class {World} g.
Arguments g_make {World} g.

Definition getters {World : Type}
    (session_get : string -> World -> response * World)
    (requests_get : string -> dict -> World -> response * World)
    (self : Yuki) (year race lap : endpoint) (winners : bool)
  : list (getter World) :=
  [ Getter (get_drivers session_get requests_get self year race)
      (_build_url [year; race; EStr "drivers"])
      (fun r => getitem3 r "MRData" "DriverTable" "Drivers")
      DriverDTO (new DriverDTO);
    Getter (get_constructors session_get requests_get self year race)
      (_build_url [year; race; EStr "constructors"])
      (fun r => getitem3 r "MRData" "ConstructorTable" "Constructors")
      ConstructorDTO (new ConstructorDTO);
    Getter (get_circuits session_get requests_get self year race)
      (_build_url [year; race; EStr "circuits"])
      (fun r => getitem3 r "MRData" "CircuitTable" "Circuits")
      CircuitDTO (new CircuitDTO);
    Getter (get_seasons session_get requests_get self)
      (_build_url [EStr "seasons"])
      (fun r => getitem3 r "MRData" "SeasonTable" "Seasons")
      SeasonDTO (new SeasonDTO);
    Getter (get_races session_get requests_get self year race)
      (_build_url [year; race])
      (fun r => getitem3 r "MRData" "RaceTable" "Races")
      RaceDTO race_of_item;
    Getter (get_race_results session_get requests_get self year race)
      (_build_url [year; race; EStr "results"])
      (fun r => getitem_first r "RaceTable" "Races" "Results")
      RaceResultDTO (new RaceResultDTO);
    Getter (get_qualifying_results session_get requests_get self year race)
      (_build_url [year; race; EStr "qualifying"])
      (fun r => getitem_first r "RaceTable" "Races" "QualifyingResults")
      QualifyingResultDTO (new QualifyingResultDTO);
    Getter (get_sprint_results session_get requests_get self year race)
      (_build_url [year; race; EStr "sprint"])
      (fun r => getitem_first r "RaceTable" "Races" "SprintResults")
      SprintResultDTO (new SprintResultDTO);
    Getter (get_drivers_standings session_get requests_get self year race
              winners)
      (_build_url [year; race; EStr "driverStandings"])
      (fun r => getitem_first r "StandingsTable" "StandingsLists"
                              "DriverStandings")
      DriverStandingDTO (new DriverStandingDTO);
    Getter (get_constructors_standings session_get requests_get self year race
              winners)
      (_build_url [year; race; EStr "constructorStandings"])
      (fun r => getitem_first r "StandingsTable" "StandingsLists"
                              "ConstructorStandings")
      ConstructorStandingDTO (new ConstructorStandingDTO);
    Getter (get_finishing_statuses session_get requests_get self year race)
      (_build_url [year; race; EStr "status"])
      (fun r => getitem3 r "MRData" "StatusTable" "Status")
      StatusDTO (new StatusDTO);
    Getter (get_lap_times session_get requests_get self year race lap)
      (_build_url [year; race; EStr "laps"; lap])
      (fun r => getitem_first r "RaceTable" "Races" "Laps")
      LapDTO (new LapDTO);
    Getter (get_pit_stops session_get requests_get self year race)
      (_build_url [year; race; EStr "pitstops"])
      (fun r => getitem_first r "RaceTable" "Races" "PitStops")
      PitStopDTO (new PitStopDTO) ].

End Table.

(** A value with an instance of an attrs class somewhere inside. *)
Fixpoint has_obj (v : value) : bool :=
  match v with
  | VObj _ _ => true
  | VList l => existsb has_obj l
  | VDict d =>
      (fix go (l : list (string * value)) : bool :=
         match l with
         | [] => false
         | (_, x) :: l' => (has_obj x || go l')%bool
         end) d
  | _ => false
  end.

(** Every keyword of the call is a parameter of the constructor. *)
Definition keywords_declared (cls : class) (kwargs : dict) : Prop :=
  forall k, In k (keys_of kwargs) -> In k (map attr_name (class_attrs cls)).


(* ================================================================= *)
(** * Facts about the run time *)

Section ValueInduction.

Variable P : value -> Prop.
Hypothesis HNone : P VNone.
Hypothesis HBool : forall b, P (VBool b).
Hypothesis HInt : forall n, P (VInt n).
Hypothesis HFloat : forall f, P (VFloat f).
Hypothesis HStr : forall s, P (VStr s).
Hypothesis HDate : forall d, P (VDate d).
Hypothesis HTime : forall t, P (VTime t).
Hypothesis HList : forall l, Forall P l -> P (VList l).
Hypothesis HDict : forall d, Forall (fun kv => P (snd kv)) d -> P (VDict d).
Hypothesis HObj :
  forall c a, Forall (fun kv => P (snd kv)) a -> P (VObj c a).

Lemma value_induction : forall v, P v.
Proof.
  fix IH 1. intros [ | b | n | f | s | d | t | l | d | c a ].
  - exact HNone.
  - exact (HBool b).
  - exact (HInt n).
  - exact (HFloat f).
  - exact (HStr s).
  - exact (HDate d).
  - exact (HTime t).
  - apply HList. induction l as [|x l IHl]; constructor; [apply IH|exact IHl].
  - apply HDict.
    induction d as [|[k x] d IHd]; constructor; [apply IH|exact IHd].
  - apply HObj.
    induction a as [|[k x] a IHa]; constructor; [apply IH|exact IHa].
Qed.

End ValueInduction.

Lemma string_eqb_refl' : forall s, String.eqb s s = true.
Proof. intros s. apply String.eqb_eq. reflexivity. Qed.

(** ** Association lists as dictionaries *)

Lemma keys_dict_set : forall k v d k',
  In k' (keys_of (dict_set k v d)) <-> k' = k \/ In k' (keys_of d).
Proof.
  intros k v d k'. induction d as [|[k0 v0] d IH]; simpl.
  - intuition.
  - destruct (String.eqb k k0) eqn:E; simpl.
    + apply String.eqb_eq in E. subst. intuition.
    + rewrite IH. intuition.
Qed.

Lemma NoDup_dict_set : forall k v d,
  NoDup (keys_of d) -> NoDup (keys_of (dict_set k v d)).
Proof.
  intros k v d. induction d as [|[k0 v0] d IH]; simpl; intros H.
  - constructor; [intros []|constructor].
  - inversion H as [|? ? Hn Hd]; subst.
    destruct (String.eqb k k0) eqn:E; simpl.
    + apply String.eqb_eq in E. subst. constructor; assumption.
    + constructor; [|auto].
      intros Hin. apply keys_dict_set in Hin. destruct Hin as [->|Hin].
      * rewrite string_eqb_refl' in E. discriminate.
      * contradiction.
Qed.

Lemma dict_set_fresh : forall k v d,
  ~ In k (keys_of d) -> dict_set k v d = (d ++ [(k, v)])%list.
Proof.
  intros k v d. induction d as [|[k0 v0] d IH]; simpl; intros H; [reflexivity|].
  destruct (String.eqb k k0) eqn:E.
  - apply String.eqb_eq in E. subst. exfalso. apply H. now left.
  - rewrite IH; [reflexivity|]. intros Hin. apply H. now right.
Qed.

Lemma Forall_dict_set : forall (Q : string * value -> Prop) k v d,
  Q (k, v) -> Forall Q d -> Forall Q (dict_set k v d).
Proof.
  intros Q k v d Hq. induction d as [|[k0 v0] d IH]; simpl; intros H.
  - constructor; [assumption|constructor].
  - inversion H; subst. destruct (String.eqb k k0); constructor; auto.
Qed.

Lemma lookup_dict_set : forall k v d k',
  lookup k' (dict_set k v d) = if String.eqb k' k then Some v else lookup k' d.
Proof.
  intros k v d k'. induction d as [|[k0 v0] d IH]; simpl.
  - destruct (String.eqb k' k); reflexivity.
  - destruct (String.eqb k k0) eqn:E; simpl.
    + apply String.eqb_eq in E. subst.
      destruct (String.eqb k' k0); reflexivity.
    + rewrite IH. destruct (String.eqb k' k0) eqn:E0; [|reflexivity].
      apply String.eqb_eq in E0. subst.
      rewrite String.eqb_sym, E. reflexivity.
Qed.

Lemma dict_of_items_add : forall items, dict_of_items items = dict_add [] items.
Proof. reflexivity. Qed.

Lemma keys_dict_add : forall items acc k,
  In k (keys_of (dict_add acc items)) <->
  In k (keys_of acc) \/ In k (keys_of items).
Proof.
  induction items as [|[k0 v0] items IH]; intros acc k; simpl.
  - intuition.
  - unfold dict_add in *. simpl. rewrite IH, keys_dict_set. intuition.
Qed.

Lemma NoDup_dict_add : forall items acc,
  NoDup (keys_of acc) -> NoDup (keys_of (dict_add acc items)).
Proof.
  induction items as [|[k0 v0] items IH]; intros acc H; simpl; [assumption|].
  apply IH. now apply NoDup_dict_set.
Qed.

Lemma Forall_dict_add : forall (Q : string * value -> Prop) items acc,
  Forall Q acc -> Forall Q items -> Forall Q (dict_add acc items).
Proof.
  intros Q. induction items as [|[k0 v0] items IH]; intros acc Ha Hi; simpl.
  - assumption.
  - inversion Hi; subst. apply IH; [|assumption].
    now apply Forall_dict_set.
Qed.

Lemma dict_add_fresh : forall items acc,
  NoDup (keys_of (acc ++ items)%list) -> dict_add acc items = (acc ++ items)%list.
Proof.
  induction items as [|[k0 v0] items IH]; intros acc H; simpl.
  - now rewrite app_nil_r.
  - assert (Hk : ~ In k0 (keys_of acc)).
    { unfold keys_of in *. rewrite map_app in H. simpl in H.
      apply NoDup_remove_2 in H. intros Hin. apply H.
      apply in_or_app. now left. }
    unfold dict_add in *. simpl. rewrite (dict_set_fresh k0 v0 acc Hk).
    rewrite IH; rewrite <- app_assoc; simpl; [reflexivity|assumption].
Qed.

(** A later pair for a key overrides the earlier ones. *)
Lemma lookup_dict_add : forall items acc k,
  lookup k (dict_add acc items) =
  match lookup k (rev items) with
  | Some v => Some v
  | None => lookup k acc
  end.
Proof.
  induction items as [|[k0 v0] items IH]; intros acc k; simpl; [reflexivity|].
  rewrite IH, lookup_dict_set.
  assert (Happ : forall l1 l2, lookup k (l1 ++ l2)%list =
            match lookup k l1 with Some v => Some v | None => lookup k l2 end).
  { induction l1 as [|[k1 v1] l1 IHl]; intros l2; simpl; [reflexivity|].
    destruct (String.eqb k k1); auto. }
  rewrite Happ. destruct (lookup k (rev items)); [reflexivity|].
  simpl. destruct (String.eqb k k0); reflexivity.
Qed.

Lemma lookup_app : forall k (l1 l2 : dict),
  lookup k (l1 ++ l2)%list =
  match lookup k l1 with Some v => Some v | None => lookup k l2 end.
Proof.
  intros k. induction l1 as [|[k1 v1] l1 IHl]; intros l2; simpl; [reflexivity|].
  destruct (String.eqb k k1); auto.
Qed.

Lemma lookup_None : forall k (d : dict),
  lookup k d = None <-> ~ In k (keys_of d).
Proof.
  intros k. induction d as [|[k0 v0] d IH]; simpl.
  - intuition.
  - destruct (String.eqb k k0) eqn:E.
    + apply String.eqb_eq in E. subst. split; [discriminate|].
      intros H. exfalso. apply H. now left.
    + rewrite IH. apply String.eqb_neq in E. intuition.
Qed.

Lemma lookup_In : forall k v (d : dict),
  lookup k d = Some v -> In (k, v) d.
Proof.
  intros k v. induction d as [|[k0 v0] d IH]; simpl; [discriminate|].
  destruct (String.eqb k k0) eqn:E.
  - apply String.eqb_eq in E. intros [= <-]. subst. now left.
  - intros H. right. auto.
Qed.

(** ** The flattener *)

Lemma flatten_value_dict : forall keys d parent_key,
  flatten_value keys (VDict d) parent_key = flatten_dict keys d parent_key.
Proof.
  intros keys d parent_key. unfold flatten_dict, _flatten_dict_gen. simpl.
  f_equal. induction d as [|[k v] d IH]; simpl; [reflexivity|].
  now rewrite IH.
Qed.

Lemma yield_entry_descends : forall keys parent_key k v,
  yield_entry keys parent_key (k, v) =
  if descends keys k v then flatten_value keys v (new_key parent_key k)
  else [(new_key parent_key k, v)].
Proof.
  intros keys parent_key k v. unfold yield_entry, descends.
  destruct (keys_truthy keys), (is_mapping v), (key_in k keys); reflexivity.
Qed.

Lemma flatten_dict_NoDup : forall keys d parent_key,
  NoDup (keys_of (flatten_dict keys d parent_key)).
Proof.
  intros. unfold flatten_dict. rewrite dict_of_items_add.
  apply NoDup_dict_add. constructor.
Qed.

(** Without a restriction every mapping is entered, so none is yielded. *)
Lemma flatten_value_flat : forall v parent_key,
  flat (flatten_value None v parent_key).
Proof.
  induction v using value_induction; intros parent_key;
    try (simpl; constructor).
  rewrite flatten_value_dict. unfold flatten_dict, flat.
  rewrite dict_of_items_add. apply Forall_dict_add; [constructor|].
  unfold _flatten_dict_gen.
  induction H as [|[k v] d Hv Hd IH]; simpl; [constructor|].
  apply Forall_app. split; [|exact IH].
  destruct (is_mapping v) eqn:E.
  - apply Hv.
  - constructor; [exact E|constructor].
Qed.

(** Flattening at the top level leaves a flat dictionary as it is. *)
Lemma flatten_dict_flat_id : forall keys d,
  flat d -> NoDup (keys_of d) -> flatten_dict keys d "" = d.
Proof.
  intros keys d Hf Hn. unfold flatten_dict.
  assert (Hg : _flatten_dict_gen keys d "" = d).
  { unfold _flatten_dict_gen. clear Hn.
    induction Hf as [|[k v] d Hv Hd IH]; simpl; [reflexivity|].
    rewrite IH. simpl in Hv. rewrite Hv.
    destruct (keys_truthy keys); reflexivity. }
  rewrite Hg, dict_of_items_add. now apply dict_add_fresh.
Qed.

Lemma flatten_value_empty_keys : forall v parent_key,
  flatten_value (Some []) v parent_key = flatten_value None v parent_key.
Proof.
  induction v using value_induction; intros parent_key; try reflexivity.
  rewrite !flatten_value_dict. unfold flatten_dict, _flatten_dict_gen.
  f_equal.
  induction H as [|[k v] d Hv Hd IH]; simpl; [reflexivity|].
  rewrite IH. f_equal. simpl in Hv. now rewrite Hv.
Qed.

(** The keys that an entered sub-mapping contributes. *)
Lemma flatten_dict_keys : forall keys d parent_key k,
  In k (keys_of (flatten_dict keys d parent_key)) <->
  exists kv, In kv d /\ In k (keys_of (yield_entry keys parent_key kv)).
Proof.
  intros keys d parent_key k. unfold flatten_dict.
  rewrite dict_of_items_add, keys_dict_add. simpl.
  unfold _flatten_dict_gen, keys_of. rewrite in_map_iff. split.
  - intros [[]|[[k0 v0] [<- Hin]]]. apply in_flat_map in Hin.
    destruct Hin as [kv [Hkv Hy]]. exists kv. split; [assumption|].
    apply in_map_iff. now exists (k0, v0).
  - intros [kv [Hkv Hy]]. right. apply in_map_iff in Hy.
    destruct Hy as [[k0 v0] [<- Hy]]. exists (k0, v0). split; [reflexivity|].
    apply in_flat_map. now exists kv.
Qed.

Lemma new_key_nonempty : forall parent_key k,
  parent_key <> "" ->
  new_key parent_key k = lower parent_key ++ capitalize k.
Proof.
  intros [|c r] k H; [contradiction|reflexivity].
Qed.

Lemma new_key_top : forall k, new_key "" k = k.
Proof. reflexivity. Qed.

(** The key of a child of an entered entry, at any depth. *)
Lemma flatten_dict_child_key : forall keys d parent_key p sub c v,
  In (p, VDict sub) d ->
  descends keys p (VDict sub) = true ->
  In (c, v) sub ->
  descends keys c v = false ->
  In (new_key (new_key parent_key p) c)
     (keys_of (flatten_dict keys d parent_key)).
Proof.
  intros keys d parent_key p sub c v Hp Hdp Hc Hdc.
  apply flatten_dict_keys. exists (p, VDict sub). split; [assumption|].
  rewrite yield_entry_descends, Hdp, flatten_value_dict.
  apply flatten_dict_keys. exists (c, v). split; [assumption|].
  rewrite yield_entry_descends, Hdc. now left.
Qed.

(* ================================================================= *)
(** * Properties of the flattener *)

(** C5, as the code has it: when [flat_dict] enters the mapping under a
    top-level key [p] and does not enter the value under its child key [c],
    the output has the key [p.lower() + c.capitalize()]: [p] with all of its
    characters lower-cased, followed by [c] with its first character
    upper-cased and all of its other characters lower-cased.  Under an empty
    [p] the child key is kept as it is.  Below the top level the parent key
    is the key synthesized so far, and the rule is the same. *)
Theorem flat_dict_synthesized_key :
  (forall keys d o p sub c v,
     flat_dict (VDict d) keys = Ok o ->
     In (p, VDict sub) d ->
     descends keys p (VDict sub) = true ->
     In (c, v) sub ->
     descends keys c v = false ->
     In (if str_truthy p then lower p ++ capitalize c else c) (keys_of o))
  /\ (forall keys sub parent_key c v,
        In (c, v) sub ->
        descends keys c v = false ->
        parent_key <> "" ->
        In (lower parent_key ++ capitalize c)
           (keys_of (flatten_dict keys sub parent_key))).
Proof.
  split.
  - intros keys d o p sub c v Ho Hp Hdp Hc Hdc.
    simpl in Ho. injection Ho as <-.
    exact (flatten_dict_child_key keys d "" p sub c v Hp Hdp Hc Hdc).
  - intros keys sub parent_key c v Hc Hdc Hne.
    apply flatten_dict_keys. exists (c, v). split; [assumption|].
    rewrite yield_entry_descends, Hdc, (new_key_nonempty parent_key c Hne).
    now left.
Qed.

Lemma flat_dict_synthesized_key_witness :
  In "firstpracticeDate"
     (keys_of [("firstpracticeDate", VStr "2022-04-08");
               ("firstpracticeTime", VStr "03:00:00Z")]).
Proof.
  apply (proj1 flat_dict_synthesized_key (Some race_keys)
           [("FirstPractice", VDict [("date", VStr "2022-04-08");
                                     ("time", VStr "03:00:00Z")])]
           _ "FirstPractice"
           [("date", VStr "2022-04-08"); ("time", VStr "03:00:00Z")]
           "date" (VStr "2022-04-08")).
  - reflexivity.
  - simpl. left. reflexivity.
  - reflexivity.
  - simpl. left. reflexivity.
  - reflexivity.
Defined.

(** C5 as claimed fails: lower-casing only the first character of
    "FirstPractice" and upper-casing the first character of "date" gives
    "firstPracticeDate", which is not the key that the flattener makes. *)
Lemma synthesized_key_first_character_only_fails :
  flat_dict (VDict [("FirstPractice", VDict [("date", VStr "2022-04-08")])]) None
  = Ok [("firstpracticeDate", VStr "2022-04-08")]
  /\ Claimed.synthesized_key "FirstPractice" "date" = "firstPracticeDate"
  /\ ~ In (Claimed.synthesized_key "FirstPractice" "date")
          (keys_of [("firstpracticeDate", VStr "2022-04-08")]).
Proof.
  split; [reflexivity|]. split; [reflexivity|].
  simpl. intros [H|[]]. discriminate H.
Qed.

(** C8: flattening without a restriction is idempotent; flattening the
    output of [flat_dict(d)] gives that output again, since the output has
    no mapping left among its values. *)
Theorem flat_dict_idempotent : forall d,
  bind (flat_dict d None) (fun o => flat_dict (VDict o) None)
  = flat_dict d None
  /\ match flat_dict d None with
     | Ok o => flat o
     | Raise _ => True
     end.
Proof.
  intros [ | | | | | | | | d | ]; try (split; [reflexivity|exact I]).
  simpl. split.
  - f_equal. apply flatten_dict_flat_id.
    + rewrite <- flatten_value_dict. apply flatten_value_flat.
    + apply flatten_dict_NoDup.
  - rewrite <- flatten_value_dict. apply flatten_value_flat.
Qed.

(** Every pair of [dict(pairs)] is one of the pairs. *)
Lemma dict_of_items_In : forall items kv,
  In kv (dict_of_items items) -> In kv items.
Proof.
  intros items kv H. rewrite dict_of_items_add in H.
  assert (F : Forall (fun x => In x items) (dict_add [] items)).
  { apply Forall_dict_add; [constructor|]. now apply Forall_forall. }
  rewrite Forall_forall in F. now apply F.
Qed.

(** Without a restriction, every entry of the output is a leaf of the
    input, under the key synthesized on the way down to it. *)
Lemma flatten_value_leaf : forall v parent_key d k x,
  v = VDict d ->
  In (k, x) (flatten_value None v parent_key) ->
  leaf d parent_key k x.
Proof.
  induction v using value_induction; intros parent_key d0 k x E Hin;
    try discriminate E.
  injection E as <-. rewrite flatten_value_dict in Hin.
  apply dict_of_items_In in Hin. unfold _flatten_dict_gen in Hin.
  apply in_flat_map in Hin. destruct Hin as [[k0 v0] [Hkv Hy]].
  rewrite yield_entry_descends in Hy. unfold descends in Hy. simpl in Hy.
  rewrite andb_true_r in Hy.
  rewrite Forall_forall in H. pose proof (H (k0, v0) Hkv) as IH. simpl in IH.
  destruct (is_mapping v0) eqn:Em.
  - destruct v0; try discriminate Em.
    apply (leaf_below d parent_key k0 d0 k x Hkv).
    exact (IH (new_key parent_key k0) d0 k x eq_refl Hy).
  - destruct Hy as [[= <- <-]|[]]. now apply leaf_here.
Qed.

(** Without a restriction, every leaf of the input has its key in the
    output. *)
Lemma leaf_flatten_dict : forall d parent_key k x,
  leaf d parent_key k x ->
  In k (keys_of (flatten_dict None d parent_key)).
Proof.
  intros d parent_key k x L.
  induction L as [d parent_key k v Hin Hm|d parent_key k sub k' v Hin L IH];
    apply flatten_dict_keys.
  - exists (k, v). split; [exact Hin|].
    rewrite yield_entry_descends. unfold descends. rewrite Hm. now left.
  - exists (k, VDict sub). split; [exact Hin|].
    rewrite yield_entry_descends.
    change (descends None k (VDict sub)) with true. cbv iota.
    rewrite flatten_value_dict. exact IH.
Qed.

(** C9: an empty key list is the same as no key list, and the flattening
    is then complete.  For a mapping [items] the output has no mapping left
    among its values; each of its entries is a leaf of [items] (a value
    that is no mapping, at any depth below mappings) under the key
    synthesized on the way down to it; conversely every leaf of [items], at
    any depth, has its key in the output, with its own value when no other
    leaf has that key. *)
Theorem flat_dict_empty_keys :
  (forall d, flat_dict d (Some []) = flat_dict d None)
  /\ (forall items,
        exists o,
          flat_dict (VDict items) (Some []) = Ok o
          /\ flat o
          /\ (forall k v, In (k, v) o -> leaf items "" k v)
          /\ (forall k v, leaf items "" k v -> In k (keys_of o))
          /\ (forall k v,
                leaf items "" k v ->
                (forall v', leaf items "" k v' -> v' = v) ->
                lookup k o = Some v)).
Proof.
  assert (E : forall d, flat_dict d (Some []) = flat_dict d None).
  { intros d. destruct d; try reflexivity. simpl. f_equal.
    rewrite <- !flatten_value_dict. apply flatten_value_empty_keys. }
  split; [exact E|]. intros items. rewrite E.
  exists (flatten_dict None items ""). split; [reflexivity|].
  assert (Hsound : forall k v,
            In (k, v) (flatten_dict None items "") -> leaf items "" k v).
  { intros k v Hin. rewrite <- flatten_value_dict in Hin.
    exact (flatten_value_leaf (VDict items) "" items k v eq_refl Hin). }
  assert (Hcomplete : forall k v,
            leaf items "" k v -> In k (keys_of (flatten_dict None items ""))).
  { intros k v. apply leaf_flatten_dict. }
  split; [rewrite <- flatten_value_dict; apply flatten_value_flat|].
  split; [exact Hsound|]. split; [exact Hcomplete|].
  intros k v L Huniq.
  pose proof (Hcomplete k v L) as Hk.
  destruct (lookup k (flatten_dict None items "")) as [v'|] eqn:El.
  - f_equal. apply Huniq. apply Hsound. now apply lookup_In.
  - apply lookup_None in El. contradiction.
Qed.

Lemma flat_dict_empty_keys_witness :
  exists o,
    flat_dict (VDict [("Circuit",
                       VDict [("circuitId", VStr "silverstone");
                              ("Location",
                               VDict [("country", VStr "UK")])])])
              (Some [])
    = Ok o
    /\ In "circuitCircuitid" (keys_of o)
    /\ In "circuitlocationCountry" (keys_of o).
Proof.
  destruct (proj2 flat_dict_empty_keys
              [("Circuit",
                VDict [("circuitId", VStr "silverstone");
                       ("Location", VDict [("country", VStr "UK")])])])
    as [o [Ho [_ [_ [Hcomplete _]]]]].
  exists o. split; [exact Ho|]. split.
  - apply (Hcomplete _ (VStr "silverstone")).
    apply (leaf_below _ "" "Circuit"
             [("circuitId", VStr "silverstone");
              ("Location", VDict [("country", VStr "UK")])]);
      [left; reflexivity|].
    change "circuitCircuitid"
      with (new_key (new_key "" "Circuit") "circuitId").
    apply leaf_here; [left; reflexivity|reflexivity].
  - apply (Hcomplete _ (VStr "UK")).
    apply (leaf_below _ "" "Circuit"
             [("circuitId", VStr "silverstone");
              ("Location", VDict [("country", VStr "UK")])]);
      [left; reflexivity|].
    apply (leaf_below _ _ "Location" [("country", VStr "UK")]);
      [right; left; reflexivity|].
    change "circuitlocationCountry"
      with (new_key (new_key (new_key "" "Circuit") "Location") "country").
    apply leaf_here; [left; reflexivity|reflexivity].
Defined.

(* ================================================================= *)
(** * Facts about the record layer *)

Lemma distinct_NoDup : forall l, distinct l = true -> NoDup l.
Proof.
  induction l as [|x l IH]; simpl; intros H; [constructor|].
  apply andb_prop in H. destruct H as [Hx Hl]. constructor; [|auto].
  intros Hin. apply negb_true_iff in Hx.
  assert (existsb (String.eqb x) l = true); [|congruence].
  apply existsb_exists. exists x. split; [assumption|apply string_eqb_refl'].
Qed.

Lemma mapM_Ok : forall (A B : Type) (f : A -> result B) xs ys,
  mapM f xs = Ok ys <-> Forall2 (fun x y => f x = Ok y) xs ys.
Proof.
  intros A B f. induction xs as [|x xs IH]; intros ys; simpl.
  - split.
    + intros [= <-]. constructor.
    + intros H. inversion H. reflexivity.
  - destruct (f x) as [y|e] eqn:Ex; simpl.
    + destruct (mapM f xs) as [ys'|e] eqn:Exs; simpl.
      * split.
        -- intros [= <-]. constructor; [assumption|]. now apply IH.
        -- intros H. inversion H as [|? y0 ? ys0 Hy Hys]; subst.
           apply IH in Hys. congruence.
      * split; [discriminate|].
        intros H. inversion H as [|? y0 ? ys0 Hy Hys]; subst.
        apply IH in Hys. discriminate.
    + split; [discriminate|].
      intros H. inversion H; subst. congruence.
Qed.

Lemma mapM_length : forall (A B : Type) (f : A -> result B) xs ys,
  mapM f xs = Ok ys -> List.length ys = List.length xs.
Proof.
  intros A B f xs ys H. apply mapM_Ok in H.
  induction H; simpl; congruence.
Qed.

Lemma mapM_all_ok : forall (A B : Type) (f : A -> result B) xs,
  Forall (fun x => is_ok (f x) = true) xs -> exists ys, mapM f xs = Ok ys.
Proof.
  intros A B f xs H. induction H as [|x xs Hx Hxs [ys IH]]; simpl.
  - now exists [].
  - destruct (f x) as [y|e]; [|discriminate]. simpl. rewrite IH. simpl.
    now exists (y :: ys).
Qed.

Lemma mapM_raise : forall (A B : Type) (f : A -> result B) xs,
  Exists (fun x => is_ok (f x) = false) xs -> exists e, mapM f xs = Raise e.
Proof.
  intros A B f xs H. induction H as [x xs Hx|x xs Hxs [e IH]]; simpl.
  - destruct (f x) as [y|e]; [discriminate|]. now exists e.
  - destruct (f x) as [y|e']; simpl; [|now exists e'].
    rewrite IH. simpl. now exists e.
Qed.

(** What the body of [__init__] has assigned when it returns. *)
Lemma assigned : forall kwargs attributes raws attrs,
  mapM (argument kwargs) attributes = Ok raws ->
  mapM assign (combine attributes raws) = Ok attrs ->
  Forall2 (fun a nv =>
             fst nv = attr_name a /\
             exists raw, argument kwargs a = Ok raw /\ convert a raw = Ok (snd nv))
          attributes attrs.
Proof.
  intros kwargs. induction attributes as [|a attributes IH];
    intros raws attrs Hr Ha; simpl in *.
  - injection Hr as <-. simpl in Ha. injection Ha as <-. constructor.
  - destruct (argument kwargs a) as [raw|e] eqn:Earg; [|discriminate].
    simpl in Hr.
    destruct (mapM (argument kwargs) attributes) as [raws'|e] eqn:Er;
      [|discriminate].
    simpl in Hr. injection Hr as <-. simpl in Ha. unfold assign at 1 in Ha.
    simpl in Ha. destruct (convert a raw) as [v|e] eqn:Ec; [|discriminate].
    simpl in Ha.
    destruct (mapM assign (combine attributes raws')) as [attrs'|e] eqn:Em;
      [|discriminate].
    simpl in Ha. injection Ha as <-. constructor.
    + simpl. split; [reflexivity|]. now exists raw.
    + now apply (IH raws').
Qed.

Lemma init_Ok : forall cls kwargs o,
  init cls kwargs = Ok o ->
  exists attrs,
    o = VObj (class_name cls) attrs /\
    Forall2 (fun a nv =>
               fst nv = attr_name a /\
               exists raw, argument kwargs a = Ok raw
                           /\ convert a raw = Ok (snd nv))
            (class_attrs cls) attrs.
Proof.
  intros cls kwargs o H. unfold init in H.
  destruct (forallb _ (keys_of kwargs)); [|discriminate].
  destruct (mapM (argument kwargs) (class_attrs cls)) as [raws|e] eqn:Er;
    [|discriminate].
  simpl in H.
  destruct (mapM assign (combine (class_attrs cls) raws)) as [attrs|e] eqn:Ea;
    [|discriminate].
  simpl in H. injection H as <-. exists attrs. split; [reflexivity|].
  now apply (assigned kwargs _ raws).
Qed.

Lemma init_keys : forall cls kwargs c attrs,
  init cls kwargs = Ok (VObj c attrs) ->
  c = class_name cls /\ keys_of attrs = map attr_name (class_attrs cls).
Proof.
  intros cls kwargs c attrs H. apply init_Ok in H.
  destruct H as [attrs' [[= -> ->] HF]]. split; [reflexivity|].
  induction HF as [|a nv l l' [Hn _] _ IH]; simpl; congruence.
Qed.

(** The attribute [a] of a constructed instance is the converted argument. *)
Lemma init_attr : forall cls kwargs o a,
  init cls kwargs = Ok o ->
  NoDup (map attr_name (class_attrs cls)) ->
  In a (class_attrs cls) ->
  exists raw v,
    argument kwargs a = Ok raw /\ convert a raw = Ok v
    /\ getattr o (attr_name a) = Ok v.
Proof.
  intros cls kwargs o a H Hn Hin. apply init_Ok in H.
  destruct H as [attrs [-> HF]]. simpl.
  induction HF as [|a0 [n v] l l' [Hname [raw [Harg Hconv]]] HF IH];
    simpl in *; [contradiction|].
  inversion Hn as [|? ? Hnotin Hn']; subst.
  destruct Hin as [->|Hin].
  - exists raw, v. rewrite string_eqb_refl'. auto.
  - destruct (String.eqb (attr_name a) (attr_name a0)) eqn:E.
    + apply String.eqb_eq in E. exfalso. apply Hnotin. rewrite <- E.
      now apply in_map.
    + now apply IH.
Qed.

Lemma new_class_of : forall cls d o,
  new cls d = Ok o -> class_of o = Some (class_name cls).
Proof.
  intros cls [ | | | | | | | | kw | ] o H; try discriminate.
  simpl in H. apply init_Ok in H. destruct H as [attrs [-> _]]. reflexivity.
Qed.

(** A failing conversion of any attribute makes the constructor raise. *)
Lemma init_conversion_fails : forall cls kwargs a raw e,
  In a (class_attrs cls) ->
  argument kwargs a = Ok raw ->
  convert a raw = Raise e ->
  exists e', init cls kwargs = Raise e'.
Proof.
  intros cls kwargs a raw e Hin Harg Hconv. unfold init.
  destruct (forallb _ (keys_of kwargs)); [|now exists TypeError].
  destruct (mapM (argument kwargs) (class_attrs cls)) as [raws|e0] eqn:Er;
    [|now exists e0].
  simpl.
  destruct (mapM assign (combine (class_attrs cls) raws)) as [attrs|e1] eqn:Ea;
    [|now exists e1].
  exfalso. pose proof (assigned kwargs _ raws attrs Er Ea) as HF.
  clear Er Ea. induction HF as [|a0 nv l l' [_ [raw0 [Harg0 Hconv0]]] _ IH];
    simpl in Hin; [contradiction|].
  destruct Hin as [->|Hin]; [congruence|auto].
Qed.

Lemma int_returns_int : forall v w,
  int v = Ok w -> exists n, w = VInt n /\ int_Z v = Ok n.
Proof.
  intros v w H. unfold int in H. destruct (int_Z v) as [n|e]; [|discriminate].
  simpl in H. injection H as <-. now exists n.
Qed.

Lemma float_returns_float : forall v w,
  float v = Ok w -> exists f, w = VFloat f.
Proof.
  intros v w H. destruct v; simpl in H; try discriminate.
  - injection H as <-. eauto.
  - destruct (float_of_int n); [|discriminate]. injection H as <-. eauto.
  - injection H as <-. eauto.
  - destruct (float_of_str s); [|discriminate]. injection H as <-. eauto.
Qed.

Lemma argument_required : forall kwargs name c raw,
  argument kwargs (Attribute name None c) = Ok raw ->
  getitem (VDict kwargs) name = Ok raw.
Proof.
  intros kwargs name c raw H. unfold argument in H. simpl in *.
  destruct (lookup name kwargs); [assumption|discriminate].
Qed.

(* ================================================================= *)
(** * Properties of the record layer *)

(** C7: whatever the record type and the raw mapping, when the conversion
    of the argument of one attribute raises, the constructor raises and
    returns no instance. *)
Theorem construction_is_all_or_nothing : forall cls kwargs a raw e,
  In a (class_attrs cls) ->
  argument kwargs a = Ok raw ->
  convert a raw = Raise e ->
  (exists e', new cls (VDict kwargs) = Raise e')
  /\ (forall o, new cls (VDict kwargs) <> Ok o).
Proof.
  intros cls kwargs a raw e Hin Harg Hconv.
  destruct (init_conversion_fails cls kwargs a raw e Hin Harg Hconv) as [e' He].
  simpl. split; [now exists e'|]. intros o Ho. congruence.
Qed.

Lemma construction_is_all_or_nothing_witness :
  exists e', new DriverDTO (Sample.driver "max_verstappen" "30/09/1997")
             = Raise e'.
Proof.
  apply (construction_is_all_or_nothing DriverDTO _
           (field "dateOfBirth" to_date) (VStr "30/09/1997") ValueError).
  - simpl. do 4 right. left. reflexivity.
  - reflexivity.
  - reflexivity.
Defined.

(** C10: the [wins] of a [DriverStandingDTO] is the raw value through
    [float], a floating-point number; the [wins] of a
    [ConstructorStandingDTO] is the raw value through [int], an integer.
    The raw "5" becomes 5.0 in the first and 5 in the second. *)
Theorem standings_wins_converters :
  (forall x o,
     new DriverStandingDTO x = Ok o ->
     exists w f,
       getitem x "wins" = Ok w /\ float w = Ok (VFloat f)
       /\ getattr o "wins" = Ok (VFloat f))
  /\ (forall x o,
        new ConstructorStandingDTO x = Ok o ->
        exists w n,
          getitem x "wins" = Ok w /\ int w = Ok (VInt n)
          /\ getattr o "wins" = Ok (VInt n))
  /\ float (VStr "5") = Ok (VFloat (float_of_Z 5))
  /\ float_of_Z 5 = S754_finite false 5629499534213120 (-50)
  /\ int (VStr "5") = Ok (VInt 5).
Proof.
  split; [|split; [|repeat split; reflexivity]].
  - intros x o H. destruct x; try discriminate. simpl in H.
    destruct (init_attr DriverStandingDTO d o (field "wins" float) H)
      as [raw [v [Harg [Hconv Hget]]]].
    + apply distinct_NoDup. reflexivity.
    + simpl. do 4 right. left. reflexivity.
    + simpl in Hconv. destruct (float_returns_float raw v Hconv) as [f ->].
      exists raw, f. split; [|split; assumption].
      exact (argument_required d "wins" _ raw Harg).
  - intros x o H. destruct x; try discriminate. simpl in H.
    destruct (init_attr ConstructorStandingDTO d o (field "wins" int) H)
      as [raw [v [Harg [Hconv Hget]]]].
    + apply distinct_NoDup. reflexivity.
    + simpl. do 4 right. left. reflexivity.
    + simpl in Hconv. destruct (int_returns_int raw v Hconv) as [n [-> _]].
      exists raw, n. split; [|split; assumption].
      exact (argument_required d "wins" _ raw Harg).
Qed.

Lemma standings_wins_converters_witness :
  (exists o w f,
     new DriverStandingDTO (Sample.driver_standing "5") = Ok o
     /\ getitem (Sample.driver_standing "5") "wins" = Ok w
     /\ float w = Ok (VFloat f)
     /\ getattr o "wins" = Ok (VFloat f))
  /\ (exists o w n,
        new ConstructorStandingDTO (Sample.constructor_standing "5") = Ok o
        /\ getitem (Sample.constructor_standing "5") "wins" = Ok w
        /\ int w = Ok (VInt n)
        /\ getattr o "wins" = Ok (VInt n)).
Proof.
  split.
  - destruct (new DriverStandingDTO (Sample.driver_standing "5"))
      as [o|e] eqn:E; [|vm_compute in E; discriminate E].
    destruct (proj1 standings_wins_converters _ o E) as [w [f H]].
    exists o, w, f. split; [reflexivity|exact H].
  - destruct (new ConstructorStandingDTO (Sample.constructor_standing "5"))
      as [o|e] eqn:E; [|vm_compute in E; discriminate E].
    destruct (proj1 (proj2 standings_wins_converters) _ o E) as [w [n H]].
    exists o, w, n. split; [reflexivity|exact H].
Defined.

(* ================================================================= *)
(** * Facts about the client *)

Lemma truthy_omitted : forall suffix, truthy suffix = negb (omitted suffix).
Proof.
  intros [ | n | s ]; [reflexivity| |].
  - destruct n; reflexivity.
  - destruct s; reflexivity.
Qed.

Lemma filter_ext_bool : forall (A : Type) (f g : A -> bool) l,
  (forall x, f x = g x) -> filter f l = filter g l.
Proof.
  intros A f g l H. induction l as [|x l IH]; simpl; [reflexivity|].
  now rewrite H, IH.
Qed.

Lemma kept_without_zero : forall endpoints,
  ~ In (EInt 0) endpoints -> filter truthy endpoints = filter Claimed.kept endpoints.
Proof.
  induction endpoints as [|s l IH]; simpl; intros H; [reflexivity|].
  rewrite IH by tauto.
  destruct s as [ | n | s ]; [reflexivity| |destruct s; reflexivity].
  destruct n; [|reflexivity|reflexivity]. exfalso. apply H. now left.
Qed.

Section ClientFacts.

Variable World : Type.
Variable session_get : string -> World -> response * World.
Variable requests_get : string -> dict -> World -> response * World.

(** A continuation that neither requests nor fails on its own. *)
Lemma mbind_pure : forall (A B : Type) (m : M World A) (k : A -> M World B)
    (f : A -> result B) st,
  (forall a st', k a st' = (f a, st')) ->
  mbind m k st = (bind (fst (m st)) f, snd (m st)).
Proof.
  intros A B m k f st H. unfold mbind.
  destruct (m st) as [[a|e] st']; simpl; [apply H|reflexivity].
Qed.

Lemma mbind_lift_lift : forall (A B C : Type) (r : A -> result B)
    (g : B -> result C) a (st : state World),
  mbind (lift (r a)) (fun x => lift (g x)) st = (bind (r a) g, st).
Proof.
  intros. unfold mbind, lift. destruct (r a); reflexivity.
Qed.

Lemma raise_for_status_ok : forall r,
  status_code r < 400 -> raise_for_status r = Ok tt.
Proof.
  intros r H. unfold raise_for_status.
  destruct (400 <=? status_code r) eqn:E; [|reflexivity].
  apply Z.leb_le in E. lia.
Qed.

(** [_make_request] makes one request, for [url], and its outcome is a
    function of the response. *)
Lemma make_request_run : forall self url st r w,
  transport session_get requests_get self url (world st) = (r, w) ->
  _make_request session_get requests_get self url st =
  (bind (raise_for_status r) (fun _ =>
   bind (json r) (fun result =>
   bind (bind (bind (getitem result "MRData") (fun m => getitem m "total"))
              int_Z)
        (fun total =>
           if total <=? 0 then Raise WrongQueryParameters else Ok result))),
   State w (requested st ++ [url])%list).
Proof.
  intros self url st r w H. unfold transport in H.
  unfold _make_request, mbind, Yukinator.cache_get, Yukinator.get, ok, lift,
    ret, raise.
  destruct (cache_enabled self); rewrite H; simpl;
    destruct (raise_for_status r) as [[]|e]; simpl; try reflexivity;
    destruct (json r) as [result|e]; simpl; try reflexivity;
    destruct (bind (bind (getitem result "MRData") (fun m => getitem m "total"))
                   int_Z) as [total|e]; simpl; try reflexivity;
    destruct (total <=? 0); reflexivity.
Qed.

Lemma make_request_requested : forall self url st,
  requested (snd (_make_request session_get requests_get self url st))
  = (requested st ++ [url])%list.
Proof.
  intros self url st.
  destruct (transport session_get requests_get self url (world st))
    as [r w] eqn:E.
  rewrite (make_request_run self url st r w E). reflexivity.
Qed.

Lemma get_drivers_run : forall self year race st,
  get_drivers session_get requests_get self year race st =
  (bind (fst (_make_request session_get requests_get self
                (_build_url [year; race; EStr "drivers"]) st))
        (fun response =>
           bind (getitem3 response "MRData" "DriverTable" "Drivers")
                (build DriverDTO)),
   snd (_make_request session_get requests_get self
          (_build_url [year; race; EStr "drivers"]) st)).
Proof.
  intros. unfold get_drivers. apply mbind_pure. intros a st'.
  apply (mbind_lift_lift _ _ _ (fun a => getitem3 a "MRData" "DriverTable" "Drivers")).
Qed.

Lemma get_drivers_standings_run : forall self year race winners st,
  get_drivers_standings session_get requests_get self year race winners st =
  (bind (fst (_make_request session_get requests_get self
                (_build_url [year; race; EStr "driverStandings"]) st))
        (fun response =>
           bind (getitem_first response "StandingsTable" "StandingsLists"
                               "DriverStandings")
                (build DriverStandingDTO)),
   snd (_make_request session_get requests_get self
          (_build_url [year; race; EStr "driverStandings"]) st)).
Proof.
  intros. unfold get_drivers_standings. apply mbind_pure. intros a st'.
  apply (mbind_lift_lift _ _ _
           (fun a => getitem_first a "StandingsTable" "StandingsLists"
                                   "DriverStandings")).
Qed.

Lemma get_constructors_standings_run : forall self year race winners st,
  get_constructors_standings session_get requests_get self year race winners st =
  (bind (fst (_make_request session_get requests_get self
                (_build_url [year; race; EStr "constructorStandings"]) st))
        (fun response =>
           bind (getitem_first response "StandingsTable" "StandingsLists"
                               "ConstructorStandings")
                (build ConstructorStandingDTO)),
   snd (_make_request session_get requests_get self
          (_build_url [year; race; EStr "constructorStandings"]) st)).
Proof.
  intros. unfold get_constructors_standings. apply mbind_pure. intros a st'.
  apply (mbind_lift_lift _ _ _
           (fun a => getitem_first a "StandingsTable" "StandingsLists"
                                   "ConstructorStandings")).
Qed.

End ClientFacts.

(* ================================================================= *)
(** * Properties of the client *)

(** C3, as the code has it: [_build_url] is the base path, then the
    segments that are truthy (neither [None], nor the empty string, nor the
    integer 0) as strings joined by "/", then ".json?limit=1000"; where no
    segment is the integer 0 this is the URL of the specification. *)
Theorem build_url_omits_falsy : forall endpoints,
  _build_url endpoints
  = _base_url
    ++ join "/" (map str (filter (fun s => negb (omitted s)) endpoints))
    ++ ".json?limit=1000"
  /\ (~ In (EInt 0) endpoints -> _build_url endpoints = Claimed.buildUrl endpoints)
  /\ _build_url [EInt 2022; EInt 4; EStr "qualifying"]
     = _base_url ++ "2022/4/qualifying.json?limit=1000"
  /\ _build_url [EInt 2001; ENone; EStr "drivers"]
     = _base_url ++ "2001/drivers.json?limit=1000".
Proof.
  intros endpoints. split; [|split; [|split; reflexivity]].
  - unfold _build_url.
    now rewrite (filter_ext_bool _ truthy (fun s => negb (omitted s)) endpoints
                   truthy_omitted).
  - intros H. unfold _build_url, Claimed.buildUrl.
    now rewrite (kept_without_zero endpoints H).
Qed.

Lemma build_url_omits_falsy_witness :
  _build_url [EInt 2001; ENone; EStr "drivers"]
  = Claimed.buildUrl [EInt 2001; ENone; EStr "drivers"].
Proof.
  apply (proj1 (proj2 (build_url_omits_falsy [EInt 2001; ENone; EStr "drivers"]))).
  simpl. intros [H|[H|[H|[]]]]; discriminate H.
Defined.

(** C3 as claimed fails: the race number 0 is neither null nor empty, and
    [_build_url] leaves it out. *)
Lemma build_url_drops_zero :
  _build_url [EInt 2022; EInt 0; EStr "results"]
  = _base_url ++ "2022/results.json?limit=1000"
  /\ Claimed.buildUrl [EInt 2022; EInt 0; EStr "results"]
     = _base_url ++ "2022/0/results.json?limit=1000"
  /\ _build_url [EInt 2022; EInt 0; EStr "results"]
     <> Claimed.buildUrl [EInt 2022; EInt 0; EStr "results"].
Proof.
  split; [reflexivity|]. split; [reflexivity|].
  intros H. vm_compute in H. discriminate H.
Qed.

(** C2 fails on the code: with [winners=True] both standings getters
    request the URL of the season and the race, since the assignment under
    [if winners:] is overwritten; that URL is not the one of the winners. *)
Theorem standings_winners_url_is_overwritten :
  forall (World : Type) (session_get : string -> World -> response * World)
         (requests_get : string -> dict -> World -> response * World)
         self year race st,
  requested (snd (get_drivers_standings session_get requests_get
                    self year race true st))
  = (requested st ++ [_build_url [year; race; EStr "driverStandings"]])%list
  /\ requested (snd (get_constructors_standings session_get requests_get
                       self year race true st))
     = (requested st
        ++ [_build_url [year; race; EStr "constructorStandings"]])%list
  /\ _build_url [current; ENone; EStr "driverStandings"]
     = _base_url ++ "current/driverStandings.json?limit=1000"
  /\ _build_url [EStr "driverStandings"; EStr "1"]
     = _base_url ++ "driverStandings/1.json?limit=1000"
  /\ _build_url [current; ENone; EStr "constructorStandings"]
     = _base_url ++ "current/constructorStandings.json?limit=1000"
  /\ _build_url [EStr "constructorStandings"; EStr "1"]
     = _base_url ++ "constructorStandings/1.json?limit=1000".
Proof.
  intros. split; [|split; [|repeat split; reflexivity]].
  - rewrite get_drivers_standings_run. simpl. apply make_request_requested.
  - rewrite get_constructors_standings_run. simpl.
    apply make_request_requested.
Qed.

Section Envelope.

Variable World : Type.
Variable session_get : string -> World -> response * World.
Variable requests_get : string -> dict -> World -> response * World.

(** C1, as the code has it.  For a response with a status below 400 whose
    envelope has the total [n]: [_make_request] raises
    [WrongQueryParameters] exactly when [n <= 0], and returns the envelope
    otherwise.  When [0 < n] and every item of the array constructs,
    [get_drivers] returns one [DriverDTO] per item, in the order of the
    array; when an item does not construct, [get_drivers] raises. *)
Theorem get_drivers_envelope :
  forall self year race st r w body mrdata total n,
  let url := _build_url [year; race; EStr "drivers"] in
  transport session_get requests_get self url (world st) = (r, w) ->
  status_code r < 400 ->
  json r = Ok body ->
  getitem body "MRData" = Ok mrdata ->
  getitem mrdata "total" = Ok total ->
  int_Z total = Ok n ->
  (fst (_make_request session_get requests_get self url st)
     = Raise WrongQueryParameters <-> n <= 0)
  /\ (0 < n ->
      fst (_make_request session_get requests_get self url st) = Ok body)
  /\ (n <= 0 ->
      fst (get_drivers session_get requests_get self year race st)
      = Raise WrongQueryParameters)
  /\ (forall items,
        0 < n ->
        getitem3 body "MRData" "DriverTable" "Drivers" = Ok (VList items) ->
        (Forall (fun x => is_ok (new DriverDTO x) = true) items ->
         exists records,
           fst (get_drivers session_get requests_get self year race st)
           = Ok records
           /\ List.length records = List.length items
           /\ Forall2 (fun x o => new DriverDTO x = Ok o
                                  /\ class_of o = Some "DriverDTO")
                      items records)
        /\ (Exists (fun x => is_ok (new DriverDTO x) = false) items ->
            exists e,
              fst (get_drivers session_get requests_get self year race st)
              = Raise e)).
Proof.
  intros self year race st r w body mrdata total n url Ht Hs Hj Hm Htot Hn.
  assert (Hrun : fst (_make_request session_get requests_get self url st)
                 = if n <=? 0 then Raise WrongQueryParameters else Ok body).
  { rewrite (make_request_run _ session_get requests_get self url st r w Ht).
    simpl. rewrite (raise_for_status_ok r Hs). simpl. rewrite Hj. simpl.
    rewrite Hm. simpl. rewrite Htot. simpl. rewrite Hn. reflexivity. }
  assert (Hpos : 0 < n ->
                 fst (_make_request session_get requests_get self url st)
                 = Ok body).
  { intros H. rewrite Hrun. destruct (n <=? 0) eqn:E; [|reflexivity].
    apply Z.leb_le in E. lia. }
  split; [|split; [exact Hpos|split]].
  - rewrite Hrun. destruct (n <=? 0) eqn:E.
    + apply Z.leb_le in E. tauto.
    + apply Z.leb_gt in E. split; [discriminate|lia].
  - intros H. rewrite get_drivers_run. simpl. fold url. rewrite Hrun.
    apply Z.leb_le in H. rewrite H. reflexivity.
  - intros items H Hitems. rewrite get_drivers_run. simpl. fold url.
    rewrite (Hpos H). simpl. rewrite Hitems. simpl. unfold build. simpl.
    split.
    + intros Hall.
      destruct (mapM_all_ok _ _ (new DriverDTO) items Hall) as [records Hr].
      exists records. split; [exact Hr|]. split.
      * exact (mapM_length _ _ _ _ _ Hr).
      * apply mapM_Ok in Hr. clear - Hr.
        induction Hr as [|x o l l' Hx _ IH]; constructor; [|exact IH].
        split; [exact Hx|]. exact (new_class_of DriverDTO x o Hx).
    + intros Hex. exact (mapM_raise _ _ (new DriverDTO) items Hex).
Qed.

End Envelope.

Lemma get_drivers_envelope_witness :
  exists records,
    fst (get_drivers
           (Sample.serve (Sample.drivers_envelope "2"
              [Sample.driver "max_verstappen" "1997-09-30";
               Sample.driver "hamilton" "1985-01-07"]))
           (Sample.serve_direct VNone) Sample.yuki (EInt 2022) (EInt 4)
           Sample.start)
    = Ok records
    /\ List.length records = 2%nat.
Proof.
  pose (items := [Sample.driver "max_verstappen" "1997-09-30";
                  Sample.driver "hamilton" "1985-01-07"]).
  pose (body := Sample.drivers_envelope "2" items).
  destruct (get_drivers_envelope unit (Sample.serve body)
              (Sample.serve_direct VNone) Sample.yuki (EInt 2022) (EInt 4)
              Sample.start (Response 200 (Ok body)) tt body
              (VDict [("total", VStr "2");
                      ("DriverTable", VDict [("Drivers", VList items)])])
              (VStr "2") 2
              eq_refl ltac:(simpl; lia) eq_refl eq_refl eq_refl eq_refl)
    as [_ [_ [_ H]]].
  destruct (H items ltac:(lia) eq_refl) as [Hall _].
  destruct Hall as [records [Hr [Hlen _]]].
  - repeat constructor.
  - exists records. split; [exact Hr|exact Hlen].
Defined.

(** C1 as claimed fails: the total is 1 and the array holds one item, but the
    date of birth of the item is malformed, and [get_drivers] raises instead
    of returning one record. *)
Lemma get_drivers_malformed_item_raises :
  let item := Sample.driver "max_verstappen" "30/09/1997" in
  let body := Sample.drivers_envelope "1" [item] in
  let run := get_drivers (Sample.serve body) (Sample.serve_direct VNone)
               Sample.yuki (EInt 2022) (EInt 4) Sample.start in
  bind (bind (getitem body "MRData") (fun m => getitem m "total")) int_Z = Ok 1
  /\ getitem3 body "MRData" "DriverTable" "Drivers" = Ok (VList [item])
  /\ fst run = Raise ValueError
  /\ ~ (exists records, fst run = Ok records /\ List.length records = 1%nat).
Proof.
  intros item body run. split; [reflexivity|]. split; [reflexivity|].
  assert (H : fst run = Raise ValueError) by (vm_compute; reflexivity).
  split; [exact H|]. intros [records [Hr _]]. rewrite H in Hr. discriminate Hr.
Qed.

(* ================================================================= *)
(** * Facts about the time of day *)

Lemma is_digit_range : forall c,
  is_digit c = true -> 0 <= digit_val c <= 9.
Proof.
  intros c H.
  destruct c as [[] [] [] [] [] [] [] []]; try discriminate H;
    vm_compute; split; discriminate.
Qed.

Lemma digit_in_spec : forall lo hi c,
  digit_in lo hi c = true <->
  is_digit c = true /\ lo <= digit_val c <= hi.
Proof.
  intros lo hi c. unfold digit_in.
  rewrite !andb_true_iff, !Z.leb_le. tauto.
Qed.

Lemma two_In : forall p1 p2 s n r,
  In (n, r) (two p1 p2 s) ->
  exists a b, s = String a (String b r) /\ p1 a = true /\ p2 b = true
              /\ n = 10 * digit_val a + digit_val b.
Proof.
  intros p1 p2 s n r H. destruct s as [|a [|b s]]; simpl in H; try contradiction.
  destruct (p1 a) eqn:E1; destruct (p2 b) eqn:E2; simpl in H;
    try contradiction.
  destruct H as [[= <- <-]|[]]. now exists a, b.
Qed.

Lemma one_In : forall p s n r,
  In (n, r) (one p s) ->
  exists a, s = String a r /\ p a = true /\ n = digit_val a.
Proof.
  intros p s n r H. destruct s as [|a s]; simpl in H; try contradiction.
  destruct (p a) eqn:E; simpl in H; try contradiction.
  destruct H as [[= <- <-]|[]]. now exists a.
Qed.

Lemma lit_In : forall c s r, In r (lit c s) -> s = String c r.
Proof.
  intros c s r H. destruct s as [|a s]; simpl in H; try contradiction.
  destruct (Ascii.eqb a c) eqn:E; simpl in H; try contradiction.
  destruct H as [<-|[]]. apply Ascii.eqb_eq in E. now subst.
Qed.

Lemma two_digits12 : forall p1 p2 s n r,
  (forall c, p1 c = true -> is_digit c = true) ->
  (forall c, p2 c = true -> is_digit c = true) ->
  In (n, r) (two p1 p2 s) -> exists w, s = w ++ r /\ digits12 w n.
Proof.
  intros p1 p2 s n r H1 H2 H. apply two_In in H.
  destruct H as [a [b [-> [Ha [Hb ->]]]]].
  exists (String a (String b "")). simpl. auto.
Qed.

Lemma one_digits12 : forall s n r,
  In (n, r) (one is_digit s) -> exists w, s = w ++ r /\ digits12 w n.
Proof.
  intros s n r H. apply one_In in H. destruct H as [a [-> [Ha ->]]].
  exists (String a ""). simpl. auto.
Qed.

Lemma digit_in_is_digit : forall lo hi c,
  digit_in lo hi c = true -> is_digit c = true.
Proof. intros lo hi c H. now apply digit_in_spec in H. Qed.

Create HintDb digits.
#[local] Hint Resolve digit_in_is_digit : digits.

Lemma re_H_In : forall s n r,
  In (n, r) (re_H s) -> exists w, s = w ++ r /\ digits12 w n.
Proof.
  intros s n r H. unfold re_H in H. rewrite !in_app_iff in H.
  destruct H as [H|[H|H]];
    eauto using two_digits12, one_digits12 with digits.
Qed.

Lemma re_M_In : forall s n r,
  In (n, r) (re_M s) -> exists w, s = w ++ r /\ digits12 w n.
Proof.
  intros s n r H. unfold re_M in H. rewrite !in_app_iff in H.
  destruct H as [H|H]; eauto using two_digits12, one_digits12 with digits.
Qed.

Lemma re_S_In : forall s n r,
  In (n, r) (re_S s) -> exists w, s = w ++ r /\ digits12 w n.
Proof.
  intros s n r H. unfold re_S in H. rewrite !in_app_iff in H.
  destruct H as [H|[H|H]];
    eauto using two_digits12, one_digits12 with digits.
Qed.

Lemma append_assoc : forall a b c : string, (a ++ b) ++ c = a ++ b ++ c.
Proof.
  induction a as [|x a IH]; intros b c; simpl; [reflexivity|].
  now rewrite IH.
Qed.

(** Every match of ["%H:%M:%S"] reads three fields of one or two digits. *)
Lemma matches_HMS_In : forall s h m sec r,
  In (h, m, sec, r) (matches_HMS s) ->
  exists hh mm ss,
    s = hh ++ ":" ++ mm ++ ":" ++ ss ++ r
    /\ digits12 hh h /\ digits12 mm m /\ digits12 ss sec.
Proof.
  intros s h m sec r H. unfold matches_HMS in H.
  apply in_flat_map in H. destruct H as [[h' r0] [Hh H]].
  apply in_flat_map in H. destruct H as [r1 [Hl1 H]].
  apply in_flat_map in H. destruct H as [[m' r2] [Hm H]].
  apply in_flat_map in H. destruct H as [r3 [Hl2 H]].
  apply in_map_iff in H. destruct H as [[s' r4] [E Hs]].
  simpl in *. injection E as -> -> -> ->.
  apply re_H_In in Hh. destruct Hh as [hh [-> Dh]].
  apply lit_In in Hl1. subst r0.
  apply re_M_In in Hm. destruct Hm as [mm [-> Dm]].
  apply lit_In in Hl2. subst r2.
  apply re_S_In in Hs. destruct Hs as [ss [-> Ds]].
  exists hh, mm, ss. auto.
Qed.

Lemma colon_not_digit : forall lo hi, digit_in lo hi ":" = false.
Proof. reflexivity. Qed.

Ltac leb_cases :=
  repeat match goal with
         | |- context [?x <=? ?y] => destruct (Z.leb_spec x y)
         | H : context [?x <=? ?y] |- _ => destruct (Z.leb_spec x y)
         end.

(** The first candidate for the hour is the one of the field. *)
Lemma re_H_head : forall hh h r,
  digits12 hh h -> h <= 23 ->
  exists tl, re_H (hh ++ String ":" r) = (h, String ":" r) :: tl.
Proof.
  intros hh h r D Hb. destruct hh as [|a [|b [|c hh]]]; cbn -[Z.mul Z.add] in D;
    try contradiction.
  - destruct D as [Ha ->]. unfold re_H. simpl. rewrite !andb_false_r.
    simpl. rewrite Ha. eauto.
  - destruct D as [Ha [Hb' ->]].
    pose proof (is_digit_range a Ha). pose proof (is_digit_range b Hb').
    unfold re_H, two, one, digit_in. cbn [append]. rewrite Ha, Hb'.
    cbn -[Z.mul Z.add Z.leb].
    leb_cases; cbn -[Z.mul Z.add]; eauto; lia.
Qed.

Lemma re_M_head : forall mm m r,
  digits12 mm m -> m <= 59 ->
  exists tl, re_M (mm ++ String ":" r) = (m, String ":" r) :: tl.
Proof.
  intros mm m r D Hb. destruct mm as [|a [|b [|c mm]]]; cbn -[Z.mul Z.add] in D;
    try contradiction.
  - destruct D as [Ha ->]. unfold re_M. simpl. rewrite !andb_false_r.
    simpl. rewrite Ha. eauto.
  - destruct D as [Ha [Hb' ->]].
    pose proof (is_digit_range a Ha). pose proof (is_digit_range b Hb').
    unfold re_M, two, one, digit_in. cbn [append]. rewrite Ha, Hb'.
    cbn -[Z.mul Z.add Z.leb].
    leb_cases; cbn -[Z.mul Z.add]; eauto; lia.
Qed.

Lemma re_S_head : forall ss s,
  digits12 ss s -> s <= 59 ->
  exists tl, re_S ss = (s, "") :: tl.
Proof.
  intros ss s D Hb. destruct ss as [|a [|b [|c ss]]]; cbn -[Z.mul Z.add] in D;
    try contradiction.
  - destruct D as [Ha ->]. unfold re_S. simpl. rewrite Ha. eauto.
  - destruct D as [Ha [Hb' ->]].
    pose proof (is_digit_range a Ha). pose proof (is_digit_range b Hb').
    unfold re_S, two, one, digit_in. cbn [append]. rewrite Ha, Hb'.
    cbn -[Z.mul Z.add Z.leb].
    leb_cases; cbn -[Z.mul Z.add]; eauto; lia.
Qed.

Lemma digits12_nonneg : forall w n, digits12 w n -> 0 <= n.
Proof.
  intros w n D. destruct w as [|a [|b [|c w]]]; cbn -[Z.mul Z.add] in D; try contradiction.
  - destruct D as [Ha ->]. pose proof (is_digit_range a Ha). lia.
  - destruct D as [Ha [Hb ->]].
    pose proof (is_digit_range a Ha). pose proof (is_digit_range b Hb). lia.
Qed.

(** The first match of a well-formed time of day is the whole text. *)
Lemma matches_HMS_head : forall body h m sec,
  is_HMS body h m sec ->
  exists tl, matches_HMS body = (h, m, sec, "") :: tl.
Proof.
  intros body h m sec [hh [mm [ss [-> [Dh [Dm [Ds [Bh [Bm Bs]]]]]]]]].
  unfold matches_HMS.
  change (":" ++ mm ++ ":" ++ ss) with (String ":" (mm ++ String ":" ss)).
  destruct (re_H_head hh h (mm ++ String ":" ss) Dh Bh) as [t1 ->].
  destruct (re_M_head mm m ss Dm Bm) as [t2 E2].
  destruct (re_S_head ss sec Ds Bs) as [t3 E3].
  simpl. rewrite E2. simpl. rewrite E3. simpl. eauto.
Qed.

Lemma strptime_HMS_Ok : forall body h m sec tz,
  strptime_HMS body = Ok (mktime h m sec tz) <->
  tz = false /\ is_HMS body h m sec.
Proof.
  intros body h m sec tz. split.
  - unfold strptime_HMS. intros H.
    destruct (matches_HMS body) as [|[[[h' m'] s'] r] tl] eqn:E;
      [discriminate|].
    destruct r; [|discriminate].
    destruct (valid_time h' m' s') eqn:V; [|discriminate].
    injection H as -> -> -> <-. split; [reflexivity|].
    assert (Hin : In (h, m, sec, "") (matches_HMS body))
      by (rewrite E; now left).
    apply matches_HMS_In in Hin.
    destruct Hin as [hh [mm [ss [-> [Dh [Dm Ds]]]]]].
    unfold valid_time in V. rewrite !andb_true_iff, !Z.leb_le in V.
    exists hh, mm, ss. change (ss ++ "") with (ss ++ EmptyString).
    assert (Hnil : forall x : string, x ++ "" = x).
    { induction x as [|c x IH]; simpl; [reflexivity|now rewrite IH]. }
    rewrite Hnil. intuition.
  - intros [-> H]. unfold strptime_HMS.
    destruct (matches_HMS_head body h m sec H) as [tl ->].
    destruct H as [hh [mm [ss [_ [Dh [Dm [Ds [Bh [Bm Bs]]]]]]]]].
    pose proof (digits12_nonneg _ _ Dh). pose proof (digits12_nonneg _ _ Dm).
    pose proof (digits12_nonneg _ _ Ds).
    assert (V : valid_time h m sec = true).
    { unfold valid_time. rewrite !andb_true_iff, !Z.leb_le. lia. }
    now rewrite V.
Qed.

Lemma strptime_HMS_Raise : forall body e,
  strptime_HMS body = Raise e -> e = ValueError.
Proof.
  intros body e H. unfold strptime_HMS in H.
  destruct (matches_HMS body) as [|[[[h m] s] r] tl]; [congruence|].
  destruct r; [|congruence]. destruct (valid_time h m s); congruence.
Qed.

Lemma drop_last_snoc : forall body c, drop_last (body ++ String c "") = body.
Proof.
  induction body as [|a body IH]; intros c; [reflexivity|].
  simpl. rewrite IH. destruct body; reflexivity.
Qed.

(* ================================================================= *)
(** * Properties of the time-of-day conversion *)

(** C6, as the code has it: [to_time] drops the last character of the
    string, whatever it is, and succeeds exactly when what is left reads as
    hours (at most 23), minutes and seconds (at most 59) of one or two digits
    each, separated by colons; the result is that time of day in UTC.  In
    every other case it raises. *)
Theorem to_time_drops_last_character :
  (forall s h m sec tz,
     to_time (VStr s) = Ok (VTime (mktime h m sec tz)) <->
     tz = true /\ is_HMS (drop_last s) h m sec)
  /\ (forall s,
        (forall h m sec, ~ is_HMS (drop_last s) h m sec) ->
        to_time (VStr s) = Raise ValueError)
  /\ (forall body c h m sec,
        is_HMS body h m sec ->
        to_time (VStr (body ++ String c ""))
        = Ok (VTime (mktime h m sec true))).
Proof.
  assert (Hiff : forall s h m sec tz,
             to_time (VStr s) = Ok (VTime (mktime h m sec tz)) <->
             tz = true /\ is_HMS (drop_last s) h m sec).
  { intros s h m sec tz. simpl. split.
    - destruct (strptime_HMS (drop_last s)) as [[h' m' s' tz']|e] eqn:E;
        [|discriminate].
      simpl. intros [= -> -> -> <-]. split; [reflexivity|].
      apply strptime_HMS_Ok in E. tauto.
    - intros [-> H].
      assert (E : strptime_HMS (drop_last s) = Ok (mktime h m sec false))
        by (apply strptime_HMS_Ok; tauto).
      rewrite E. reflexivity. }
  split; [exact Hiff|split].
  - intros s Hno. simpl.
    destruct (strptime_HMS (drop_last s)) as [[h m sec tz]|e] eqn:E.
    + exfalso. apply strptime_HMS_Ok in E. apply (Hno h m sec). tauto.
    + simpl. now rewrite (strptime_HMS_Raise _ _ E).
  - intros body c h m sec H. apply Hiff. now rewrite drop_last_snoc.
Qed.

Lemma to_time_drops_last_character_witness :
  to_time (VStr "21:42:15Z") = Ok (VTime (mktime 21 42 15 true)).
Proof.
  apply (proj2 (proj2 to_time_drops_last_character) "21:42:15" "Z"%char).
  exists "21", "42", "15". repeat split; try reflexivity; lia.
Defined.

(** C6 as claimed fails: the last character need not be "Z", and a field
    need not have two digits. *)
Lemma to_time_accepts_any_last_character :
  to_time (VStr "21:42:15X") = Ok (VTime (mktime 21 42 15 true))
  /\ to_time (VStr "1:2:3Z") = Ok (VTime (mktime 1 2 3 true)).
Proof. split; reflexivity. Qed.

(* ================================================================= *)
(** * Facts about the keys of a flattened mapping *)

Lemma ascii_lower_idem : forall c, ascii_lower (ascii_lower c) = ascii_lower c.
Proof. intros c. destruct c as [[] [] [] [] [] [] [] []]; reflexivity. Qed.

Lemma ascii_lower_upper : forall c, ascii_lower (ascii_upper c) = ascii_lower c.
Proof. intros c. destruct c as [[] [] [] [] [] [] [] []]; reflexivity. Qed.

Lemma lower_idem : forall s, lower (lower s) = lower s.
Proof.
  induction s as [|c s IH]; simpl; [reflexivity|].
  now rewrite ascii_lower_idem, IH.
Qed.

Lemma lower_append : forall a b, lower (a ++ b) = lower a ++ lower b.
Proof.
  induction a as [|c a IH]; intros b; simpl; [reflexivity|].
  now rewrite IH.
Qed.

Lemma lower_capitalize : forall s, lower (capitalize s) = lower s.
Proof.
  intros [|c s]; simpl; [reflexivity|].
  now rewrite ascii_lower_upper, lower_idem.
Qed.

Lemma lower_new_key : forall parent_key k,
  parent_key <> "" ->
  lower (new_key parent_key k) = lower parent_key ++ lower k.
Proof.
  intros parent_key k H. rewrite (new_key_nonempty parent_key k H).
  now rewrite lower_append, lower_idem, lower_capitalize.
Qed.

Lemma new_key_not_empty : forall parent_key k,
  parent_key <> "" -> new_key parent_key k <> "".
Proof.
  intros [|c r] k H; [contradiction|]. simpl. discriminate.
Qed.

(** Below a non-empty parent key every key starts with that key in lower
    case. *)
Lemma flatten_value_prefix : forall keys v parent_key k,
  parent_key <> "" ->
  In k (keys_of (flatten_value keys v parent_key)) ->
  has_prefix (lower parent_key) k.
Proof.
  intros keys. induction v using value_induction; intros parent_key k Hp Hin;
    try (simpl in Hin; contradiction).
  rewrite flatten_value_dict in Hin. apply flatten_dict_keys in Hin.
  destruct Hin as [[c x] [Hcx Hk]]. rewrite yield_entry_descends in Hk.
  destruct (descends keys c x).
  - rewrite Forall_forall in H. specialize (H (c, x) Hcx). simpl in H.
    destruct (H (new_key parent_key c) k
                (new_key_not_empty parent_key c Hp) Hk) as [r ->].
    rewrite (lower_new_key parent_key c Hp), append_assoc.
    now exists (lower c ++ r).
  - simpl in Hk. destruct Hk as [<-|[]].
    rewrite (new_key_nonempty parent_key c Hp). now exists (capitalize c).
Qed.

Lemma yield_entry_excludes : forall keys parent_key k v target,
  (descends keys k v = false -> new_key parent_key k <> target) ->
  (descends keys k v = true ->
   new_key parent_key k <> ""
   /\ ~ has_prefix (lower (new_key parent_key k)) target) ->
  ~ In target (keys_of (yield_entry keys parent_key (k, v))).
Proof.
  intros keys parent_key k v target Hf Ht Hin.
  rewrite yield_entry_descends in Hin. destruct (descends keys k v).
  - destruct (Ht eq_refl) as [Hne Hp]. apply Hp.
    exact (flatten_value_prefix keys v _ target Hne Hin).
  - simpl in Hin. destruct Hin as [E|[]]. now apply (Hf eq_refl).
Qed.

Lemma keys_of_rev : forall (d : dict) k,
  In k (keys_of (rev d)) <-> In k (keys_of d).
Proof.
  intros d k. unfold keys_of. rewrite map_rev. symmetry. apply in_rev.
Qed.

Lemma dict_add_app : forall acc l1 l2,
  dict_add acc (l1 ++ l2)%list = dict_add (dict_add acc l1) l2.
Proof. intros. unfold dict_add. apply fold_left_app. Qed.

(** The pairs of [mid] decide the value of [k] when no later pair has it. *)
Lemma lookup_dict_of_items_mid : forall l1 mid l2 k v,
  lookup k (dict_of_items mid) = Some v ->
  ~ In k (keys_of l2) ->
  lookup k (dict_of_items (l1 ++ mid ++ l2)%list) = Some v.
Proof.
  intros l1 mid l2 k v Hmid Hl2. rewrite dict_of_items_add in *.
  rewrite lookup_dict_add in Hmid. simpl in Hmid.
  rewrite !dict_add_app, !lookup_dict_add.
  assert (E : lookup k (rev l2) = None).
  { apply lookup_None. now rewrite keys_of_rev. }
  rewrite E. destruct (lookup k (rev mid)); [assumption|discriminate].
Qed.

Lemma lookup_split : forall k v (d : dict),
  lookup k d = Some v -> exists l1, d = (l1 ++ (k, v) :: after k d)%list.
Proof.
  intros k v. induction d as [|[k0 v0] d IH]; simpl; [discriminate|].
  destruct (String.eqb k k0) eqn:E.
  - apply String.eqb_eq in E. intros [= ->]. subst. now exists [].
  - intros H. destruct (IH H) as [l1 Hl]. exists ((k0, v0) :: l1).
    simpl. now rewrite <- Hl.
Qed.

Lemma after_In : forall k (d : dict) kv, In kv (after k d) -> In kv d.
Proof.
  intros k. induction d as [|[k0 v0] d IH]; simpl; intros kv H; [assumption|].
  destruct (String.eqb k k0); auto.
Qed.

Lemma after_NoDup : forall k (d : dict) k',
  NoDup (keys_of d) -> In k' (keys_of (after k d)) -> k' <> k.
Proof.
  intros k. induction d as [|[k0 v0] d IH]; simpl; intros k' Hn Hin;
    [contradiction|].
  inversion Hn as [|? ? Hnot Hn']; subst.
  destruct (String.eqb k k0) eqn:E.
  - apply String.eqb_eq in E. subst. intros ->. contradiction.
  - now apply IH.
Qed.

(** The entry that yields [target] last decides its value. *)
Lemma lookup_flatten_dict_entry : forall keys parent_key d k v target val,
  lookup k d = Some v ->
  lookup target (dict_of_items (yield_entry keys parent_key (k, v))) = Some val ->
  (forall k' v', In (k', v') (after k d) ->
     ~ In target (keys_of (yield_entry keys parent_key (k', v')))) ->
  lookup target (flatten_dict keys d parent_key) = Some val.
Proof.
  intros keys parent_key d k v target val Hk Hy Hafter.
  destruct (lookup_split k v d Hk) as [l1 Hd].
  unfold flatten_dict, _flatten_dict_gen. rewrite Hd at 1.
  rewrite flat_map_app. simpl.
  apply lookup_dict_of_items_mid; [exact Hy|].
  intros Hin. unfold keys_of in Hin. apply in_map_iff in Hin.
  destruct Hin as [[k1 v1] [<- Hin]]. apply in_flat_map in Hin.
  destruct Hin as [[k' v'] [Hkv Hin]]. apply (Hafter k' v' Hkv).
  unfold keys_of. apply in_map_iff. now exists (k1, v1).
Qed.

Lemma key_in_race_keys : forall c,
  key_in c (Some race_keys) = true ->
  c = "FirstPractice" \/ c = "SecondPractice" \/ c = "ThirdPractice"
  \/ c = "Qualifying" \/ c = "Sprint".
Proof.
  intros c H. simpl in H. rewrite !orb_true_iff, !String.eqb_eq in H.
  intuition discriminate.
Qed.

Lemma descends_race_keys : forall c x,
  descends (Some race_keys) c x = true ->
  c = "FirstPractice" \/ c = "SecondPractice" \/ c = "ThirdPractice"
  \/ c = "Qualifying" \/ c = "Sprint".
Proof.
  intros c x H. unfold descends in H. apply andb_prop in H.
  destruct H as [_ H]. simpl negb in H. simpl orb in H.
  now apply key_in_race_keys.
Qed.

Lemma first_practice_child : forall fp ck val,
  ck = "date" \/ ck = "time" ->
  lookup ck fp = Some val ->
  (forall c, In c (keys_of (after ck fp)) -> capitalize c <> capitalize ck) ->
  lookup ("firstpractice" ++ capitalize ck)
         (flatten_dict (Some race_keys) fp "FirstPractice") = Some val.
Proof.
  intros fp ck val Hck Hl Hafter.
  apply (lookup_flatten_dict_entry _ _ fp ck val); [exact Hl| |].
  - rewrite yield_entry_descends.
    assert (E : descends (Some race_keys) ck val = false).
    { destruct Hck as [->| ->]; unfold descends; simpl; apply andb_false_r. }
    rewrite E. destruct Hck as [->| ->]; reflexivity.
  - intros c x Hin. apply yield_entry_excludes.
    + intros _. rewrite new_key_nonempty by discriminate. simpl. intros E.
      injection E as E. apply (Hafter c); [|exact E].
      unfold keys_of. apply in_map_iff. now exists (c, x).
    + intros Hd. split; [apply new_key_not_empty; discriminate|].
      intros [r Hr].
      destruct (descends_race_keys c x Hd) as [->|[->|[->|[->| ->]]]];
        destruct Hck as [->| ->]; vm_compute in Hr; discriminate Hr.
Qed.

Lemma first_practice_field : forall d fp target val,
  NoDup (keys_of d) ->
  lookup "FirstPractice" d = Some (VDict fp) ->
  target = "firstpracticeDate" \/ target = "firstpracticeTime" ->
  lookup target (flatten_dict (Some race_keys) fp "FirstPractice") = Some val ->
  ~ In target (keys_of (after "FirstPractice" d)) ->
  lookup target (flatten_dict (Some race_keys) d "") = Some val.
Proof.
  intros d fp target val Hn Hl Ht Hfp Hafter.
  apply (lookup_flatten_dict_entry _ _ d "FirstPractice" (VDict fp));
    [exact Hl| |].
  - rewrite yield_entry_descends.
    change (descends (Some race_keys) "FirstPractice" (VDict fp)) with true.
    cbv iota. rewrite flatten_value_dict, new_key_top.
    rewrite dict_of_items_add, dict_add_fresh; [exact Hfp|].
    simpl. apply flatten_dict_NoDup.
  - intros k' v' Hin.
    assert (Hk' : In k' (keys_of (after "FirstPractice" d))).
    { unfold keys_of. apply in_map_iff. now exists (k', v'). }
    apply yield_entry_excludes.
    + intros _. rewrite new_key_top. intros ->. contradiction.
    + intros Hd. rewrite new_key_top.
      pose proof (after_NoDup "FirstPractice" d k' Hn Hk') as Hne.
      destruct (descends_race_keys k' v' Hd) as [->|[->|[->|[->| ->]]]];
        [contradiction|..];
        (split; [discriminate|]; intros [r Hr];
         destruct Ht as [->| ->]; vm_compute in Hr; discriminate Hr).
Qed.

Lemma asdict_anything_obj : forall c attrs,
  _asdict_anything (VObj c attrs)
  = VDict (map (fun kv => (fst kv, _asdict_anything (snd kv))) attrs).
Proof.
  intros c attrs. simpl. f_equal.
  induction attrs as [|[k x] attrs IH]; simpl; [reflexivity|].
  now rewrite IH.
Qed.

Lemma asdict_obj : forall c attrs,
  asdict (VObj c attrs)
  = Ok (VDict (map (fun kv => (fst kv, _asdict_anything (snd kv))) attrs)).
Proof. reflexivity. Qed.

Lemma lookup_map_values : forall (f : value -> value) k (d : dict),
  lookup k (map (fun kv => (fst kv, f (snd kv))) d)
  = option_map f (lookup k d).
Proof.
  intros f k. induction d as [|[k0 v0] d IH]; simpl; [reflexivity|].
  destruct (String.eqb k k0); [reflexivity|exact IH].
Qed.

Lemma keys_map_values : forall (f : value -> value) (d : dict),
  keys_of (map (fun kv => (fst kv, f (snd kv))) d) = keys_of d.
Proof.
  intros f. induction d as [|[k0 v0] d IH]; simpl; [reflexivity|].
  now rewrite IH.
Qed.

Lemma optional_to_date_scalar : forall raw v,
  optional to_date raw = Ok v -> v = VNone \/ exists x, v = VDate x.
Proof.
  intros raw v H. destruct raw; simpl in H; try discriminate.
  - injection H as <-. now left.
  - destruct (strptime_Ymd s); [|discriminate]. injection H as <-. eauto.
Qed.

Lemma optional_to_time_scalar : forall raw v,
  optional to_time raw = Ok v -> v = VNone \/ exists x, v = VTime x.
Proof.
  intros raw v H. destruct raw; simpl in H; try discriminate.
  - injection H as <-. now left.
  - destruct (strptime_HMS (drop_last s)); [|discriminate].
    injection H as <-. eauto.
Qed.

(** A scalar entry of a mapping keeps its key and value in the flat form
    when no entered entry reaches its name. *)
Lemma flat_lookup_scalar : forall entries target v,
  lookup target entries = Some v ->
  is_mapping v = false ->
  NoDup (keys_of entries) ->
  (forall k', In k' (keys_of entries) ->
     k' <> "" /\ ~ has_prefix (lower k') target) ->
  lookup target (flatten_dict None entries "") = Some v.
Proof.
  intros entries target v Hl Hv Hn Hp.
  apply (lookup_flatten_dict_entry _ _ entries target v); [exact Hl| |].
  - rewrite yield_entry_descends. unfold descends. rewrite Hv. simpl.
    now rewrite string_eqb_refl'.
  - intros k' v' Hin.
    assert (Hk' : In k' (keys_of (after target entries))).
    { unfold keys_of. apply in_map_iff. now exists (k', v'). }
    apply yield_entry_excludes; rewrite new_key_top.
    + intros _. exact (after_NoDup target entries k' Hn Hk').
    + intros _. apply Hp. unfold keys_of. apply in_map_iff.
      exists (k', v'). split; [reflexivity|]. now apply (after_In target).
Qed.

Lemma flat_no_key : forall entries target,
  ~ In target (keys_of entries) ->
  (forall k', In k' (keys_of entries) ->
     k' <> "" /\ ~ has_prefix (lower k') target) ->
  lookup target (flatten_dict None entries "") = None.
Proof.
  intros entries target Hno Hp. apply lookup_None. intros Hin.
  apply flatten_dict_keys in Hin. destruct Hin as [[k' v'] [Hkv Hy]].
  assert (Hk' : In k' (keys_of entries)).
  { unfold keys_of. apply in_map_iff. now exists (k', v'). }
  revert Hy. apply yield_entry_excludes; rewrite new_key_top.
  - intros _ ->. contradiction.
  - intros _. now apply Hp.
Qed.

Lemma getattr_lookup : forall c attrs name v,
  getattr (VObj c attrs) name = Ok v -> lookup name attrs = Some v.
Proof.
  intros c attrs name v H. simpl in H.
  destruct (lookup name attrs); [congruence|discriminate].
Qed.

Ltac race_names Hkeys :=
  let k := fresh "k" in
  let Hin := fresh "Hin" in
  let r := fresh "r" in
  let Hr := fresh "Hr" in
  intros k Hin; rewrite keys_map_values, Hkeys in Hin; simpl in Hin;
  repeat (destruct Hin as [<-|Hin];
          [split; [discriminate|intros [r Hr]; vm_compute in Hr; discriminate Hr]|]);
  contradiction.

(* ================================================================= *)
(** * Properties of the race records *)

(** C4, as the code has it.  Take a race item with distinct keys whose
    "FirstPractice" entry is a mapping with the keys "date" and "time", in
    which no later entry flattens to the same names (no key after
    "FirstPractice" is "firstpracticeDate" or "firstpracticeTime", no key
    after "date" or "time" inside "FirstPractice" capitalizes to "Date" or
    "Time").  When [get_races] constructs its record, [firstpracticeDate] and
    [firstpracticeTime] hold the converted date and time, the plain and
    the flat dictionary carry these scalars under the same names, neither has
    a "FirstPractice" key, and the flat one has no mapping among its
    values. *)
Theorem race_first_practice_is_flattened : forall d fp dv tv o,
  NoDup (keys_of d) ->
  lookup "FirstPractice" d = Some (VDict fp) ->
  lookup "date" fp = Some dv ->
  lookup "time" fp = Some tv ->
  (forall c, In c (keys_of (after "date" fp)) -> capitalize c <> "Date") ->
  (forall c, In c (keys_of (after "time" fp)) -> capitalize c <> "Time") ->
  ~ In "firstpracticeDate" (keys_of (after "FirstPractice" d)) ->
  ~ In "firstpracticeTime" (keys_of (after "FirstPractice" d)) ->
  race_of_item (VDict d) = Ok o ->
  exists vd vt flat_form,
    optional to_date dv = Ok vd
    /\ optional to_time tv = Ok vt
    /\ getattr o "firstpracticeDate" = Ok vd
    /\ getattr o "firstpracticeTime" = Ok vt
    /\ is_mapping vd = false
    /\ is_mapping vt = false
    /\ bind (to_dict o) (fun dict => getitem dict "firstpracticeDate") = Ok vd
    /\ bind (to_dict o) (fun dict => getitem dict "firstpracticeTime") = Ok vt
    /\ bind (to_dict o) (fun dict => getitem dict "FirstPractice")
       = Raise KeyError
    /\ to_flat_dict o = Ok flat_form
    /\ lookup "firstpracticeDate" flat_form = Some vd
    /\ lookup "firstpracticeTime" flat_form = Some vt
    /\ lookup "FirstPractice" flat_form = None
    /\ flat flat_form.
Proof.
  intros d fp dv tv o Hn Hfp Hdate Htime Hcd Hct Hnd Hnt Hrace.
  unfold race_of_item in Hrace. simpl in Hrace.
  set (kwargs := flatten_dict (Some race_keys) d "") in *.
  assert (Hkd : lookup "firstpracticeDate" kwargs = Some dv).
  { apply (first_practice_field d fp); auto.
    apply (first_practice_child fp "date" dv); auto. }
  assert (Hkt : lookup "firstpracticeTime" kwargs = Some tv).
  { apply (first_practice_field d fp); auto.
    apply (first_practice_child fp "time" tv); auto. }
  assert (Hnames : NoDup (map attr_name (class_attrs RaceDTO)))
    by (apply distinct_NoDup; reflexivity).
  destruct (init_attr RaceDTO kwargs o
              (field_default_None "firstpracticeDate" (optional to_date))
              Hrace Hnames) as [rawd [vd [Hargd [Hconvd Hgetd]]]].
  { simpl. do 7 right. left. reflexivity. }
  destruct (init_attr RaceDTO kwargs o
              (field_default_None "firstpracticeTime" (optional to_time))
              Hrace Hnames) as [rawt [vt [Hargt [Hconvt Hgett]]]].
  { simpl. do 8 right. left. reflexivity. }
  unfold argument in Hargd, Hargt. simpl in Hargd, Hargt, Hgetd, Hgett.
  rewrite Hkd in Hargd. rewrite Hkt in Hargt.
  injection Hargd as <-. injection Hargt as <-.
  simpl in Hconvd, Hconvt.
  assert (Hvd : is_mapping vd = false /\ _asdict_anything vd = vd).
  { destruct (optional_to_date_scalar dv vd Hconvd) as [->|[x ->]];
      split; reflexivity. }
  assert (Hvt : is_mapping vt = false /\ _asdict_anything vt = vt).
  { destruct (optional_to_time_scalar tv vt Hconvt) as [->|[x ->]];
      split; reflexivity. }
  destruct Hvd as [Hmd Had]. destruct Hvt as [Hmt Hat].
  destruct (init_Ok RaceDTO kwargs o Hrace) as [attrs [-> _]].
  destruct (init_keys RaceDTO kwargs _ attrs Hrace) as [_ Hkeys].
  simpl in Hkeys.
  pose proof (getattr_lookup _ _ _ _ Hgetd) as Hld.
  pose proof (getattr_lookup _ _ _ _ Hgett) as Hlt.
  set (entries := map (fun kv => (fst kv, _asdict_anything (snd kv))) attrs).
  assert (Hed : lookup "firstpracticeDate" entries = Some vd).
  { unfold entries. rewrite lookup_map_values, Hld. simpl. now rewrite Had. }
  assert (Het : lookup "firstpracticeTime" entries = Some vt).
  { unfold entries. rewrite lookup_map_values, Hlt. simpl. now rewrite Hat. }
  assert (Hef : lookup "FirstPractice" entries = None).
  { apply lookup_None. unfold entries. rewrite keys_map_values, Hkeys.
    simpl. intuition discriminate. }
  assert (Hen : NoDup (keys_of entries)).
  { unfold entries. rewrite keys_map_values, Hkeys.
    apply distinct_NoDup. reflexivity. }
  exists vd, vt, (flatten_dict None entries "").
  unfold to_dict, to_flat_dict. rewrite asdict_obj. fold entries. simpl.
  rewrite Hed, Het, Hef.
  repeat (split; [solve [auto]|]).
  split; [|split; [|split]].
  - apply flat_lookup_scalar; auto. unfold entries. race_names Hkeys.
  - apply flat_lookup_scalar; auto. unfold entries. race_names Hkeys.
  - apply flat_no_key.
    + now apply lookup_None.
    + unfold entries. race_names Hkeys.
  - rewrite <- flatten_value_dict. apply flatten_value_flat.
Qed.

Lemma race_first_practice_is_flattened_witness :
  exists o,
    race_of_item (Sample.race []) = Ok o
    /\ getattr o "firstpracticeDate" = Ok (VDate (mkdate 2022 4 8))
    /\ getattr o "firstpracticeTime" = Ok (VTime (mktime 3 0 0 true))
    /\ bind (to_dict o) (fun dict => getitem dict "FirstPractice")
       = Raise KeyError.
Proof.
  destruct (race_of_item (Sample.race [])) as [o|e] eqn:E;
    [|vm_compute in E; discriminate E].
  pose (fp := [("date", VStr "2022-04-08"); ("time", VStr "03:00:00Z")]).
  destruct (race_first_practice_is_flattened
              [("season", VStr "2022"); ("round", VStr "3");
               ("url", VStr "http://example.org");
               ("raceName", VStr "Australian Grand Prix");
               ("Circuit", Sample.circuit);
               ("date", VStr "2022-04-10"); ("time", VStr "05:00:00Z");
               ("FirstPractice", VDict fp)]
              fp (VStr "2022-04-08") (VStr "03:00:00Z") o)
    as [vd [vt [flat_form [Hd [Ht [Hgd [Hgt [_ [_ [_ [_ [Hno _]]]]]]]]]]]].
  - apply distinct_NoDup. reflexivity.
  - reflexivity.
  - reflexivity.
  - reflexivity.
  - simpl. intros c [<-|[]]. discriminate.
  - simpl. intros c [].
  - simpl. intros [].
  - simpl. intros [].
  - exact E.
  - vm_compute in Hd. injection Hd as <-.
    vm_compute in Ht. injection Ht as <-.
    exists o. repeat split; assumption.
Defined.

(** C4 as claimed fails: a key "firstpracticeDate" after the "FirstPractice"
    entry overrides the flattened date, and the record holds its value
    instead of the date of the first practice. *)
Lemma race_later_key_overrides_first_practice :
  exists o,
    race_of_item (Sample.race [("firstpracticeDate", VStr "1999-01-01")]) = Ok o
    /\ getitem (Sample.race [("firstpracticeDate", VStr "1999-01-01")])
               "FirstPractice"
       = Ok (VDict [("date", VStr "2022-04-08"); ("time", VStr "03:00:00Z")])
    /\ optional to_date (VStr "2022-04-08") = Ok (VDate (mkdate 2022 4 8))
    /\ getattr o "firstpracticeDate" = Ok (VDate (mkdate 1999 1 1)).
Proof.
  eexists. split; [vm_compute; reflexivity|].
  split; [reflexivity|]. split; reflexivity.
Qed.

(** An item with a session that [RaceDTO] does not declare does not
    construct at all: the unexpected keyword is a [TypeError]. *)
Lemma race_unknown_session_raises :
  race_of_item
    (Sample.race [("SprintQualifying",
                   VDict [("date", VStr "2024-04-19");
                          ("time", VStr "07:30:00Z")])])
  = Raise TypeError.
Proof. vm_compute. reflexivity. Qed.

(* ================================================================= *)
(** * The tests of the repository, on the model *)

(** tests/test_objects.py, [test_to_date] *)
Example test_to_date :
  to_date (VStr "2022-04-02") = Ok (VDate (mkdate 2022 4 2)).
Proof. reflexivity. Qed.

(** tests/test_objects.py, [test_to_time] *)
Example test_to_time :
  to_time (VStr "21:42:15Z") = Ok (VTime (mktime 21 42 15 true)).
Proof. reflexivity. Qed.

(** tests/test_utils.py, [test_flat_dict], with the key list ["key_2"] *)
Example test_flat_dict_keys :
  flat_dict
    (VDict [("key_1", VStr "value_1");
            ("key_2", VDict [("nested_key_1", VStr "nested_value_1");
                             ("nested_key_2", VStr "nested_value_2")]);
            ("key_3", VDict [("nested_key_3", VStr "nested_value_3")])])
    (Some ["key_2"])
  = Ok [("key_1", VStr "value_1");
        ("key_2Nested_key_1", VStr "nested_value_1");
        ("key_2Nested_key_2", VStr "nested_value_2");
        ("key_3", VDict [("nested_key_3", VStr "nested_value_3")])].
Proof. reflexivity. Qed.

(** tests/test_utils.py, [test_flat_dict], without a key list *)
Example test_flat_dict_all :
  flat_dict
    (VDict [("key_1", VStr "value_1");
            ("key_2", VDict [("nested_key_1", VStr "nested_value_1");
                             ("nested_key_2", VStr "nested_value_2")]);
            ("key_3", VDict [("nested_key_3", VStr "nested_value_3")])])
    None
  = Ok [("key_1", VStr "value_1");
        ("key_2Nested_key_1", VStr "nested_value_1");
        ("key_2Nested_key_2", VStr "nested_value_2");
        ("key_3Nested_key_3", VStr "nested_value_3")].
Proof. reflexivity. Qed.

(** Conversions that fail: a date outside the calendar, a time of day past
    the last hour, and strings that are no numbers. *)
Example failing_conversions :
  to_date (VStr "2022-02-30") = Raise ValueError
  /\ to_date (VStr "02.04.2022") = Raise ValueError
  /\ to_time (VStr "24:00:00Z") = Raise ValueError
  /\ int (VStr "five") = Raise ValueError
  /\ float (VStr "five") = Raise ValueError
  /\ int VNone = Raise TypeError.
Proof. repeat split; reflexivity. Qed.

(** The white space around a number: tabs, line breaks and spaces are
    skipped, the separator U+001C is not, and [asdict] wants an instance. *)
Example white_space_of_numbers :
  int (VStr (String (ascii_of_nat 9) "1950 ")) = Ok (VInt 1950)
  /\ int (VStr (String (ascii_of_nat 28) "1950")) = Raise ValueError
  /\ float (VStr (String (ascii_of_nat 28) "1.5")) = Raise ValueError
  /\ asdict (VDict []) = Raise NotAnAttrsClassError.
Proof. repeat split; reflexivity. Qed.

(* ================================================================= *)
(** * More about the client: all the getters *)

Lemma build_url_skip : forall before suffix rest,
  truthy suffix = false ->
  _build_url (before ++ suffix :: rest)%list = _build_url (before ++ rest)%list.
Proof.
  intros before suffix rest H. unfold _build_url.
  rewrite !filter_app. simpl. now rewrite H.
Qed.

Lemma race_of_item_class : forall x o,
  race_of_item x = Ok o -> class_of o = Some "RaceDTO".
Proof.
  intros x o H. unfold race_of_item in H.
  destruct (flat_dict x (Some race_keys)) as [d|e]; [|discriminate].
  simpl in H. apply init_Ok in H. destruct H as [attrs [-> _]]. reflexivity.
Qed.

Lemma mbind_lift2 : forall (World A B : Type) (r : result A)
    (g : A -> result B) (st : state World),
  mbind (lift r) (fun x => lift (g x)) st = (bind r g, st).
Proof. intros. unfold mbind, lift. destruct r; reflexivity. Qed.

Section GetterFacts.

Variable World : Type.
Variable session_get : string -> World -> response * World.
Variable requests_get : string -> dict -> World -> response * World.

(** Every getter is one [_make_request] for its URL, then the walk to the
    array and one construction per item. *)
Lemma getters_run : forall self year race lap winners g st,
  In g (Table.getters session_get requests_get self year race lap winners) ->
  Table.g_run g st =
  (bind (fst (_make_request session_get requests_get self (Table.g_url g) st))
        (fun body =>
           bind (Table.g_extract g body) (fun items =>
           bind (iterate items) (mapM (Table.g_make g)))),
   snd (_make_request session_get requests_get self (Table.g_url g) st)).
Proof.
  intros self year race lap winners g st H. simpl in H.
  repeat (destruct H as [<-|H];
          [simpl; apply mbind_pure; intros a st'; apply mbind_lift2|]).
  contradiction.
Qed.

Lemma getters_make_class : forall self year race lap winners g x o,
  In g (Table.getters session_get requests_get self year race lap winners) ->
  Table.g_make g x = Ok o ->
  class_of o = Some (class_name (Table.g_class g)).
Proof.
  intros self year race lap winners g x o H. simpl in H.
  repeat (destruct H as [<-|H];
          [simpl; first [apply new_class_of|apply race_of_item_class]|]).
  contradiction.
Qed.

End GetterFacts.

Lemma raise_for_status_error : forall r,
  400 <= status_code r < 600 -> raise_for_status r = Raise (HTTPError (status_code r)).
Proof.
  intros r [H1 H2]. unfold raise_for_status.
  apply Z.leb_le in H1. apply Z.ltb_lt in H2. now rewrite H1, H2.
Qed.

Lemma raise_for_status_pass : forall r,
  ~ 400 <= status_code r < 600 -> raise_for_status r = Ok tt.
Proof.
  intros r H. unfold raise_for_status.
  destruct (400 <=? status_code r) eqn:E1; [|reflexivity].
  destruct (status_code r <? 600) eqn:E2; [|reflexivity].
  apply Z.leb_le in E1. apply Z.ltb_lt in E2. lia.
Qed.

(** X1: every getter makes exactly one request, for the URL of its
    template, and leaves the world as that request leaves it. *)
Theorem getters_make_one_request :
  forall (World : Type) (session_get : string -> World -> response * World)
         (requests_get : string -> dict -> World -> response * World)
         self year race lap winners g st,
  In g (Table.getters session_get requests_get self year race lap winners) ->
  requested (snd (Table.g_run g st)) = (requested st ++ [Table.g_url g])%list
  /\ world (snd (Table.g_run g st))
     = snd (transport session_get requests_get self (Table.g_url g) (world st)).
Proof.
  intros World session_get requests_get self year race lap winners g st H.
  rewrite (getters_run World session_get requests_get self year race lap
             winners g st H). simpl.
  destruct (transport session_get requests_get self (Table.g_url g) (world st))
    as [r w] eqn:E.
  rewrite (make_request_run World session_get requests_get self _ st r w E).
  split; reflexivity.
Qed.

Lemma getters_make_one_request_witness :
  requested (snd (get_pit_stops (Sample.serve VNone) (Sample.serve_direct VNone)
                    Sample.yuki (EInt 2022) (EInt 4) Sample.start))
  = ["https://api.jolpi.ca/ergast/f1/2022/4/pitstops.json?limit=1000"].
Proof.
  apply (proj1 (getters_make_one_request unit (Sample.serve VNone)
                  (Sample.serve_direct VNone) Sample.yuki (EInt 2022) (EInt 4)
                  (EInt 1) false
                  (Table.Getter
                     (get_pit_stops (Sample.serve VNone)
                        (Sample.serve_direct VNone) Sample.yuki
                        (EInt 2022) (EInt 4))
                     (_build_url [EInt 2022; EInt 4; EStr "pitstops"])
                     (fun r => getitem_first r "RaceTable" "Races" "PitStops")
                     PitStopDTO (new PitStopDTO))
                  Sample.start ltac:(simpl; do 12 right; left; reflexivity))).
Defined.

(** X2: what a getter raises for a bad response.  A status from 400 to 599
    is an [HTTPError] with that status, whatever the body says; below that, a
    body that is no JSON raises what the decoder raises, an envelope whose
    total is missing or no number raises what the look-up or [int] raises,
    and a total of 0 or less raises [WrongQueryParameters].  No record is
    constructed in any of these cases. *)
Theorem getters_request_failures :
  forall (World : Type) (session_get : string -> World -> response * World)
         (requests_get : string -> dict -> World -> response * World)
         self year race lap winners g st r w,
  In g (Table.getters session_get requests_get self year race lap winners) ->
  transport session_get requests_get self (Table.g_url g) (world st) = (r, w) ->
  (400 <= status_code r < 600 ->
   fst (Table.g_run g st) = Raise (HTTPError (status_code r)))
  /\ (forall e,
        ~ 400 <= status_code r < 600 -> json r = Raise e ->
        fst (Table.g_run g st) = Raise e)
  /\ (forall body e,
        ~ 400 <= status_code r < 600 -> json r = Ok body ->
        bind (bind (getitem body "MRData") (fun m => getitem m "total")) int_Z
        = Raise e ->
        fst (Table.g_run g st) = Raise e)
  /\ (forall body n,
        ~ 400 <= status_code r < 600 -> json r = Ok body ->
        bind (bind (getitem body "MRData") (fun m => getitem m "total")) int_Z
        = Ok n ->
        n <= 0 ->
        fst (Table.g_run g st) = Raise WrongQueryParameters).
Proof.
  intros World session_get requests_get self year race lap winners g st r w
    H Ht.
  rewrite (getters_run World session_get requests_get self year race lap
             winners g st H).
  rewrite (make_request_run World session_get requests_get self _ st r w Ht).
  simpl. repeat split.
  - intros Hs. now rewrite (raise_for_status_error r Hs).
  - intros e Hs Hj. now rewrite (raise_for_status_pass r Hs), Hj.
  - intros body e Hs Hj He.
    rewrite (raise_for_status_pass r Hs), Hj. simpl.
    simpl in He. now rewrite He.
  - intros body n Hs Hj Hn Hle.
    rewrite (raise_for_status_pass r Hs), Hj. simpl.
    simpl in Hn. rewrite Hn. simpl.
    apply Z.leb_le in Hle. now rewrite Hle.
Qed.

Lemma getters_request_failures_witness :
  fst (get_seasons (fun _ w => (Response 503 (Ok (Sample.drivers_envelope "0" [])), w))
         (Sample.serve_direct VNone) Sample.yuki Sample.start)
  = Raise (HTTPError 503).
Proof.
  apply (proj1 (getters_request_failures unit
                  (fun _ w => (Response 503 (Ok (Sample.drivers_envelope "0" [])), w))
                  (Sample.serve_direct VNone) Sample.yuki ENone ENone ENone false
                  (Table.Getter
                     (get_seasons
                        (fun _ w =>
                           (Response 503 (Ok (Sample.drivers_envelope "0" [])), w))
                        (Sample.serve_direct VNone) Sample.yuki)
                     (_build_url [EStr "seasons"])
                     (fun r => getitem3 r "MRData" "SeasonTable" "Seasons")
                     SeasonDTO (new SeasonDTO))
                  Sample.start
                  (Response 503 (Ok (Sample.drivers_envelope "0" []))) tt
                  ltac:(simpl; do 3 right; left; reflexivity) eq_refl)).
  simpl. lia.
Defined.

(** X3: when the request succeeds and the array is at its place, every
    getter returns one record of its type per item, in the order of the
    array, and raises what the first failing item raises when an item does
    not construct. *)
Theorem getters_one_record_per_item :
  forall (World : Type) (session_get : string -> World -> response * World)
         (requests_get : string -> dict -> World -> response * World)
         self year race lap winners g st body items,
  In g (Table.getters session_get requests_get self year race lap winners) ->
  fst (_make_request session_get requests_get self (Table.g_url g) st) = Ok body ->
  Table.g_extract g body = Ok (VList items) ->
  (forall records,
     mapM (Table.g_make g) items = Ok records ->
     fst (Table.g_run g st) = Ok records
     /\ Forall2 (fun x o => Table.g_make g x = Ok o
                            /\ class_of o = Some (class_name (Table.g_class g)))
                items records)
  /\ (forall e,
        mapM (Table.g_make g) items = Raise e ->
        fst (Table.g_run g st) = Raise e).
Proof.
  intros World session_get requests_get self year race lap winners g st body
    items H Hreq Hex.
  rewrite (getters_run World session_get requests_get self year race lap
             winners g st H).
  simpl. rewrite Hreq. simpl. rewrite Hex. simpl. split.
  - intros records Hr. split; [exact Hr|].
    apply mapM_Ok in Hr.
    clear Hex. induction Hr as [|x o l l' Hx _ IH]; [constructor|].
    constructor; [|exact IH]. split; [exact Hx|].
    exact (getters_make_class World session_get requests_get self year race
             lap winners g x o H Hx).
  - intros e He. exact He.
Qed.

Lemma getters_one_record_per_item_witness :
  exists records,
    fst (get_constructors
           (Sample.serve
              (VDict [("MRData",
                       VDict [("total", VStr "2");
                              ("ConstructorTable",
                               VDict [("Constructors",
                                       VList [Sample.constructor;
                                              Sample.constructor])])])]))
           (Sample.serve_direct VNone) Sample.yuki (EInt 2022) ENone
           Sample.start)
    = Ok records
    /\ List.length records = 2%nat.
Proof.
  pose (body := VDict [("MRData",
                        VDict [("total", VStr "2");
                               ("ConstructorTable",
                                VDict [("Constructors",
                                        VList [Sample.constructor;
                                               Sample.constructor])])])]).
  destruct (mapM (new ConstructorDTO) [Sample.constructor; Sample.constructor])
    as [records|e] eqn:E; [|vm_compute in E; discriminate E].
  exists records. split.
  - apply (proj1 (getters_one_record_per_item unit (Sample.serve body)
                    (Sample.serve_direct VNone) Sample.yuki (EInt 2022) ENone
                    ENone false
                    (Table.Getter
                       (get_constructors (Sample.serve body)
                          (Sample.serve_direct VNone) Sample.yuki
                          (EInt 2022) ENone)
                       (_build_url [EInt 2022; ENone; EStr "constructors"])
                       (fun r => getitem3 r "MRData" "ConstructorTable"
                                          "Constructors")
                       ConstructorDTO (new ConstructorDTO))
                    Sample.start body
                    [Sample.constructor; Sample.constructor]
                    ltac:(simpl; right; left; reflexivity)
                    eq_refl eq_refl) records E).
  - exact (mapM_length _ _ _ _ _ E).
Defined.

(** X4: the getters of results, standings, laps and pit stops read the
    array of the first element of the list and no other element: an empty
    list is an [IndexError], and what follows the first element has no
    effect on the outcome. *)
Theorem getters_read_first_element :
  forall (World : Type) (session_get : string -> World -> response * World)
         (requests_get : string -> dict -> World -> response * World)
         self year race lap winners g st body table lists key elements,
  In g (Table.getters session_get requests_get self year race lap winners) ->
  (forall r, Table.g_extract g r = getitem_first r table lists key) ->
  fst (_make_request session_get requests_get self (Table.g_url g) st) = Ok body ->
  getitem3 body "MRData" table lists = Ok (VList elements) ->
  match elements with
  | [] => fst (Table.g_run g st) = Raise IndexError
  | first :: _ =>
      fst (Table.g_run g st)
      = bind (getitem first key) (fun items =>
        bind (iterate items) (mapM (Table.g_make g)))
  end.
Proof.
  intros World session_get requests_get self year race lap winners g st body
    table lists key elements H Hex Hreq Hl.
  rewrite (getters_run World session_get requests_get self year race lap
             winners g st H).
  simpl. rewrite Hreq. simpl. rewrite Hex. unfold getitem_first.
  rewrite Hl. simpl. destruct elements; reflexivity.
Qed.

Lemma getters_read_first_element_witness :
  fst (get_sprint_results
         (Sample.serve
            (VDict [("MRData",
                     VDict [("total", VStr "3");
                            ("RaceTable", VDict [("Races", VList [])])])]))
         (Sample.serve_direct VNone) Sample.yuki current ENone Sample.start)
  = Raise IndexError.
Proof.
  pose (body := VDict [("MRData",
                        VDict [("total", VStr "3");
                               ("RaceTable", VDict [("Races", VList [])])])]).
  apply (getters_read_first_element unit (Sample.serve body)
           (Sample.serve_direct VNone) Sample.yuki current ENone ENone false
           (Table.Getter
              (get_sprint_results (Sample.serve body)
                 (Sample.serve_direct VNone) Sample.yuki current ENone)
              (_build_url [current; ENone; EStr "sprint"])
              (fun r => getitem_first r "RaceTable" "Races" "SprintResults")
              SprintResultDTO (new SprintResultDTO))
           Sample.start body "RaceTable" "Races" "SprintResults" []).
  - simpl. do 7 right. left. reflexivity.
  - reflexivity.
  - reflexivity.
  - reflexivity.
Defined.

(** X5: the getters whose year may be [None] cannot tell a call with only
    the race from a call with that number as the year: both make the same
    request and have the same outcome. *)
Theorem race_only_is_year_only :
  forall (World : Type) (session_get : string -> World -> response * World)
         (requests_get : string -> dict -> World -> response * World)
         self number st,
  get_drivers session_get requests_get self ENone number st
  = get_drivers session_get requests_get self number ENone st
  /\ get_constructors session_get requests_get self ENone number st
     = get_constructors session_get requests_get self number ENone st
  /\ get_circuits session_get requests_get self ENone number st
     = get_circuits session_get requests_get self number ENone st
  /\ get_finishing_statuses session_get requests_get self ENone number st
     = get_finishing_statuses session_get requests_get self number ENone st.
Proof.
  intros World session_get requests_get self number st.
  assert (E : forall s, _build_url [ENone; number; s] = _build_url [number; ENone; s]).
  { intros s.
    exact (eq_trans (build_url_skip [] ENone [number; s] eq_refl)
                    (eq_sym (build_url_skip [number] ENone [s] eq_refl))). }
  unfold get_drivers, get_constructors, get_circuits, get_finishing_statuses.
  rewrite !E. repeat split; reflexivity.
Qed.

(* ================================================================= *)
(** * More about the record layer *)

Lemma argument_raise : forall kwargs a e,
  argument kwargs a = Raise e -> e = TypeError.
Proof.
  intros kwargs a e H. unfold argument in H.
  destruct (lookup (attr_name a) kwargs); [discriminate|].
  destruct (attr_default a); congruence.
Qed.

Lemma arguments_missing : forall kwargs a attributes,
  In a attributes ->
  attr_default a = None ->
  lookup (attr_name a) kwargs = None ->
  mapM (argument kwargs) attributes = Raise TypeError.
Proof.
  intros kwargs a attributes Hin Hd Hl.
  induction attributes as [|a0 l IH]; simpl in *; [contradiction|].
  destruct (argument kwargs a0) as [raw|e] eqn:E; simpl.
  - destruct Hin as [->|Hin].
    + unfold argument in E. rewrite Hl, Hd in E. discriminate.
    + now rewrite (IH Hin).
  - now rewrite (argument_raise kwargs a0 e E).
Qed.

Lemma keywords_declared_forallb : forall cls kwargs,
  forallb (fun k => existsb (String.eqb k) (map attr_name (class_attrs cls)))
          (keys_of kwargs) = true
  <-> keywords_declared cls kwargs.
Proof.
  intros cls kwargs. unfold keywords_declared. rewrite forallb_forall.
  split; intros H k Hk.
  - specialize (H k Hk). apply existsb_exists in H.
    destruct H as [k' [Hin E]]. apply String.eqb_eq in E. now subst.
  - apply existsb_exists. exists k. split; [now apply H|].
    apply string_eqb_refl'.
Qed.

Lemma assigned_complete : forall kwargs attributes attrs,
  Forall2 (fun a nv =>
             fst nv = attr_name a /\
             exists raw, argument kwargs a = Ok raw /\ convert a raw = Ok (snd nv))
          attributes attrs ->
  exists raws,
    mapM (argument kwargs) attributes = Ok raws
    /\ mapM assign (combine attributes raws) = Ok attrs.
Proof.
  intros kwargs attributes attrs H.
  induction H as [|a [n v] l l' [Hn [raw [Ha Hc]]] _ [raws [IH1 IH2]]].
  - now exists [].
  - exists (raw :: raws). simpl in *. rewrite Ha. simpl. rewrite IH1. simpl.
    split; [reflexivity|]. unfold assign at 1. simpl. rewrite Hc. simpl.
    rewrite IH2. simpl. now subst n.
Qed.

Lemma classes_distinct : forall cls,
  In cls classes -> NoDup (map attr_name (class_attrs cls)).
Proof.
  intros cls H. apply distinct_NoDup. simpl in H.
  repeat (destruct H as [<-|H]; [reflexivity|]). contradiction.
Qed.

Lemma defaults_are_None : forall cls a,
  In cls classes -> In a (class_attrs cls) -> attr_default a <> None ->
  attr_default a = Some VNone /\ convert a VNone = Ok VNone.
Proof.
  intros cls a Hc Ha Hd. simpl in Hc.
  repeat (destruct Hc as [<-|Hc];
          [simpl in Ha;
           repeat (destruct Ha as [<-|Ha];
                   [first [exfalso; apply Hd; reflexivity
                          |split; reflexivity]|]);
           contradiction|]).
  contradiction.
Qed.

Lemma asdict_anything_dict : forall d,
  _asdict_anything (VDict d)
  = VDict (map (fun kv => (fst kv, _asdict_anything (snd kv))) d).
Proof.
  intros d. simpl. f_equal.
  induction d as [|[k x] d IH]; simpl; [reflexivity|]. now rewrite IH.
Qed.

Lemma has_obj_dict : forall d,
  has_obj (VDict d) = existsb (fun kv => has_obj (snd kv)) d.
Proof.
  intros d. simpl.
  induction d as [|[k x] d IH]; simpl; [reflexivity|]. now rewrite IH.
Qed.

Lemma asdict_anything_no_obj : forall v, has_obj (_asdict_anything v) = false.
Proof.
  assert (Hd : forall d : dict,
             Forall (fun kv => has_obj (_asdict_anything (snd kv)) = false) d ->
             has_obj (VDict (map (fun kv => (fst kv, _asdict_anything (snd kv)))
                                 d))
             = false).
  { intros d H. rewrite has_obj_dict.
    induction H as [|[k x] d Hx _ IH]; simpl; [reflexivity|].
    simpl in Hx. now rewrite Hx, IH. }
  induction v using value_induction; try reflexivity.
  - simpl. induction H as [|x l Hx _ IH]; simpl; [reflexivity|].
    now rewrite Hx, IH.
  - rewrite asdict_anything_dict. now apply Hd.
  - rewrite asdict_anything_obj. now apply Hd.
Qed.

(** The dictionary of an instance has no instance left inside. *)
Lemma asdict_no_obj : forall attrs : list (string * value),
  has_obj (VDict (map (fun kv => (fst kv, _asdict_anything (snd kv))) attrs))
  = false.
Proof.
  intros attrs. rewrite <- asdict_anything_dict.
  apply asdict_anything_no_obj.
Qed.

(** The values of a flattened mapping are values found inside it. *)
Lemma flatten_value_no_obj : forall keys v parent_key,
  has_obj v = false ->
  Forall (fun kv => has_obj (snd kv) = false)
         (flatten_value keys v parent_key).
Proof.
  intros keys. induction v using value_induction; intros parent_key Hv;
    try (simpl; constructor).
  rewrite flatten_value_dict. unfold flatten_dict.
  rewrite dict_of_items_add. apply Forall_dict_add; [constructor|].
  unfold _flatten_dict_gen. rewrite has_obj_dict in Hv.
  induction H as [|[k x] d Hx _ IH]; simpl in *; [constructor|].
  apply orb_false_iff in Hv. destruct Hv as [H1 H2].
  apply Forall_app. split; [|now apply IH].
  destruct (keys_truthy keys);
    [destruct (is_mapping x && key_in k keys)%bool|destruct (is_mapping x)];
    solve [now apply Hx | constructor; [exact H1|constructor]].
Qed.

Lemma to_dict_keys : forall cls x o,
  new cls x = Ok o ->
  exists entries,
    to_dict o = Ok (VDict entries)
    /\ keys_of entries = map attr_name (class_attrs cls).
Proof.
  intros cls x o H. destruct x; try discriminate. simpl in H.
  destruct (init_Ok cls d o H) as [attrs [-> _]].
  destruct (init_keys cls d _ attrs H) as [_ Hkeys].
  exists (map (fun kv => (fst kv, _asdict_anything (snd kv))) attrs).
  unfold to_dict. rewrite asdict_obj. split; [reflexivity|].
  now rewrite keys_map_values.
Qed.

(** X6: a call of a constructor with a keyword that the class does not
    declare, or without a required argument, raises [TypeError], whatever
    the other arguments are. *)
Theorem constructor_binding_errors :
  (forall cls kwargs k,
     In k (keys_of kwargs) ->
     ~ In k (map attr_name (class_attrs cls)) ->
     new cls (VDict kwargs) = Raise TypeError)
  /\ (forall cls kwargs a,
        In a (class_attrs cls) ->
        attr_default a = None ->
        lookup (attr_name a) kwargs = None ->
        new cls (VDict kwargs) = Raise TypeError).
Proof.
  split.
  - intros cls kwargs k Hk Hno. simpl. unfold init.
    destruct (forallb _ (keys_of kwargs)) eqn:E; [|reflexivity].
    exfalso. apply Hno. apply keywords_declared_forallb in E. now apply E.
  - intros cls kwargs a Hin Hd Hl. simpl. unfold init.
    destruct (forallb _ (keys_of kwargs)); [|reflexivity].
    now rewrite (arguments_missing kwargs a (class_attrs cls) Hin Hd Hl).
Qed.

Lemma constructor_binding_errors_witness :
  new StatusDTO (VDict [("statusId", VStr "1"); ("status", VStr "Finished");
                        ("count", VStr "20"); ("note", VStr "new")])
  = Raise TypeError
  /\ new StatusDTO (VDict [("statusId", VStr "1"); ("status", VStr "Finished")])
     = Raise TypeError.
Proof.
  split.
  - apply (proj1 constructor_binding_errors StatusDTO _ "note").
    + simpl. do 3 right. left. reflexivity.
    + simpl. intros [H|[H|[H|[]]]]; discriminate H.
  - apply (proj2 constructor_binding_errors StatusDTO _ (field "count" int)).
    + simpl. do 2 right. left. reflexivity.
    + reflexivity.
    + reflexivity.
Defined.

(** X7: a constructor returns an instance exactly when every keyword is
    declared and every attribute has an argument (given or default) that
    its converter accepts; the instance then has the declared attributes,
    in the order of the declaration, each with its converted argument. *)
Theorem constructor_succeeds_iff : forall cls kwargs o,
  new cls (VDict kwargs) = Ok o <->
  keywords_declared cls kwargs
  /\ exists attrs,
       o = VObj (class_name cls) attrs
       /\ Forall2 (fun a nv =>
                     fst nv = attr_name a /\
                     exists raw, argument kwargs a = Ok raw
                                 /\ convert a raw = Ok (snd nv))
                  (class_attrs cls) attrs.
Proof.
  intros cls kwargs o. simpl. split.
  - intros H. split; [|exact (init_Ok cls kwargs o H)].
    apply keywords_declared_forallb. unfold init in H.
    destruct (forallb _ (keys_of kwargs)); [reflexivity|discriminate].
  - intros [Hk [attrs [-> HF]]]. unfold init.
    apply keywords_declared_forallb in Hk. rewrite Hk.
    destruct (assigned_complete kwargs _ attrs HF) as [raws [H1 H2]].
    rewrite H1. simpl. rewrite H2. reflexivity.
Qed.

(** X8: in every record type of the module, an attribute with a default
    that the raw mapping leaves out is [None] in the record and in its
    dictionary: it is never omitted. *)
Theorem absent_optional_is_None : forall cls kwargs o a,
  In cls classes ->
  In a (class_attrs cls) ->
  attr_default a <> None ->
  lookup (attr_name a) kwargs = None ->
  new cls (VDict kwargs) = Ok o ->
  getattr o (attr_name a) = Ok VNone
  /\ bind (to_dict o) (fun dict => getitem dict (attr_name a)) = Ok VNone.
Proof.
  intros cls kwargs o a Hc Ha Hd Hl Ho. simpl in Ho.
  destruct (defaults_are_None cls a Hc Ha Hd) as [Hdef Hconv].
  destruct (init_attr cls kwargs o a Ho (classes_distinct cls Hc) Ha)
    as [raw [v [Harg [Hcv Hget]]]].
  unfold argument in Harg. rewrite Hl, Hdef in Harg. injection Harg as <-.
  rewrite Hconv in Hcv. injection Hcv as <-.
  split; [exact Hget|].
  destruct (init_Ok cls kwargs o Ho) as [attrs [-> _]].
  unfold to_dict. rewrite asdict_obj. simpl.
  rewrite lookup_map_values, (getattr_lookup _ _ _ _ Hget). reflexivity.
Qed.

Lemma absent_optional_is_None_witness :
  exists o,
    new DriverDTO (Sample.driver "fangio" "1911-06-24") = Ok o
    /\ getattr o "permanentNumber" = Ok VNone
    /\ bind (to_dict o) (fun dict => getitem dict "permanentNumber")
       = Ok VNone.
Proof.
  destruct (new DriverDTO (Sample.driver "fangio" "1911-06-24")) as [o|e] eqn:E;
    [|vm_compute in E; discriminate E].
  exists o. split; [reflexivity|].
  apply (absent_optional_is_None DriverDTO
           [("driverId", VStr "fangio"); ("url", VStr "http://example.org");
            ("givenName", VStr "Max"); ("familyName", VStr "Verstappen");
            ("dateOfBirth", VStr "1911-06-24"); ("nationality", VStr "Dutch")]
           o (field_default_None "permanentNumber" (optional int))).
  - simpl. left. reflexivity.
  - simpl. do 6 right. left. reflexivity.
  - discriminate.
  - reflexivity.
  - exact E.
Defined.

(** X9: the dictionary of a constructed record has exactly the declared
    attribute names as keys, in the order of the declaration, and under each
    name the attribute as [asdict] converts the values inside an
    instance. *)
Theorem to_dict_has_declared_keys : forall cls x o,
  new cls x = Ok o ->
  exists entries,
    to_dict o = Ok (VDict entries)
    /\ keys_of entries = map attr_name (class_attrs cls)
    /\ forall name v,
         getattr o name = Ok v ->
         getitem (VDict entries) name = Ok (_asdict_anything v).
Proof.
  intros cls x o H. destruct x; try discriminate. simpl in H.
  destruct (init_Ok cls d o H) as [attrs [-> _]].
  destruct (init_keys cls d _ attrs H) as [_ Hkeys].
  exists (map (fun kv => (fst kv, _asdict_anything (snd kv))) attrs).
  unfold to_dict. rewrite asdict_obj. split; [reflexivity|].
  split; [now rewrite keys_map_values|].
  intros name v Hg. simpl.
  rewrite lookup_map_values, (getattr_lookup _ _ _ _ Hg). reflexivity.
Qed.

Lemma to_dict_has_declared_keys_witness :
  exists entries,
    bind (new ConstructorDTO Sample.constructor) to_dict
    = Ok (VDict entries)
    /\ keys_of entries = ["constructorId"; "url"; "name"; "nationality"].
Proof.
  destruct (new ConstructorDTO Sample.constructor) as [o|e] eqn:E;
    [|vm_compute in E; discriminate E].
  destruct (to_dict_has_declared_keys ConstructorDTO _ o E)
    as [entries [Hd [Hk _]]].
  exists entries. simpl. rewrite Hd. split; [reflexivity|exact Hk].
Defined.

(** X10: [to_dict] of an instance returns a dictionary and converts every
    instance inside the record, at any depth, inside lists and mappings
    too: no instance is left anywhere in the dictionary. *)
Theorem to_dict_is_deep : forall c attrs,
  exists entries,
    to_dict (VObj c attrs) = Ok (VDict entries)
    /\ has_obj (VDict entries) = false.
Proof.
  intros c attrs.
  exists (map (fun kv => (fst kv, _asdict_anything (snd kv))) attrs).
  split; [reflexivity|exact (asdict_no_obj attrs)].
Qed.

(** X11: [to_flat_dict] of an instance never raises; its result has
    distinct keys, and no mapping and no instance among its values. *)
Theorem to_flat_dict_is_flat : forall c attrs,
  exists d,
    to_flat_dict (VObj c attrs) = Ok d
    /\ NoDup (keys_of d)
    /\ Forall (fun kv => is_mapping (snd kv) = false
                         /\ has_obj (snd kv) = false) d.
Proof.
  intros c attrs. unfold to_flat_dict. rewrite asdict_obj. cbn [bind].
  set (entries := map (fun kv => (fst kv, _asdict_anything (snd kv))) attrs).
  exists (flatten_dict None entries ""). simpl. split; [reflexivity|].
  split; [apply flatten_dict_NoDup|].
  rewrite <- flatten_value_dict.
  pose proof (flatten_value_flat (VDict entries) "") as H1.
  assert (H2 : Forall (fun kv => has_obj (snd kv) = false)
                      (flatten_value None (VDict entries) "")).
  { apply flatten_value_no_obj. exact (asdict_no_obj attrs). }
  unfold flat in H1. rewrite Forall_forall in *. intros kv Hin.
  split; [now apply H1|now apply H2].
Qed.

(** X12: for a record of the module none of whose attributes holds a
    record or a mapping, the flat dictionary is the plain dictionary. *)
Theorem to_flat_dict_of_scalars : forall cls x o entries,
  In cls classes ->
  new cls x = Ok o ->
  to_dict o = Ok (VDict entries) ->
  flat entries ->
  to_flat_dict o = Ok entries.
Proof.
  intros cls x o entries Hc Ho Hd Hf.
  destruct (to_dict_keys cls x o Ho) as [entries' [Hd' Hk]].
  rewrite Hd in Hd'. injection Hd' as <-.
  unfold to_flat_dict. unfold to_dict in Hd. rewrite Hd. simpl. f_equal.
  apply flatten_dict_flat_id; [exact Hf|].
  rewrite Hk. now apply classes_distinct.
Qed.

Lemma to_flat_dict_of_scalars_witness :
  exists entries,
    bind (new ConstructorDTO Sample.constructor) to_flat_dict = Ok entries
    /\ bind (new ConstructorDTO Sample.constructor) to_dict
       = Ok (VDict entries).
Proof.
  destruct (new ConstructorDTO Sample.constructor) as [o|e] eqn:E;
    [|vm_compute in E; discriminate E].
  assert (Ho : o = VObj "ConstructorDTO"
                 [("constructorId", VStr "red_bull");
                  ("url", VStr "http://example.org");
                  ("name", VStr "Red Bull"); ("nationality", VStr "Austrian")])
    by (vm_compute in E; now injection E).
  exists [("constructorId", VStr "red_bull");
          ("url", VStr "http://example.org");
          ("name", VStr "Red Bull"); ("nationality", VStr "Austrian")].
  simpl. split; [|now rewrite Ho].
  apply (to_flat_dict_of_scalars ConstructorDTO Sample.constructor o).
  - simpl. right. left. reflexivity.
  - exact E.
  - now rewrite Ho.
  - repeat constructor.
Defined.

(* ================================================================= *)
(** * More about the flattener *)

Lemma In_lookup : forall k v (d : dict),
  NoDup (keys_of d) -> In (k, v) d -> lookup k d = Some v.
Proof.
  intros k v. induction d as [|[k0 v0] d IH]; simpl; intros Hn Hin;
    [contradiction|].
  inversion Hn as [|? ? Hnot Hn']; subst.
  destruct Hin as [[= -> ->]|Hin].
  - now rewrite string_eqb_refl'.
  - destruct (String.eqb k k0) eqn:E; [|now apply IH].
    apply String.eqb_eq in E. subst. exfalso. apply Hnot.
    unfold keys_of. apply in_map_iff. now exists (k0, v).
Qed.

Lemma lookup_Permutation : forall k (l l' : dict),
  NoDup (keys_of l) -> Permutation l l' -> lookup k l = lookup k l'.
Proof.
  intros k l l' Hn Hp.
  assert (Hn' : NoDup (keys_of l')).
  { apply (Permutation_NoDup (l := keys_of l)); [|exact Hn].
    now apply Permutation_map. }
  destruct (lookup k l) as [v|] eqn:E.
  - symmetry. apply In_lookup; [exact Hn'|].
    apply (Permutation_in _ Hp). now apply lookup_In.
  - symmetry. apply lookup_None. apply lookup_None in E. intros Hin. apply E.
    apply (Permutation_in (l := keys_of l')); [|exact Hin].
    apply Permutation_map. now apply Permutation_sym.
Qed.

Lemma dict_of_items_distinct : forall items,
  NoDup (keys_of items) -> dict_of_items items = items.
Proof.
  intros items H. rewrite dict_of_items_add.
  now rewrite (dict_add_fresh items []).
Qed.

(** X13: whatever the key list, [flat_dict] returns a dictionary without
    nested mappings as it is. *)
Theorem flat_dict_fixes_flat : forall keys d,
  flat d -> NoDup (keys_of d) -> flat_dict (VDict d) keys = Ok d.
Proof.
  intros keys d Hf Hn. simpl. f_equal. now apply flatten_dict_flat_id.
Qed.

Lemma flat_dict_fixes_flat_witness :
  flat_dict (VDict [("season", VStr "2022"); ("url", VStr "http://example.org")])
            (Some race_keys)
  = Ok [("season", VStr "2022"); ("url", VStr "http://example.org")].
Proof.
  apply flat_dict_fixes_flat.
  - repeat constructor.
  - apply distinct_NoDup. reflexivity.
Defined.

(** X14: when no two entries flatten to the same key, the order of the
    entries of the input does not matter: the outputs for two orders have
    the same entries, and the same value under every key. *)
Theorem flat_dict_order_independent : forall keys d d' o o',
  Permutation d d' ->
  NoDup (keys_of (_flatten_dict_gen keys d "")) ->
  flat_dict (VDict d) keys = Ok o ->
  flat_dict (VDict d') keys = Ok o' ->
  Permutation o o' /\ forall k, lookup k o = lookup k o'.
Proof.
  intros keys d d' o o' Hp Hn Ho Ho'. simpl in Ho, Ho'.
  injection Ho as <-. injection Ho' as <-. unfold flatten_dict.
  assert (Hg : Permutation (_flatten_dict_gen keys d "")
                           (_flatten_dict_gen keys d' "")).
  { unfold _flatten_dict_gen. now apply Permutation_flat_map. }
  assert (Hn' : NoDup (keys_of (_flatten_dict_gen keys d' ""))).
  { apply (Permutation_NoDup (l := keys_of (_flatten_dict_gen keys d "")));
      [|exact Hn].
    now apply Permutation_map. }
  rewrite (dict_of_items_distinct _ Hn), (dict_of_items_distinct _ Hn').
  split; [exact Hg|]. intros k. now apply lookup_Permutation.
Qed.

Lemma flat_dict_order_independent_witness :
  Permutation
    [("firstpracticeDate", VStr "2022-04-08"); ("round", VStr "3")]
    [("round", VStr "3"); ("firstpracticeDate", VStr "2022-04-08")].
Proof.
  apply (flat_dict_order_independent (Some race_keys)
           [("FirstPractice", VDict [("date", VStr "2022-04-08")]);
            ("round", VStr "3")]
           [("round", VStr "3");
            ("FirstPractice", VDict [("date", VStr "2022-04-08")])]).
  - apply perm_swap.
  - apply distinct_NoDup. reflexivity.
  - reflexivity.
  - reflexivity.
Defined.

(** X15: every key of the output is the key of a top-level entry that was
    not entered, or starts with the key of an entered top-level entry in
    lower case. *)
Theorem flat_dict_keys_origin : forall keys d o k,
  flat_dict (VDict d) keys = Ok o ->
  In k (keys_of o) ->
  (exists v, In (k, v) d /\ descends keys k v = false)
  \/ (exists p sub,
        In (p, VDict sub) d /\ descends keys p (VDict sub) = true
        /\ has_prefix (lower p) k).
Proof.
  intros keys d o k Ho Hk. simpl in Ho. injection Ho as <-.
  apply flatten_dict_keys in Hk. destruct Hk as [[p v] [Hin Hy]].
  rewrite yield_entry_descends in Hy.
  destruct (descends keys p v) eqn:E.
  - right. assert (Hm : is_mapping v = true).
    { unfold descends in E. now apply andb_prop in E. }
    destruct v; try discriminate Hm. exists p, d0.
    split; [exact Hin|]. split; [exact E|].
    rewrite new_key_top in Hy. destruct p as [|c p].
    + now exists k.
    + apply (flatten_value_prefix keys (VDict d0)); [discriminate|exact Hy].
  - left. simpl in Hy. destruct Hy as [<-|[]]. rewrite new_key_top.
    now exists v.
Qed.

Lemma flat_dict_keys_origin_witness :
  (exists v, In ("firstpracticeDate", v)
               [("FirstPractice", VDict [("date", VStr "2022-04-08")])]
             /\ descends (Some race_keys) "firstpracticeDate" v = false)
  \/ (exists p sub,
        In (p, VDict sub)
           [("FirstPractice", VDict [("date", VStr "2022-04-08")])]
        /\ descends (Some race_keys) p (VDict sub) = true
        /\ has_prefix (lower p) "firstpracticeDate").
Proof.
  apply (flat_dict_keys_origin (Some race_keys)
           [("FirstPractice", VDict [("date", VStr "2022-04-08")])]
           [("firstpracticeDate", VStr "2022-04-08")]).
  - reflexivity.
  - simpl. left. reflexivity.
Defined.

(** X16: an entry that is not entered (a value that is no mapping, a list
    of mappings included, or a mapping under a key that a non-empty key list
    does not name) keeps its key, and keeps its value too when no two
    entries flatten to the same key. *)
Theorem flat_dict_passes_through : forall keys d o k v,
  flat_dict (VDict d) keys = Ok o ->
  In (k, v) d ->
  descends keys k v = false ->
  In k (keys_of o)
  /\ (NoDup (keys_of (_flatten_dict_gen keys d "")) -> lookup k o = Some v).
Proof.
  intros keys d o k v Ho Hin Hd. simpl in Ho. injection Ho as <-.
  assert (Hg : In (k, v) (_flatten_dict_gen keys d "")).
  { unfold _flatten_dict_gen. apply in_flat_map. exists (k, v).
    split; [exact Hin|]. rewrite yield_entry_descends, Hd. now left. }
  split.
  - apply flatten_dict_keys. exists (k, v). split; [exact Hin|].
    rewrite yield_entry_descends, Hd. now left.
  - intros Hn. unfold flatten_dict. rewrite (dict_of_items_distinct _ Hn).
    now apply In_lookup.
Qed.

Lemma flat_dict_passes_through_witness :
  lookup "Constructors"
         [("position", VStr "1");
          ("Constructors", VList [VDict [("name", VStr "Red Bull")]])]
  = Some (VList [VDict [("name", VStr "Red Bull")]]).
Proof.
  apply (proj2 (flat_dict_passes_through None
                  [("position", VStr "1");
                   ("Constructors", VList [VDict [("name", VStr "Red Bull")]])]
                  _ "Constructors" (VList [VDict [("name", VStr "Red Bull")]])
                  eq_refl ltac:(simpl; right; left; reflexivity) eq_refl)).
  apply distinct_NoDup. reflexivity.
Defined.

(* ================================================================= *)
(** * More about dates and times *)

Lemma digit_char_spec : forall n,
  0 <= n <= 9 ->
  is_digit (Encoder.digit_char n) = true
  /\ digit_val (Encoder.digit_char n) = n.
Proof.
  intros n H.
  assert (E : In n (map Z.of_nat (seq 0 10))).
  { replace n with (Z.of_nat (Z.to_nat n)) by lia.
    apply in_map, in_seq. lia. }
  cbn in E.
  repeat (destruct E as [<-|E]; [split; reflexivity|]).
  destruct E.
Qed.

Lemma pad2_digits : forall n,
  0 <= n <= 99 ->
  exists a b,
    Encoder.pad2 n = String a (String b "")
    /\ is_digit a = true /\ is_digit b = true
    /\ n = 10 * digit_val a + digit_val b.
Proof.
  intros n H. exists (Encoder.digit_char (n / 10)), (Encoder.digit_char (n mod 10)).
  assert (Ha : 0 <= n / 10 <= 9) by (Z.div_mod_to_equations; lia).
  assert (Hb : 0 <= n mod 10 <= 9) by (Z.div_mod_to_equations; lia).
  destruct (digit_char_spec _ Ha) as [Ha1 Ha2].
  destruct (digit_char_spec _ Hb) as [Hb1 Hb2].
  rewrite Ha2, Hb2. repeat split; try assumption.
  Z.div_mod_to_equations. lia.
Qed.

Lemma pad2_digits12 : forall n, 0 <= n <= 99 -> digits12 (Encoder.pad2 n) n.
Proof.
  intros n H. destruct (pad2_digits n H) as [a [b [-> [Ha [Hb E]]]]].
  simpl. auto.
Qed.

Lemma re_Y_pad4 : forall y rest,
  0 <= y <= 9999 -> re_Y (Encoder.pad4 y ++ rest) = [(y, rest)].
Proof.
  intros y rest H. unfold Encoder.pad4. cbn [append]. unfold re_Y.
  assert (H1 : 0 <= y / 1000 <= 9) by (Z.div_mod_to_equations; lia).
  assert (H2 : 0 <= y / 100 mod 10 <= 9) by (Z.div_mod_to_equations; lia).
  assert (H3 : 0 <= y / 10 mod 10 <= 9) by (Z.div_mod_to_equations; lia).
  assert (H4 : 0 <= y mod 10 <= 9) by (Z.div_mod_to_equations; lia).
  destruct (digit_char_spec _ H1) as [-> ->].
  destruct (digit_char_spec _ H2) as [-> ->].
  destruct (digit_char_spec _ H3) as [-> ->].
  destruct (digit_char_spec _ H4) as [-> ->].
  cbn [andb]. do 2 f_equal. Z.div_mod_to_equations. lia.
Qed.

Lemma re_m_pad2 : forall m r,
  1 <= m <= 12 ->
  exists tl, re_m (Encoder.pad2 m ++ String "-" r) = (m, String "-" r) :: tl.
Proof.
  intros m r H.
  destruct (pad2_digits m ltac:(lia)) as [a [b [-> [Ha [Hb E]]]]].
  pose proof (is_digit_range a Ha). pose proof (is_digit_range b Hb).
  unfold re_m, two, one, digit_in. cbn [append]. rewrite Ha, Hb.
  cbn -[Z.mul Z.add Z.leb]. rewrite <- E.
  leb_cases; cbn -[Z.mul Z.add]; eauto; lia.
Qed.

Lemma re_d_pad2 : forall d,
  1 <= d <= 31 ->
  exists tl, re_d (Encoder.pad2 d) = (d, "") :: tl.
Proof.
  intros d H.
  destruct (pad2_digits d ltac:(lia)) as [a [b [-> [Ha [Hb E]]]]].
  pose proof (is_digit_range a Ha). pose proof (is_digit_range b Hb).
  unfold re_d, two, one, digit_in. rewrite Ha, Hb.
  cbn -[Z.mul Z.add Z.leb]. rewrite <- E.
  leb_cases; cbn -[Z.mul Z.add]; eauto; lia.
Qed.

Lemma valid_date_bounds : forall y m d,
  valid_date y m d = true -> 1 <= y <= 9999 /\ 1 <= m <= 12 /\ 1 <= d <= 31.
Proof.
  intros y m d H. unfold valid_date in H.
  rewrite !andb_true_iff, !Z.leb_le in H.
  assert (days_in_month y m <= 31).
  { unfold days_in_month.
    destruct (m =? 2); [destruct (is_leap y); lia|].
    destruct ((m =? 4) || (m =? 6) || (m =? 9) || (m =? 11))%bool; lia. }
  lia.
Qed.

Lemma strptime_Ymd_isoformat : forall d,
  valid_date (year d) (month d) (day d) = true ->
  strptime_Ymd (Encoder.date_isoformat d) = Ok d.
Proof.
  intros [y m d] H. simpl in H.
  destruct (valid_date_bounds y m d H) as [Hy [Hm Hd]].
  unfold strptime_Ymd, matches_Ymd, Encoder.date_isoformat. simpl year.
  simpl month. simpl day.
  rewrite (re_Y_pad4 y _ ltac:(lia)).
  change ("-" ++ Encoder.pad2 m ++ "-" ++ Encoder.pad2 d)
    with (String "-" (Encoder.pad2 m ++ String "-" (Encoder.pad2 d))).
  destruct (re_m_pad2 m (Encoder.pad2 d) Hm) as [t1 E1].
  destruct (re_d_pad2 d Hd) as [t2 E2].
  cbn -[re_m re_d Encoder.pad2]. rewrite E1.
  cbn -[re_m re_d Encoder.pad2]. rewrite E2.
  cbn -[re_m re_d Encoder.pad2 valid_date]. now rewrite H.
Qed.

Lemma strptime_Ymd_valid : forall s d,
  strptime_Ymd s = Ok d -> valid_date (year d) (month d) (day d) = true.
Proof.
  intros s d H. unfold strptime_Ymd in H.
  destruct (matches_Ymd s) as [|[[[y m] d'] r] tl]; [discriminate|].
  destruct r; [|discriminate].
  destruct (valid_date y m d') eqn:V; [|discriminate].
  injection H as <-. exact V.
Qed.

(** The first match of a padded time of day, whatever follows it. *)
Lemma matches_HMS_padded : forall h m s rest,
  valid_time h m s = true ->
  exists tl,
    matches_HMS (Encoder.pad2 h ++ ":" ++ Encoder.pad2 m ++ ":"
                 ++ Encoder.pad2 s ++ rest)
    = (h, m, s, rest) :: tl.
Proof.
  intros h m s rest V. unfold valid_time in V.
  rewrite !andb_true_iff, !Z.leb_le in V.
  unfold matches_HMS.
  change (":" ++ Encoder.pad2 m ++ ":" ++ Encoder.pad2 s ++ rest)
    with (String ":" (Encoder.pad2 m ++ String ":" (Encoder.pad2 s ++ rest))).
  destruct (re_H_head (Encoder.pad2 h) h
              (Encoder.pad2 m ++ String ":" (Encoder.pad2 s ++ rest))
              (pad2_digits12 h ltac:(lia)) ltac:(lia)) as [t1 E1].
  rewrite E1.
  destruct (re_M_head (Encoder.pad2 m) m (Encoder.pad2 s ++ rest)
              (pad2_digits12 m ltac:(lia)) ltac:(lia)) as [t2 E2].
  assert (E3 : exists t3, re_S (Encoder.pad2 s ++ rest) = (s, rest) :: t3).
  { destruct (pad2_digits s ltac:(lia)) as [a [b [-> [Ha [Hb E]]]]].
    pose proof (is_digit_range a Ha). pose proof (is_digit_range b Hb).
    unfold re_S, two, one, digit_in. cbn [append]. rewrite Ha, Hb.
    cbn -[Z.mul Z.add Z.leb]. rewrite <- E. clear E1 E2.
    leb_cases; cbn -[Z.mul Z.add]; eauto; lia. }
  destruct E3 as [t3 E3].
  cbn [flat_map fst snd lit Ascii.eqb Bool.eqb app]. rewrite E2.
  cbn [flat_map fst snd lit Ascii.eqb Bool.eqb app map]. rewrite E3.
  cbn [flat_map fst snd lit Ascii.eqb Bool.eqb app map]. eauto.
Qed.

(** X17: [to_date] returns only dates of the calendar (years 1 to 9999),
    and returns each of them for its ISO rendering, the text that
    [JSONEncoder.default] writes for it. *)
Theorem to_date_inverts_isoformat :
  (forall s d,
     to_date (VStr s) = Ok (VDate d) ->
     valid_date (year d) (month d) (day d) = true)
  /\ (forall d,
        valid_date (year d) (month d) (day d) = true ->
        bind (Encoder.default (VDate d)) to_date = Ok (VDate d)).
Proof.
  split.
  - intros s d H. simpl in H.
    destruct (strptime_Ymd s) as [d'|e] eqn:E; [|discriminate].
    simpl in H. injection H as <-. exact (strptime_Ymd_valid s d' E).
  - intros d H. unfold Encoder.default, to_date. cbn [bind].
    now rewrite (strptime_Ymd_isoformat d H).
Qed.

Lemma to_date_inverts_isoformat_witness :
  bind (Encoder.default (VDate (mkdate 2024 2 29))) to_date
  = Ok (VDate (mkdate 2024 2 29)).
Proof.
  apply (proj2 to_date_inverts_isoformat (mkdate 2024 2 29)). reflexivity.
Defined.

(** X18: for every time of day, [to_time] reads its padded rendering
    followed by "Z" back as that time in UTC; but it raises on the ISO
    rendering of the UTC time, the text that [JSONEncoder.default] writes
    for it, which ends in "+00:00". *)
Theorem to_time_and_isoformat : forall h m s,
  valid_time h m s = true ->
  to_time (VStr (Encoder.time_isoformat (mktime h m s false) ++ "Z"))
  = Ok (VTime (mktime h m s true))
  /\ bind (Encoder.default (VTime (mktime h m s true))) to_time
     = Raise ValueError.
Proof.
  intros h m s V. split.
  - change "Z" with (String "Z"%char ""). unfold to_time.
    rewrite drop_last_snoc. unfold Encoder.time_isoformat.
    cbn [hour minute second tz_utc]. unfold bind, strptime_HMS.
    destruct (matches_HMS_padded h m s "" V) as [tl ->]. now rewrite V.
  - unfold Encoder.default, Encoder.time_isoformat, to_time.
    cbn [bind hour minute second tz_utc].
    replace (Encoder.pad2 h ++ ":" ++ Encoder.pad2 m ++ ":"
             ++ Encoder.pad2 s ++ "+00:00")
      with ((Encoder.pad2 h ++ ":" ++ Encoder.pad2 m ++ ":"
               ++ Encoder.pad2 s ++ "+00:0") ++ String "0"%char "").
    + rewrite drop_last_snoc. unfold strptime_HMS.
      destruct (matches_HMS_padded h m s "+00:0" V) as [tl ->]. reflexivity.
    + rewrite !append_assoc. reflexivity.
Qed.

Lemma to_time_and_isoformat_witness :
  to_time (VStr "05:00:00Z") = Ok (VTime (mktime 5 0 0 true))
  /\ to_time (VStr "05:00:00+00:00") = Raise ValueError.
Proof. exact (to_time_and_isoformat 5 0 0 eq_refl). Defined.

(* ================================================================= *)
(** * The cache *)

(** X19: [cache_enable] for a directory that does not exist raises
    [WrongDirectory] and makes no session: [cache_get] goes on with the
    session there was before (or raises, as before, when there was none),
    although [_path] already names the missing directory.  For a directory
    that exists it installs a new session for the cache file in it. *)
Theorem cache_enable_missing_directory :
  forall (Session : Type) (path_exists : string -> bool)
         (join : string -> string -> string) (normpath : string -> string)
         (CachedSession : string -> value -> dict -> Session)
         (clear : Session -> Session)
         (session_get : Session -> string -> response * Session)
         path headers expires_after clear_flag st,
  let run := Cache.cache_enable Session path_exists join normpath
               CachedSession clear path headers expires_after clear_flag st in
  (path_exists path = false ->
   fst run = Raise WrongDirectory
   /\ Cache._session Session (snd run) = Cache._session Session st
   /\ Cache._path Session (snd run) = path
   /\ forall url,
        fst (Cache.cache_get Session session_get url (snd run))
        = fst (Cache.cache_get Session session_get url st))
  /\ (path_exists path = true ->
      fst run = Ok tt
      /\ Cache._path Session (snd run) = path
      /\ Cache._session Session (snd run)
         = Some ((if clear_flag then clear else fun s => s)
                   (CachedSession (normpath (join path "yuki_cache"))
                      expires_after headers))).
Proof.
  intros. unfold run, Cache.cache_enable, Cache.path_create. split; intros H;
    rewrite H; simpl.
  - repeat split. intros url. unfold Cache.cache_get. simpl.
    destruct (Cache._session Session st) as [s|]; [|reflexivity].
    destruct (session_get s url). reflexivity.
  - destruct clear_flag; repeat split.
Qed.

Lemma cache_enable_missing_directory_witness :
  fst (Cache.cache_enable unit (fun _ => false) append (fun p => p)
         (fun _ _ _ => tt) (fun s => s) "tests/wrongdir"
         [("User-Agent", VStr "Yukinator testing")] (VInt 3600) true
         (Cache.State unit None ""))
  = Raise WrongDirectory.
Proof.
  apply (proj1 (cache_enable_missing_directory unit (fun _ => false) append
                  (fun p => p) (fun _ _ _ => tt) (fun s => s)
                  (fun s _ => (Response 200 (Ok VNone), s)) "tests/wrongdir"
                  [("User-Agent", VStr "Yukinator testing")] (VInt 3600) true
                  (Cache.State unit None ""))).
  reflexivity.
Defined.

(* ================================================================= *)
(** * More about nested records and races *)

Lemma list_converter_Ok : forall cls items v,
  bind (iterate (VList items))
       (fun xs => bind (mapM (new cls) xs) (fun os => Ok (VList os))) = Ok v
  <-> exists os,
        v = VList os
        /\ Forall2 (fun x o => new cls x = Ok o
                               /\ class_of o = Some (class_name cls))
                   items os.
Proof.
  intros cls items v. simpl. split.
  - destruct (mapM (new cls) items) as [os|e] eqn:E; [|discriminate].
    simpl. intros [= <-]. exists os. split; [reflexivity|].
    apply mapM_Ok in E.
    induction E as [|x o l l' Hx _ IH]; [constructor|].
    constructor; [|exact IH]. split; [exact Hx|].
    exact (new_class_of cls x o Hx).
  - intros [os [-> H]].
    assert (E : mapM (new cls) items = Ok os).
    { apply mapM_Ok. induction H as [|x o l l' [Hx _] _ IH];
        constructor; assumption. }
    now rewrite E.
Qed.

(** X20: the converters of list-valued attributes return a list exactly
    when every item of the raw list constructs, with one record of the type
    per item, in order; a mapping in the place of the list is a
    [TypeError], unless it is empty, which gives the empty list. *)
Theorem list_converters :
  (forall items v,
     to_timings_dto_list (VList items) = Ok v <->
     exists os,
       v = VList os
       /\ Forall2 (fun x o => new TimingDTO x = Ok o
                              /\ class_of o = Some "TimingDTO") items os)
  /\ (forall items v,
        to_constructors_dto_list (VList items) = Ok v <->
        exists os,
          v = VList os
          /\ Forall2 (fun x o => new ConstructorDTO x = Ok o
                                 /\ class_of o = Some "ConstructorDTO")
                     items os)
  /\ (forall d,
        to_constructors_dto_list (VDict d)
        = match d with [] => Ok (VList []) | _ => Raise TypeError end)
  /\ (forall d,
        to_timings_dto_list (VDict d)
        = match d with [] => Ok (VList []) | _ => Raise TypeError end).
Proof.
  split; [exact (list_converter_Ok TimingDTO)|].
  split; [exact (list_converter_Ok ConstructorDTO)|].
  split; intros [|[k v] d]; reflexivity.
Qed.

Lemma list_converters_witness :
  exists os,
    VList [VObj "ConstructorDTO"
             [("constructorId", VStr "red_bull");
              ("url", VStr "http://example.org");
              ("name", VStr "Red Bull"); ("nationality", VStr "Austrian")]]
    = VList os
    /\ Forall2 (fun x o => new ConstructorDTO x = Ok o
                           /\ class_of o = Some "ConstructorDTO")
               [Sample.constructor] os.
Proof.
  apply (proj1 (proj1 (proj2 list_converters) [Sample.constructor] _)).
  reflexivity.
Defined.

Lemma gen_without_descent : forall keys (d : dict),
  (forall k v, In (k, v) d -> descends keys k v = false) ->
  _flatten_dict_gen keys d "" = d.
Proof.
  intros keys d. unfold _flatten_dict_gen.
  induction d as [|[k v] d IH]; intros H; cbn [flat_map]; [reflexivity|].
  rewrite yield_entry_descends, (H k v (or_introl eq_refl)), new_key_top.
  cbn [app]. f_equal. apply IH. intros k' v' Hin. apply H. now right.
Qed.

(** X21: for a race item none of whose session keys holds a sub-object,
    [get_races] constructs the record as [RaceDTO( **item)] does: the
    flattening changes nothing, and the circuit stays a nested mapping for
    its converter. *)
Theorem race_without_sessions : forall d,
  NoDup (keys_of d) ->
  (forall k v, In (k, v) d -> In k race_keys -> is_mapping v = false) ->
  flat_dict (VDict d) (Some race_keys) = Ok d
  /\ race_of_item (VDict d) = to_race_dto (VDict d).
Proof.
  intros d Hn Hs.
  assert (E : flat_dict (VDict d) (Some race_keys) = Ok d).
  { simpl. f_equal. unfold flatten_dict.
    rewrite gen_without_descent; [now apply dict_of_items_distinct|].
    intros k v Hin. unfold descends.
    destruct (is_mapping v) eqn:Em; [|reflexivity].
    destruct (key_in k (Some race_keys)) eqn:Ek; [|reflexivity].
    exfalso. assert (Hk : In k race_keys).
    { destruct (key_in_race_keys k Ek) as [->|[->|[->|[->| ->]]]];
        simpl; tauto. }
    rewrite (Hs k v Hin Hk) in Em. discriminate. }
  split; [exact E|]. unfold race_of_item. rewrite E. reflexivity.
Qed.

Lemma race_without_sessions_witness :
  race_of_item
    (VDict [("season", VStr "1950"); ("round", VStr "1");
            ("url", VStr "http://example.org");
            ("raceName", VStr "British Grand Prix");
            ("Circuit", Sample.circuit); ("date", VStr "1950-05-13")])
  = to_race_dto
      (VDict [("season", VStr "1950"); ("round", VStr "1");
              ("url", VStr "http://example.org");
              ("raceName", VStr "British Grand Prix");
              ("Circuit", Sample.circuit); ("date", VStr "1950-05-13")]).
Proof.
  apply (proj2 (race_without_sessions
                  [("season", VStr "1950"); ("round", VStr "1");
                   ("url", VStr "http://example.org");
                   ("raceName", VStr "British Grand Prix");
                   ("Circuit", Sample.circuit); ("date", VStr "1950-05-13")]
                  ltac:(apply distinct_NoDup; reflexivity)
                  ltac:(simpl; intros k v H Hk;
                        repeat (destruct H as [[= <- <-]|H];
                                [first [reflexivity
                                       |exfalso;
                                        repeat (destruct Hk as [Hk|Hk];
                                                [discriminate Hk|]);
                                        contradiction]|]);
                        contradiction))).
Defined.
